(** * Sensor framework (sensorFw.c): registration and dispatch engine

    A shallow embedding of [src/sensorFw/sensorFw.c].  The framework sits
    between sensor plugins (which hand in callbacks as function pointers) and
    the Data Hub.  Everything outside the component -- the Data Hub [io_*]
    API, the periodicSensor [psensor_*] API, the JSON helper, [le_utf8_Copy]
    and the plugin callbacks themselves -- is gathered in a [Platform]
    record; every call that leaves the component is appended to a trace, so
    that "was invoked once" and "nothing was pushed" are statements about
    that trace. *)

From stdpp Require Import gmap strings list pretty.
From Stdlib Require Import ZArith Ascii.

Open Scope Z_scope.
Open Scope string_scope.

(** ** Legato base types *)

(** [le_result_t] of legato.h.  The source names [LE_OK], [LE_FAULT] and
    [LE_DUPLICATE]; the library functions it calls also answer
    [LE_NOT_FOUND], [LE_OVERFLOW] and [LE_FORMAT_ERROR]; [LE_other] stands
    for any result code besides these. *)
Inductive le_result_t : Type :=
  | LE_OK
  | LE_FAULT
  | LE_DUPLICATE
  | LE_NOT_FOUND
  | LE_OVERFLOW
  | LE_FORMAT_ERROR
  | LE_other (code : Z).

Definition is_LE_OK (r : le_result_t) : bool :=
  match r with LE_OK => true | _ => false end.

Definition is_LE_DUPLICATE (r : le_result_t) : bool :=
  match r with LE_DUPLICATE => true | _ => false end.

(** Addresses.  [NULL] is address 0; plugin contexts ([void*]), callback
    function pointers and periodic sensor references are all plain
    addresses for the framework, which never looks behind them. *)
Abbreviation ptr := nat (only parsing).
Abbreviation fnptr := nat (only parsing).
Abbreviation psensor_Ref_t := nat (only parsing).
Definition NULL : nat := 0%nat.

Definition is_NULL (p : nat) : bool := Nat.eqb p NULL.

(** [sensorfwDataType_t] (sensorFw.h) is a C enum, so the argument of
    [sensorFw_RegisterCallback] is an integer; the four enumerators take
    the values 0..3 in declaration order. *)
Definition sensorfwDataType_t := Z.
Definition SF_CB_NUMERIC : sensorfwDataType_t := 0.
Definition SF_CB_STRING  : sensorfwDataType_t := 1.
Definition SF_CB_BOOLEAN : sensorfwDataType_t := 2.
Definition SF_CB_JSON    : sensorfwDataType_t := 3.

(** [io_DataType_t] of the Data Hub: the four kinds the source switches
    on, and any other value the field may hold. *)
Inductive io_DataType_t : Type :=
  | IO_DATA_TYPE_BOOLEAN
  | IO_DATA_TYPE_NUMERIC
  | IO_DATA_TYPE_STRING
  | IO_DATA_TYPE_JSON
  | IO_DATA_TYPE_other (tag : Z).

(** ** Constants of sensorFw.c *)

Definition DEFAULT_SAMPLING_PERIOD_SEC : Z := 60.
Definition MAX_RESOURCE_NAME_LEN : nat := 20.
Definition MAX_RES_STRING_LEN : nat := 1024.
(** [char extractedData[128]] in [ParseSensorInfo]. *)
Definition EXTRACTED_DATA_LEN : nat := 128.
Definition sizeof_bool : nat := 1.
Definition sizeof_double : nat := 8.

(** config.h *)
Definition SENSOR_HANDLER_POOL_SIZE (LE_CONFIG_REDUCE_FOOTPRINT : bool) : nat :=
  if LE_CONFIG_REDUCE_FOOTPRINT then 100 else 1000.

(** [int] arithmetic for [RegisteredSensorCount++]. *)
Definition INT_MAX : Z := 2147483647.
Definition int_wrap (z : Z) : Z := (z + 2147483648) mod 4294967296 - 2147483648.
Definition int_incr (z : Z) : Z := int_wrap (z + 1).

(** ** Data structures *)

Record sensorInfo_t : Type := mk_sensorInfo {
  sensorId : Z;
  name : string;
  path : string;
  isReadOnce : bool;
  unit : string;
  type : io_DataType_t;
  sensorRef : psensor_Ref_t
}.

(** [sensorfwCallbacks_t].  The [sample] member is a C union of four
    function pointers: one storage slot, read back under whichever member
    name the payload kind selects. *)
Record sensorfwCallbacks_t : Type := mk_callbacks {
  infoCb : fnptr;
  configCb : fnptr;
  sample : fnptr
}.

(** A pointer to a callbacks structure, [None] for the null pointer.  A
    structure written where such a pointer is expected stands for its
    address, as in [&pluginCb]. *)
Definition callbacks_ptr : Type := option sensorfwCallbacks_t.

Definition address_of (cb : sensorfwCallbacks_t) : callbacks_ptr := Some cb.

Coercion address_of : sensorfwCallbacks_t >-> callbacks_ptr.

Record sensorHandler_t : Type := mk_handler {
  info : sensorInfo_t;
  callbacks : sensorfwCallbacks_t;
  pluginContextPtr : ptr
}.

Definition set_info (f : sensorInfo_t -> sensorInfo_t) (h : sensorHandler_t) :=
  mk_handler (f (info h)) (callbacks h) (pluginContextPtr h).

Definition set_name (v : string) (i : sensorInfo_t) :=
  mk_sensorInfo (sensorId i) v (path i) (isReadOnce i) (unit i) (type i) (sensorRef i).
Definition set_path (v : string) (i : sensorInfo_t) :=
  mk_sensorInfo (sensorId i) (name i) v (isReadOnce i) (unit i) (type i) (sensorRef i).
Definition set_isReadOnce (v : bool) (i : sensorInfo_t) :=
  mk_sensorInfo (sensorId i) (name i) (path i) v (unit i) (type i) (sensorRef i).
Definition set_unit (v : string) (i : sensorInfo_t) :=
  mk_sensorInfo (sensorId i) (name i) (path i) (isReadOnce i) v (type i) (sensorRef i).
Definition set_sensorId (v : Z) (i : sensorInfo_t) :=
  mk_sensorInfo v (name i) (path i) (isReadOnce i) (unit i) (type i) (sensorRef i).
Definition set_type (v : io_DataType_t) (i : sensorInfo_t) :=
  mk_sensorInfo (sensorId i) (name i) (path i) (isReadOnce i) (unit i) v (sensorRef i).
Definition set_sensorRef (v : psensor_Ref_t) (i : sensorInfo_t) :=
  mk_sensorInfo (sensorId i) (name i) (path i) (isReadOnce i) (unit i) (type i) v.

Definition set_configCb (v : fnptr) (h : sensorHandler_t) :=
  mk_handler (info h) (mk_callbacks (infoCb (callbacks h)) v (sample (callbacks h)))
             (pluginContextPtr h).
Definition set_sample (v : fnptr) (h : sensorHandler_t) :=
  mk_handler (info h) (mk_callbacks (infoCb (callbacks h)) (configCb (callbacks h)) v)
             (pluginContextPtr h).
Definition set_pluginContextPtr (v : ptr) (h : sensorHandler_t) :=
  mk_handler (info h) (callbacks h) v.

(** ** Calls that leave the component

    One constructor per external function the source calls.  Pushes are
    always stamped [IO_NOW], so the timestamp is not recorded.  String
    callbacks receive a buffer: [None] when the framework hands over an
    uninitialised stack array, [Some txt] when the buffer carries text. *)
Inductive event (double : Type) : Type :=
  | E_pfBool (f : fnptr) (length : nat) (contextPtr : ptr)
  | E_pfNumeric (f : fnptr) (length : nat) (contextPtr : ptr)
  | E_pfString (f : fnptr) (buffer : option string) (length : nat) (contextPtr : ptr)
  | E_io_CreateInput (p : string) (t : io_DataType_t) (u : string)
  | E_io_CreateOutput (p : string) (t : io_DataType_t) (u : string)
  | E_psensor_Create (p : string) (t : io_DataType_t) (u : string) (contextPtr : ptr)
  | E_io_PushBoolean (p : string) (v : bool)
  | E_io_PushNumeric (p : string) (v : double)
  | E_io_PushString (p : string) (v : string)
  | E_io_PushJson (p : string) (v : string)
  | E_psensor_PushBoolean (r : psensor_Ref_t) (v : bool)
  | E_psensor_PushNumeric (r : psensor_Ref_t) (v : double)
  | E_psensor_PushString (r : psensor_Ref_t) (v : string)
  | E_psensor_PushJson (r : psensor_Ref_t) (v : string)
  | E_io_AddJsonPushHandler (p : string) (contextPtr : ptr).

Arguments E_pfBool {double}.
Arguments E_pfNumeric {double}.
Arguments E_pfString {double}.
Arguments E_io_CreateInput {double}.
Arguments E_io_CreateOutput {double}.
Arguments E_psensor_Create {double}.
Arguments E_io_PushBoolean {double}.
Arguments E_io_PushNumeric {double}.
Arguments E_io_PushString {double}.
Arguments E_io_PushJson {double}.
Arguments E_psensor_PushBoolean {double}.
Arguments E_psensor_PushNumeric {double}.
Arguments E_psensor_PushString {double}.
Arguments E_psensor_PushJson {double}.
Arguments E_io_AddJsonPushHandler {double}.

(** A push of a sample or of a configuration document to the hub. *)
Definition is_push {double} (e : event double) : bool :=
  match e with
  | E_io_PushBoolean _ _ | E_io_PushNumeric _ _
  | E_io_PushString _ _ | E_io_PushJson _ _
  | E_psensor_PushBoolean _ _ | E_psensor_PushNumeric _ _
  | E_psensor_PushString _ _ | E_psensor_PushJson _ _ => true
  | _ => false
  end.

(** A call into plugin code. *)
Definition is_callback {double} (e : event double) : bool :=
  match e with
  | E_pfBool _ _ _ | E_pfNumeric _ _ _ | E_pfString _ _ _ _ => true
  | _ => false
  end.

(** A call that creates a hub resource. *)
Definition is_create {double} (e : event double) : bool :=
  match e with
  | E_io_CreateInput _ _ _ | E_io_CreateOutput _ _ _ | E_psensor_Create _ _ _ _ => true
  | _ => false
  end.

(** ** The platform

    What the component is linked against.  Answers of the hub and of the
    plugins may depend on everything that happened before, hence the trace
    argument.  The two buffer sizes come from the Data Hub's [io] API
    header and the pool size switch from the Legato build configuration. *)
Record Platform : Type := mk_Platform {
  double : Type;
  double_of_int : Z -> double;
  IO_MAX_RESOURCE_PATH_LEN : nat;
  IO_MAX_UNITS_NAME_LEN : nat;
  LE_CONFIG_REDUCE_FOOTPRINT : bool;
  (** [json_Extract json key bufSize]: result and text left in the buffer *)
  json_Extract : string -> string -> nat -> le_result_t * string;
  json_ConvertToBoolean : string -> bool;
  (** [le_utf8_Copy src destSize]: result and text left in the destination *)
  le_utf8_Copy : string -> nat -> le_result_t * string;
  io_CreateInput : list (event double) -> string -> io_DataType_t -> string -> le_result_t;
  io_CreateOutput : list (event double) -> string -> io_DataType_t -> string -> le_result_t;
  psensor_Create :
    list (event double) -> string -> io_DataType_t -> string -> ptr -> psensor_Ref_t;
  call_pfBool : fnptr -> list (event double) -> nat -> ptr -> le_result_t * bool;
  call_pfNumeric : fnptr -> list (event double) -> nat -> ptr -> le_result_t * double;
  call_pfString :
    fnptr -> list (event double) -> option string -> nat -> ptr -> le_result_t * string;
  (** contents of a pool block as [le_mem_ForceAlloc] hands it out *)
  le_mem_block : ptr -> sensorHandler_t
}.

Section SensorFw.

Context (P : Platform).

Abbreviation ev := (event (double P)).

(** ** Component state

    [SensorHandlerPool] holds the live objects of the static pool, keyed by
    address; [poolBlocks] is the number of blocks the pool owns and
    [numOverflows] counts the times [le_mem_ForceAlloc] had to grow it. *)
Record State : Type := mk_State {
  SensorHandlerPool : gmap ptr sensorHandler_t;
  poolBlocks : nat;
  numOverflows : nat;
  RegisteredSensorCount : Z;
  trace : list ev
}.

(** How a call into the component ends: it returns, or an [LE_ASSERT]
    fails and the framework terminates the process, or the code reads
    through an address that is not a live pool object. *)
Inductive outcome (A : Type) : Type :=
  | Returns (a : A) (s : State)
  | Fatal (s : State)
  | Undefined.

Arguments Returns {A}.
Arguments Fatal {A}.
Arguments Undefined {A}.

Definition M (A : Type) : Type := State -> outcome A.

Definition ret {A} (a : A) : M A := fun s => Returns a s.

Definition bind {A B} (m : M A) (k : A -> M B) : M B :=
  fun s =>
    match m s with
    | Returns a s' => k a s'
    | Fatal s' => Fatal s'
    | Undefined => Undefined
    end.

Notation "x <- m ;; k" := (bind m (fun x => k))
  (at level 90, m at level 80, k at level 200, right associativity, only parsing).
Notation "m ;;; k" := (bind m (fun _ => k))
  (at level 90, k at level 200, right associativity, only parsing).

Definition with_trace (t : list ev) (s : State) : State :=
  mk_State (SensorHandlerPool s) (poolBlocks s) (numOverflows s)
           (RegisteredSensorCount s) t.

Definition with_pool (m : gmap ptr sensorHandler_t) (s : State) : State :=
  mk_State m (poolBlocks s) (numOverflows s) (RegisteredSensorCount s) (trace s).

Definition with_count (c : Z) (s : State) : State :=
  mk_State (SensorHandlerPool s) (poolBlocks s) (numOverflows s) c (trace s).

(** record a call and continue *)
Definition emit (e : ev) : M Datatypes.unit :=
  fun s => Returns tt (with_trace (trace s ++ [e]) s).

(** record a call and take the platform's answer, which may depend on the
    calls made so far *)
Definition ask {A} (e : ev) (answer : list ev -> A) : M A :=
  fun s => Returns (answer (trace s)) (with_trace (trace s ++ [e]) s).

Definition LE_ASSERT (condition : bool) : M Datatypes.unit :=
  fun s => if condition then Returns tt s else Fatal s.

(** [*handlerPtr] *)
Definition deref (handlerPtr : ptr) : M sensorHandler_t :=
  fun s =>
    match SensorHandlerPool s !! handlerPtr with
    | Some h => Returns h s
    | None => Undefined
    end.

(** [handlerPtr->field = ...] *)
Definition store (handlerPtr : ptr) (f : sensorHandler_t -> sensorHandler_t)
  : M Datatypes.unit :=
  fun s =>
    match SensorHandlerPool s !! handlerPtr with
    | Some h => Returns tt (with_pool (<[handlerPtr := f h]> (SensorHandlerPool s)) s)
    | None => Undefined
    end.

(** ** Memory pool ([le_mem])

    [le_mem_ForceAlloc] never returns [NULL]: when no block is free it
    grows the pool by one block and counts an overflow.  The block it
    hands out is at a non-null address that is not in use. *)
Definition le_mem_ForceAlloc : M ptr :=
  fun s =>
    let pool := SensorHandlerPool s in
    let p := fresh ({[NULL]} ∪ dom pool) in
    let full := Nat.leb (poolBlocks s) (size pool) in
    Returns p
      (mk_State (<[p := le_mem_block P p]> pool)
                (if full then S (poolBlocks s) else poolBlocks s)
                (if full then S (numOverflows s) else numOverflows s)
                (RegisteredSensorCount s) (trace s)).

(** [le_mem_Release]: the only reference is dropped, the block goes back
    to the pool. *)
Definition le_mem_Release (handlerPtr : ptr) : M Datatypes.unit :=
  fun s => Returns tt (with_pool (delete handlerPtr (SensorHandlerPool s)) s).

(** A read through [cbPtr]: not defined for the null pointer. *)
Definition deref_callbacks (cbPtr : callbacks_ptr) : M sensorfwCallbacks_t :=
  fun s =>
    match cbPtr with
    | Some cb => Returns cb s
    | None => Undefined
    end.

(** [snprintf(resourcePath, size, "%s/%s", a, b)]: at most [size - 1]
    characters are stored. *)
Definition snprintf_path (size : nat) (a b : string) : string :=
  String.substring 0 (size - 1) (a +:+ "/" +:+ b).

Definition resourcePath_size : nat :=
  (IO_MAX_RESOURCE_PATH_LEN P + MAX_RESOURCE_NAME_LEN)%nat.

(** ** PushData: sample and push *)
Definition PushData (handlerPtr : ptr) : M le_result_t :=
  h <- deref handlerPtr ;;
  match type (info h) with
  | IO_DATA_TYPE_BOOLEAN =>
      r <- ask (E_pfBool (sample (callbacks h)) sizeof_bool (pluginContextPtr h))
               (fun t => call_pfBool P (sample (callbacks h)) t sizeof_bool
                                     (pluginContextPtr h)) ;;
      if is_LE_OK (fst r) then
        (if isReadOnce (info h)
         then emit (E_io_PushBoolean (path (info h)) (snd r))
         else emit (E_psensor_PushBoolean (sensorRef (info h)) (snd r))) ;;;
        ret LE_OK
      else ret LE_FAULT
  | IO_DATA_TYPE_NUMERIC =>
      r <- ask (E_pfNumeric (sample (callbacks h)) sizeof_double (pluginContextPtr h))
               (fun t => call_pfNumeric P (sample (callbacks h)) t sizeof_double
                                        (pluginContextPtr h)) ;;
      if is_LE_OK (fst r) then
        (if isReadOnce (info h)
         then emit (E_io_PushNumeric (path (info h)) (snd r))
         else emit (E_psensor_PushNumeric (sensorRef (info h)) (snd r))) ;;;
        ret LE_OK
      else ret LE_FAULT
  | IO_DATA_TYPE_STRING =>
      r <- ask (E_pfString (sample (callbacks h)) None MAX_RES_STRING_LEN
                           (pluginContextPtr h))
               (fun t => call_pfString P (sample (callbacks h)) t None
                                       MAX_RES_STRING_LEN (pluginContextPtr h)) ;;
      if is_LE_OK (fst r) then
        (if isReadOnce (info h)
         then emit (E_io_PushString (path (info h)) (snd r))
         else emit (E_psensor_PushString (sensorRef (info h)) (snd r))) ;;;
        ret LE_OK
      else ret LE_FAULT
  | IO_DATA_TYPE_JSON =>
      r <- ask (E_pfString (sample (callbacks h)) None MAX_RES_STRING_LEN
                           (pluginContextPtr h))
               (fun t => call_pfString P (sample (callbacks h)) t None
                                       MAX_RES_STRING_LEN (pluginContextPtr h)) ;;
      if is_LE_OK (fst r) then
        (if isReadOnce (info h)
         then emit (E_io_PushJson (path (info h)) (snd r))
         else emit (E_psensor_PushJson (sensorRef (info h)) (snd r))) ;;;
        ret LE_OK
      else ret LE_FAULT
  | IO_DATA_TYPE_other _ => ret LE_OK
  end.

(** ** PushConfig: read the configuration and push it to [<path>/config]

    The source calls [configCb] without testing it for null; the model
    asks the platform for the answer of the call at whatever address the
    entry holds, so what is proved of the call is about entries that have
    the callback. *)
Definition PushConfig (handlerPtr : ptr) : M le_result_t :=
  h <- deref handlerPtr ;;
  r <- ask (E_pfString (configCb (callbacks h)) None MAX_RES_STRING_LEN
                       (pluginContextPtr h))
           (fun t => call_pfString P (configCb (callbacks h)) t None
                                   MAX_RES_STRING_LEN (pluginContextPtr h)) ;;
  let resourcePath := snprintf_path resourcePath_size (path (info h)) "config" in
  if is_LE_OK (fst r) then
    emit (E_io_PushJson resourcePath (snd r)) ;;;
    ret LE_OK
  else ret LE_FAULT.

(** ** ConfigUpdateHandler: the hub reports a push to [<path>/config]

    As in [PushConfig], [configCb] is called without a null test. *)
Definition ConfigUpdateHandler (timestamp : double P) (jsonStringPtr : string)
    (contextPtr : ptr) : M Datatypes.unit :=
  if is_NULL contextPtr then ret tt
  else
    h <- deref contextPtr ;;
    let configSize := String.length jsonStringPtr in
    _ <- ask (E_pfString (configCb (callbacks h)) (Some jsonStringPtr) configSize
                         (pluginContextPtr h))
             (fun t => call_pfString P (configCb (callbacks h)) t (Some jsonStringPtr)
                                     configSize (pluginContextPtr h)) ;;
    ret tt.

(** ** SampleSensor: the periodic sensor asks for a sample *)
Definition SampleSensor (sensorRef : psensor_Ref_t) (contextPtr : ptr)
  : M Datatypes.unit :=
  if is_NULL contextPtr then ret tt
  else PushData contextPtr ;;; ret tt.

(** ** AddDataHubEntry: create the hub resource, then sample once *)
Definition AddDataHubEntry (handlerPtr : ptr) : M Datatypes.unit :=
  h <- deref handlerPtr ;;
  (if isReadOnce (info h) then
     store handlerPtr (set_info (set_sensorRef NULL)) ;;;
     result <- ask (E_io_CreateInput (path (info h)) (type (info h)) (unit (info h)))
                   (fun t => io_CreateInput P t (path (info h)) (type (info h))
                                            (unit (info h))) ;;
     LE_ASSERT (is_LE_OK result || is_LE_DUPLICATE result)
   else
     ref <- ask (E_psensor_Create (path (info h)) (type (info h)) (unit (info h))
                                  handlerPtr)
                (fun t => psensor_Create P t (path (info h)) (type (info h))
                                         (unit (info h)) handlerPtr) ;;
     store handlerPtr (set_info (set_sensorRef ref)) ;;;
     LE_ASSERT (negb (is_NULL ref)) ;;;
     emit (E_io_PushBoolean (snprintf_path resourcePath_size (path (info h)) "enable")
                            true) ;;;
     emit (E_io_PushNumeric (snprintf_path resourcePath_size (path (info h)) "period")
                            (double_of_int P DEFAULT_SAMPLING_PERIOD_SEC))) ;;;
  PushData handlerPtr ;;;
  ret tt.

(** ** ParseSensorInfo

    Fills the record the caller passes in and returns it with the result;
    what [le_utf8_Copy] left in a field stays there on the error paths. *)
Definition ParseSensorInfo (jsonStringPtr : string) (sensorInfoPtr : sensorInfo_t)
  : le_result_t * sensorInfo_t :=
  let e1 := json_Extract P jsonStringPtr "name" EXTRACTED_DATA_LEN in
  if negb (is_LE_OK (fst e1)) then (LE_FAULT, sensorInfoPtr) else
  let c1 := le_utf8_Copy P (snd e1) MAX_RESOURCE_NAME_LEN in
  let i1 := set_name (snd c1) sensorInfoPtr in
  if negb (is_LE_OK (fst c1)) then (LE_FAULT, i1) else
  let e2 := json_Extract P jsonStringPtr "path" EXTRACTED_DATA_LEN in
  if negb (is_LE_OK (fst e2)) then (LE_FAULT, i1) else
  let c2 := le_utf8_Copy P (snd e2) (IO_MAX_RESOURCE_PATH_LEN P) in
  let i2 := set_path (snd c2) i1 in
  if negb (is_LE_OK (fst c2)) then (LE_FAULT, i2) else
  let e3 := json_Extract P jsonStringPtr "readOnce" EXTRACTED_DATA_LEN in
  let i3 :=
    if is_LE_OK (fst e3)
    then set_isReadOnce (json_ConvertToBoolean P (snd e3)) i2
    else set_isReadOnce false i2 in
  let e4 := json_Extract P jsonStringPtr "unit" EXTRACTED_DATA_LEN in
  if negb (is_LE_OK (fst e4)) then (LE_FAULT, i3) else
  let c4 := le_utf8_Copy P (snd e4) (IO_MAX_UNITS_NAME_LEN P) in
  let i4 := set_unit (snd c4) i3 in
  if negb (is_LE_OK (fst c4)) then (LE_FAULT, i4) else
  (LE_OK, i4).

(** ** sensorFw_PushSample *)
Definition sensorFw_PushSample (handlerPtr : ptr) : M le_result_t :=
  if is_NULL handlerPtr then ret LE_FAULT
  else PushData handlerPtr.

(** The [switch (type)] of [sensorFw_RegisterCallback]: the hub data type
    a payload kind is stored as, [None] for the [default:] label. *)
Definition switch_type (type_ : sensorfwDataType_t) : option io_DataType_t :=
  if Z.eqb type_ SF_CB_NUMERIC then Some IO_DATA_TYPE_NUMERIC
  else if Z.eqb type_ SF_CB_BOOLEAN then Some IO_DATA_TYPE_BOOLEAN
  else if Z.eqb type_ SF_CB_STRING then Some IO_DATA_TYPE_STRING
  else if Z.eqb type_ SF_CB_JSON then Some IO_DATA_TYPE_JSON
  else None.

(** ** sensorFw_RegisterCallback

    [cbPtr] is read for the first time when the config callback is
    stored, after the descriptor has been parsed; the plugin's structure
    is only read, so one read stands for all of them.  The
    [returnHandler] argument is not used by the source and is left out. *)
Definition sensorFw_RegisterCallback (jsonStringPtr : string)
    (type_ : sensorfwDataType_t) (cbPtr : callbacks_ptr) (contextPtr : ptr)
  : M le_result_t :=
  handlerPtr <- le_mem_ForceAlloc ;;
  h0 <- deref handlerPtr ;;
  let parsed := ParseSensorInfo jsonStringPtr (info h0) in
  store handlerPtr (set_info (fun _ => snd parsed)) ;;;
  if negb (is_LE_OK (fst parsed)) then
    le_mem_Release handlerPtr ;;;
    ret LE_FAULT
  else
    count <- (fun s => Returns (RegisteredSensorCount s) s) ;;
    store handlerPtr (set_info (set_sensorId count)) ;;;
    cb <- deref_callbacks cbPtr ;;
    store handlerPtr (set_configCb (configCb cb)) ;;;
    store handlerPtr (set_pluginContextPtr contextPtr) ;;;
    match switch_type type_ with
    | None => ret LE_FAULT
    | Some t =>
        store handlerPtr (set_info (set_type t)) ;;;
        store handlerPtr (set_sample (sample cb)) ;;;
        AddDataHubEntry handlerPtr ;;;
        (fun s => Returns tt (with_count (int_incr (RegisteredSensorCount s)) s)) ;;;
        h <- deref handlerPtr ;;
        (if negb (isReadOnce (info h)) && negb (is_NULL (configCb cb)) then
           let resourcePath :=
             snprintf_path resourcePath_size (path (info h)) "config" in
           result <- ask (E_io_CreateOutput resourcePath IO_DATA_TYPE_JSON "")
                         (fun t => io_CreateOutput P t resourcePath IO_DATA_TYPE_JSON "") ;;
           LE_ASSERT (is_LE_OK result || is_LE_DUPLICATE result) ;;;
           PushConfig handlerPtr ;;;
           emit (E_io_AddJsonPushHandler resourcePath handlerPtr)
         else ret tt) ;;;
        ret LE_OK
    end.

(** ** COMPONENT_INIT: the pool is initialised with its static blocks and
    the counter, a static [int], starts at zero. *)
Definition COMPONENT_INIT : State :=
  mk_State ∅ (SENSOR_HANDLER_POOL_SIZE (LE_CONFIG_REDUCE_FOOTPRINT P)) 0 0 [].

(** ** Stimuli from outside the component *)

(** The handlers subscribed at a hub path, in subscription order: the
    context pointers given to [io_AddJsonPushHandler] (the handler function
    is always [ConfigUpdateHandler]). *)
Fixpoint json_push_handlers (t : list ev) (p : string) : list ptr :=
  match t with
  | [] => []
  | E_io_AddJsonPushHandler p' contextPtr :: t' =>
      if String.eqb p' p then contextPtr :: json_push_handlers t' p
      else json_push_handlers t' p
  | _ :: t' => json_push_handlers t' p
  end.

Fixpoint run_handlers (timestamp : double P) (jsonText : string) (hs : list ptr)
  : M Datatypes.unit :=
  match hs with
  | [] => ret tt
  | contextPtr :: hs' =>
      ConfigUpdateHandler timestamp jsonText contextPtr ;;;
      run_handlers timestamp jsonText hs'
  end.

(** Modelled from the spec: the Data Hub itself is not part of the
    repository.  [AddJsonPushHandler(path, callback, context)] subscribes
    to externally-initiated writes: "a handler at [<path>/config] that
    fires whenever an external actor pushes a new JSON document to that
    path".  An external push therefore runs every handler subscribed at
    the path once, with the pushed text. *)
Definition hub_external_json_push (p : string) (timestamp : double P)
    (jsonText : string) : M Datatypes.unit :=
  fun s => run_handlers timestamp jsonText (json_push_handlers (trace s) p) s.

(** The sampling contexts registered with [psensor_Create], whose sample
    function is always [SampleSensor]. *)
Fixpoint periodic_targets (t : list ev) : list ptr :=
  match t with
  | [] => []
  | E_psensor_Create _ _ _ contextPtr :: t' => contextPtr :: periodic_targets t'
  | _ :: t' => periodic_targets t'
  end.

(** ** The dispatch step, as the design describes it

    "Selects the one populated callback according to the payload kind,
    invokes it with an output buffer/length hint and the plugin context.
    On success, pushes the returned value to the Hub using the
    data-kind-matching push primitive."  A sampled value is one of four
    kinds; [sample_call] is the call made for a handler, [sample_answer]
    what the plugin answers, and [push_of] the push that carries a value. *)
Inductive sample_value : Type :=
  | V_boolean (v : bool)
  | V_numeric (v : double P)
  | V_string (v : string)
  | V_json (v : string).

Definition sample_call (h : sensorHandler_t) : option ev :=
  let f := sample (callbacks h) in
  let ctx := pluginContextPtr h in
  match type (info h) with
  | IO_DATA_TYPE_BOOLEAN => Some (E_pfBool f sizeof_bool ctx)
  | IO_DATA_TYPE_NUMERIC => Some (E_pfNumeric f sizeof_double ctx)
  | IO_DATA_TYPE_STRING => Some (E_pfString f None MAX_RES_STRING_LEN ctx)
  | IO_DATA_TYPE_JSON => Some (E_pfString f None MAX_RES_STRING_LEN ctx)
  | IO_DATA_TYPE_other _ => None
  end.

Definition sample_answer (h : sensorHandler_t) (t : list ev)
  : option (le_result_t * sample_value) :=
  let f := sample (callbacks h) in
  let ctx := pluginContextPtr h in
  match type (info h) with
  | IO_DATA_TYPE_BOOLEAN =>
      let r := call_pfBool P f t sizeof_bool ctx in Some (fst r, V_boolean (snd r))
  | IO_DATA_TYPE_NUMERIC =>
      let r := call_pfNumeric P f t sizeof_double ctx in Some (fst r, V_numeric (snd r))
  | IO_DATA_TYPE_STRING =>
      let r := call_pfString P f t None MAX_RES_STRING_LEN ctx in
      Some (fst r, V_string (snd r))
  | IO_DATA_TYPE_JSON =>
      let r := call_pfString P f t None MAX_RES_STRING_LEN ctx in
      Some (fst r, V_json (snd r))
  | IO_DATA_TYPE_other _ => None
  end.

Definition push_of (h : sensorHandler_t) (v : sample_value) : ev :=
  if isReadOnce (info h) then
    match v with
    | V_boolean b => E_io_PushBoolean (path (info h)) b
    | V_numeric d => E_io_PushNumeric (path (info h)) d
    | V_string x => E_io_PushString (path (info h)) x
    | V_json x => E_io_PushJson (path (info h)) x
    end
  else
    match v with
    | V_boolean b => E_psensor_PushBoolean (sensorRef (info h)) b
    | V_numeric d => E_psensor_PushNumeric (sensorRef (info h)) d
    | V_string x => E_psensor_PushString (sensorRef (info h)) x
    | V_json x => E_psensor_PushJson (sensorRef (info h)) x
    end.

(** A push through the [io] API to the resource at path [p]. *)
Definition io_push_at (p : string) (e : ev) : bool :=
  match e with
  | E_io_PushBoolean p' _ | E_io_PushNumeric p' _
  | E_io_PushString p' _ | E_io_PushJson p' _ => String.eqb p' p
  | _ => false
  end.

(** The pushes recorded in a trace: what the hub has been given. *)
Definition pushes (t : list ev) : list ev := filter (fun e => is_push e = true) t.

(** The resource creations recorded in a trace. *)
Definition creations (t : list ev) : list ev := filter (fun e => is_create e = true) t.

(** The calls into plugin code recorded in a trace. *)
Definition plugin_calls (t : list ev) : list ev :=
  filter (fun e => is_callback e = true) t.

(** ** Vocabulary of the properties *)

(** A descriptor field is usable when [json_Extract] finds it (and it fits
    the 128-byte scratch buffer) and [le_utf8_Copy] reports that the text
    fits the destination buffer of the field. *)
Definition field_extracted (jsonStringPtr key : string) : bool :=
  is_LE_OK (fst (json_Extract P jsonStringPtr key EXTRACTED_DATA_LEN)).

Definition field_value (jsonStringPtr key : string) : string :=
  snd (json_Extract P jsonStringPtr key EXTRACTED_DATA_LEN).

Definition field_fits (jsonStringPtr key : string) (destSize : nat) : bool :=
  is_LE_OK (fst (le_utf8_Copy P (field_value jsonStringPtr key) destSize)).

Definition field_ok (jsonStringPtr key : string) (destSize : nat) : bool :=
  field_extracted jsonStringPtr key && field_fits jsonStringPtr key destSize.

Definition valid_descriptor (jsonStringPtr : string) : bool :=
  field_ok jsonStringPtr "name" MAX_RESOURCE_NAME_LEN
  && field_ok jsonStringPtr "path" (IO_MAX_RESOURCE_PATH_LEN P)
  && field_ok jsonStringPtr "unit" (IO_MAX_UNITS_NAME_LEN P).

(** The three text fields of a descriptor and the size of the buffer each
    is copied into. *)
Definition descriptor_fields : list (string * nat) :=
  [("name", MAX_RESOURCE_NAME_LEN);
   ("path", IO_MAX_RESOURCE_PATH_LEN P);
   ("unit", IO_MAX_UNITS_NAME_LEN P)].

(** The hub resource of the descriptor can be created (or exists). *)
Definition accepted (r : le_result_t) : bool := is_LE_OK r || is_LE_DUPLICATE r.

Definition hub_accepts : Prop :=
  (forall t p ty u, accepted (io_CreateInput P t p ty u) = true) /\
  (forall t p ty u, accepted (io_CreateOutput P t p ty u) = true) /\
  (forall t p ty u c, is_NULL (psensor_Create P t p ty u c) = false).

(** What [le_utf8_Copy] promises when it reports [LE_OK]: the destination
    holds the whole source text, which, with its terminator, is within
    the destination size. *)
Definition copy_exact : Prop :=
  forall src destSize d, le_utf8_Copy P src destSize = (LE_OK, d) -> d = src.

Definition copy_bounded : Prop :=
  forall src destSize d,
    le_utf8_Copy P src destSize = (LE_OK, d) -> (String.length d < destSize)%nat.

(** The address [le_mem_ForceAlloc] hands out in a state. *)
Definition next_block (s : State) : ptr :=
  fresh ({[NULL]} ∪ dom (SensorHandlerPool s)).

(** The entry [sensorFw_RegisterCallback] has filled in when it reaches
    [AddDataHubEntry]. *)
Definition new_entry (jsonStringPtr : string) (t : io_DataType_t)
    (cbPtr : sensorfwCallbacks_t) (contextPtr : ptr) (s : State) : sensorHandler_t :=
  let block := le_mem_block P (next_block s) in
  mk_handler
    (set_type t (set_sensorId (RegisteredSensorCount s)
                   (snd (ParseSensorInfo jsonStringPtr (info block)))))
    (mk_callbacks (infoCb (callbacks block)) (configCb cbPtr) (sample cbPtr))
    contextPtr.

(** One registration request. *)
Record request : Type := mk_request {
  req_json : string;
  req_type : sensorfwDataType_t;
  req_callbacks : sensorfwCallbacks_t;
  req_context : ptr
}.

Definition valid_request (q : request) : Prop :=
  valid_descriptor (req_json q) = true /\ is_Some (switch_type (req_type q)).

(** A plugin registering its sensors one after the other, as the
    [COMPONENT_INIT] loop of dm.c does; the results are collected. *)
Fixpoint register_all (reqs : list request) : M (list le_result_t) :=
  match reqs with
  | [] => ret []
  | q :: reqs' =>
      r <- sensorFw_RegisterCallback (req_json q) (req_type q) (req_callbacks q)
                                     (req_context q) ;;
      rs <- register_all reqs' ;;
      ret (r :: rs)
  end.

(** The state in which [sensorFw_RegisterCallback] reaches
    [AddDataHubEntry]: one more live block, holding [new_entry]. *)
Definition entered (jsonStringPtr : string) (t : io_DataType_t)
    (cbPtr : sensorfwCallbacks_t) (contextPtr : ptr) (s : State) : State :=
  let full := Nat.leb (poolBlocks s) (size (SensorHandlerPool s)) in
  mk_State (<[next_block s := new_entry jsonStringPtr t cbPtr contextPtr s]>
              (SensorHandlerPool s))
           (if full then S (poolBlocks s) else poolBlocks s)
           (if full then S (numOverflows s) else numOverflows s)
           (RegisteredSensorCount s) (trace s).

(** What follows the [switch] in [sensorFw_RegisterCallback]. *)
Definition after_switch (cbPtr : sensorfwCallbacks_t) (handlerPtr : ptr)
  : M le_result_t :=
  AddDataHubEntry handlerPtr ;;;
  (fun s => Returns tt (with_count (int_incr (RegisteredSensorCount s)) s)) ;;;
  h <- deref handlerPtr ;;
  (if negb (isReadOnce (info h)) && negb (is_NULL (configCb cbPtr)) then
     let resourcePath :=
       snprintf_path resourcePath_size (path (info h)) "config" in
     result <- ask (E_io_CreateOutput resourcePath IO_DATA_TYPE_JSON "")
                   (fun t => io_CreateOutput P t resourcePath IO_DATA_TYPE_JSON "") ;;
     LE_ASSERT (is_LE_OK result || is_LE_DUPLICATE result) ;;;
     PushConfig handlerPtr ;;;
     emit (E_io_AddJsonPushHandler resourcePath handlerPtr)
   else ret tt) ;;;
  ret LE_OK.

(** ** The calls of one registration, in closed form *)

(** The hub calls [AddDataHubEntry] makes before it samples. *)
Definition creation_calls (handlerPtr : ptr) (h : sensorHandler_t) : list ev :=
  if isReadOnce (info h) then
    [E_io_CreateInput (path (info h)) (type (info h)) (unit (info h))]
  else
    [E_psensor_Create (path (info h)) (type (info h)) (unit (info h)) handlerPtr;
     E_io_PushBoolean (snprintf_path resourcePath_size (path (info h)) "enable") true;
     E_io_PushNumeric (snprintf_path resourcePath_size (path (info h)) "period")
                      (double_of_int P DEFAULT_SAMPLING_PERIOD_SEC)].

(** The periodic sensor reference [AddDataHubEntry] stores in the entry. *)
Definition created_ref (handlerPtr : ptr) (h : sensorHandler_t) (t : list ev)
  : psensor_Ref_t :=
  if isReadOnce (info h) then NULL
  else psensor_Create P t (path (info h)) (type (info h)) (unit (info h)) handlerPtr.

(** Whether the [LE_ASSERT] of [AddDataHubEntry] holds. *)
Definition creation_ok (handlerPtr : ptr) (h : sensorHandler_t) (t : list ev) : bool :=
  if isReadOnce (info h) then
    accepted (io_CreateInput P t (path (info h)) (type (info h)) (unit (info h)))
  else
    negb (is_NULL (psensor_Create P t (path (info h)) (type (info h)) (unit (info h))
                                  handlerPtr)).

(** The calls of one dispatch step. *)
Definition sample_calls (h : sensorHandler_t) (t : list ev) : list ev :=
  match sample_call h, sample_answer h t with
  | Some e, Some (r, v) => if is_LE_OK r then [e; push_of h v] else [e]
  | _, _ => []
  end.

Definition config_path (h : sensorHandler_t) : string :=
  snprintf_path resourcePath_size (path (info h)) "config".

(** The condition under which a [config] resource is set up. *)
Definition wants_config (cbPtr : sensorfwCallbacks_t) (h : sensorHandler_t) : bool :=
  negb (isReadOnce (info h)) && negb (is_NULL (configCb cbPtr)).

Definition config_call (h : sensorHandler_t) (buffer : option string) (length : nat)
  : ev :=
  E_pfString (configCb (callbacks h)) buffer length (pluginContextPtr h).

Definition config_answer (h : sensorHandler_t) (t : list ev) : le_result_t * string :=
  call_pfString P (configCb (callbacks h)) t None MAX_RES_STRING_LEN (pluginContextPtr h).

(** The calls of [PushConfig]. *)
Definition config_push_calls (h : sensorHandler_t) (t : list ev) : list ev :=
  config_call h None MAX_RES_STRING_LEN ::
  (if is_LE_OK (fst (config_answer h t))
   then [E_io_PushJson (config_path h) (snd (config_answer h t))]
   else []).

(** The calls that set up the [config] resource of an entry. *)
Definition config_calls (handlerPtr : ptr) (h : sensorHandler_t) (t : list ev)
  : list ev :=
  let create := E_io_CreateOutput (config_path h) IO_DATA_TYPE_JSON "" in
  create :: config_push_calls h (t ++ [create])
  ++ [E_io_AddJsonPushHandler (config_path h) handlerPtr].

(** ** One registration, in closed form *)

(** The entry a successful registration leaves in the pool. *)
Definition registered_entry (jsonStringPtr : string) (t : io_DataType_t)
    (cbPtr : sensorfwCallbacks_t) (contextPtr : ptr) (s : State) : sensorHandler_t :=
  let h := new_entry jsonStringPtr t cbPtr contextPtr s in
  set_info (set_sensorRef (created_ref (next_block s) h (trace s))) h.

(** The trace when the first sample has been taken. *)
Definition sampled_trace (jsonStringPtr : string) (t : io_DataType_t)
    (cbPtr : sensorfwCallbacks_t) (contextPtr : ptr) (s : State) : list ev :=
  let h := new_entry jsonStringPtr t cbPtr contextPtr s in
  let h' := registered_entry jsonStringPtr t cbPtr contextPtr s in
  let t1 := (trace s ++ creation_calls (next_block s) h)%list in
  (t1 ++ sample_calls h' t1)%list.

(** Whether the hub lets the registration through its two [LE_ASSERT]s. *)
Definition hub_lets_through (jsonStringPtr : string) (t : io_DataType_t)
    (cbPtr : sensorfwCallbacks_t) (contextPtr : ptr) (s : State) : bool :=
  let h := new_entry jsonStringPtr t cbPtr contextPtr s in
  let h' := registered_entry jsonStringPtr t cbPtr contextPtr s in
  creation_ok (next_block s) h (trace s)
  && (if wants_config cbPtr h'
      then accepted (io_CreateOutput P (sampled_trace jsonStringPtr t cbPtr contextPtr s)
                                     (config_path h') IO_DATA_TYPE_JSON "")
      else true).

(** The trace a successful registration leaves. *)
Definition registered_trace (jsonStringPtr : string) (t : io_DataType_t)
    (cbPtr : sensorfwCallbacks_t) (contextPtr : ptr) (s : State) : list ev :=
  let h' := registered_entry jsonStringPtr t cbPtr contextPtr s in
  let t2 := sampled_trace jsonStringPtr t cbPtr contextPtr s in
  if wants_config cbPtr h' then (t2 ++ config_calls (next_block s) h' t2)%list else t2.

(** The state a successful registration leaves. *)
Definition registered (jsonStringPtr : string) (t : io_DataType_t)
    (cbPtr : sensorfwCallbacks_t) (contextPtr : ptr) (s : State) : State :=
  let full := Nat.leb (poolBlocks s) (size (SensorHandlerPool s)) in
  mk_State (<[next_block s := registered_entry jsonStringPtr t cbPtr contextPtr s]>
              (SensorHandlerPool s))
           (if full then S (poolBlocks s) else poolBlocks s)
           (if full then S (numOverflows s) else numOverflows s)
           (int_incr (RegisteredSensorCount s))
           (registered_trace jsonStringPtr t cbPtr contextPtr s).

End SensorFw.

Arguments Returns {P A}.
Arguments Fatal {P A}.
Arguments Undefined {P A}.
Arguments mk_State {P}.
Arguments SensorHandlerPool {P}.
Arguments poolBlocks {P}.
Arguments numOverflows {P}.
Arguments RegisteredSensorCount {P}.
Arguments trace {P}.
Arguments ret {P A}.
Arguments bind {P A B}.
Arguments ask {P A}.
Arguments V_boolean {P}.
Arguments V_numeric {P}.
Arguments V_string {P}.
Arguments V_json {P}.
Arguments creations {P}.
Arguments io_push_at {P}.
Arguments with_trace {P}.
Arguments with_pool {P}.
Arguments with_count {P}.
Arguments emit {P}.
Arguments LE_ASSERT {P}.
Arguments deref {P}.
Arguments store {P}.
Arguments le_mem_ForceAlloc {P}.
Arguments le_mem_Release {P}.
Arguments deref_callbacks {P}.
Arguments PushData {P}.
Arguments PushConfig {P}.
Arguments ConfigUpdateHandler {P}.
Arguments SampleSensor {P}.
Arguments AddDataHubEntry {P}.
Arguments sensorFw_PushSample {P}.
Arguments sensorFw_RegisterCallback {P}.
Arguments json_push_handlers {P}.
Arguments run_handlers {P}.
Arguments hub_external_json_push {P}.
Arguments periodic_targets {P}.
Arguments sample_answer {P}.
Arguments push_of {P}.
Arguments pushes {P}.
Arguments plugin_calls {P}.
Arguments next_block {P}.
Arguments new_entry {P}.
Arguments register_all {P}.
Arguments entered {P}.
Arguments after_switch {P}.
Arguments created_ref {P}.
Arguments creation_ok {P}.
Arguments sample_calls {P}.
Arguments config_answer {P}.
Arguments config_push_calls {P}.
Arguments config_calls {P}.
Arguments registered_entry {P}.
Arguments sampled_trace {P}.
Arguments hub_lets_through {P}.
Arguments registered_trace {P}.
Arguments registered {P}.

(** ** A simulated device

    A concrete platform on which the component can be run: a small JSON
    member extractor, [le_utf8_Copy] for ASCII text, a hub that refuses the
    paths under ["down/"] and reports duplicates, and a handful of plugin
    callbacks at fixed addresses.  Examples and counterexamples are
    evaluated on it. *)
Module Sim.

Definition dquote : string := String (Ascii.ascii_of_nat 34) EmptyString.

(** dm.c, [GetJsonDocument]: the descriptor text a plugin hands in. *)
Definition GetJsonDocument (name_ path_ : string) (isReadOnce_ : bool) (unit_ : string)
  : string :=
  let isReadOnceString := if isReadOnce_ then "true" else "false" in
  String.substring 0 1023
    ("{" +:+
     dquote +:+ "name" +:+ dquote +:+ " : " +:+ dquote +:+ name_ +:+ dquote +:+ "," +:+
     dquote +:+ "path" +:+ dquote +:+ " : " +:+ dquote +:+ path_ +:+ dquote +:+ "," +:+
     dquote +:+ "readOnce" +:+ dquote +:+ " : " +:+ isReadOnceString +:+ "," +:+
     dquote +:+ "unit" +:+ dquote +:+ " : " +:+ dquote +:+ unit_ +:+ dquote +:+
     "}").

Fixpoint strip_prefix (p s : string) : option string :=
  match p, s with
  | EmptyString, _ => Some s
  | String a p', String b s' => if Ascii.eqb a b then strip_prefix p' s' else None
  | String _ _, EmptyString => None
  end.

Fixpoint find_after (p s : string) : option string :=
  match strip_prefix p s with
  | Some rest => Some rest
  | None => match s with
            | EmptyString => None
            | String _ s' => find_after p s'
            end
  end.

Fixpoint skip_spaces (s : string) : string :=
  match s with
  | String a s' => if Ascii.eqb a " "%char then skip_spaces s' else s
  | EmptyString => s
  end.

Fixpoint take_until (stop : Ascii.ascii -> bool) (s : string) : string :=
  match s with
  | String a s' => if stop a then EmptyString else String a (take_until stop s')
  | EmptyString => EmptyString
  end.

Definition is_dquote (a : Ascii.ascii) : bool := Ascii.eqb a (Ascii.ascii_of_nat 34).

Definition ends_bare_value (a : Ascii.ascii) : bool :=
  Ascii.eqb a ","%char || Ascii.eqb a "}"%char || Ascii.eqb a " "%char.

Definition sim_json_Extract (json key : string) (bufSize : nat) : le_result_t * string :=
  match find_after (dquote +:+ key +:+ dquote) json with
  | None => (LE_NOT_FOUND, "")
  | Some rest =>
      match skip_spaces rest with
      | String a rest' =>
          if Ascii.eqb a ":"%char then
            let txt :=
              match skip_spaces rest' with
              | String b v => if is_dquote b then take_until is_dquote v
                              else take_until ends_bare_value (String b v)
              | EmptyString => ""
              end in
            if Nat.ltb (String.length txt) bufSize then (LE_OK, txt)
            else (LE_OVERFLOW, String.substring 0 (bufSize - 1) txt)
          else (LE_FORMAT_ERROR, "")
      | EmptyString => (LE_FORMAT_ERROR, "")
      end
  end.

Definition sim_json_ConvertToBoolean (txt : string) : bool := String.eqb txt "true".

Definition sim_le_utf8_Copy (src : string) (destSize : nat) : le_result_t * string :=
  if Nat.ltb (String.length src) destSize then (LE_OK, src)
  else (LE_OVERFLOW, String.substring 0 (destSize - 1) src).

Definition refused (p : string) : bool :=
  match strip_prefix "down/" p with Some _ => true | None => false end.

Fixpoint created (t : list (event Z)) (p : string) : bool :=
  match t with
  | [] => false
  | E_io_CreateInput p' _ _ :: t' => String.eqb p' p || created t' p
  | E_io_CreateOutput p' _ _ :: t' => String.eqb p' p || created t' p
  | E_psensor_Create p' _ _ _ :: t' => String.eqb p' p || created t' p
  | _ :: t' => created t' p
  end.

Definition sim_io_Create (t : list (event Z)) (p : string) (ty : io_DataType_t)
    (u : string) : le_result_t :=
  if refused p then LE_FAULT
  else if created t p then LE_DUPLICATE
  else LE_OK.

Definition sim_psensor_Create (t : list (event Z)) (p : string) (ty : io_DataType_t)
    (u : string) (contextPtr : ptr) : psensor_Ref_t :=
  if refused p then NULL else S (length t).

(** Plugin callbacks, by address. *)
Definition GetRoamingIndicator : fnptr := 1%nat.
Definition GetTemperature : fnptr := 2%nat.
Definition GetSerialNumber : fnptr := 3%nat.
Definition ConfigIioSensor : fnptr := 4%nat.
(** fails on every call *)
Definition BrokenSensor : fnptr := 5%nat.
(** answers the first call and fails afterwards *)
Definition FlakySensor : fnptr := 6%nat.

Fixpoint called (t : list (event Z)) (f : fnptr) : bool :=
  match t with
  | [] => false
  | E_pfBool g _ _ :: t' => Nat.eqb g f || called t' f
  | E_pfNumeric g _ _ :: t' => Nat.eqb g f || called t' f
  | E_pfString g _ _ _ :: t' => Nat.eqb g f || called t' f
  | _ :: t' => called t' f
  end.

Definition sim_pfBool (f : fnptr) (t : list (event Z)) (len : nat) (ctx : ptr)
  : le_result_t * bool :=
  if Nat.eqb f GetRoamingIndicator then (LE_OK, true)
  else if Nat.eqb f FlakySensor then (if called t f then (LE_FAULT, false) else (LE_OK, true))
  else (LE_FAULT, false).

Definition sim_pfNumeric (f : fnptr) (t : list (event Z)) (len : nat) (ctx : ptr)
  : le_result_t * Z :=
  if Nat.eqb f GetTemperature then (LE_OK, 42)
  else if Nat.eqb f FlakySensor then (if called t f then (LE_FAULT, 0) else (LE_OK, 7))
  else (LE_FAULT, 0).

Definition sim_pfString (f : fnptr) (t : list (event Z)) (buf : option string)
    (len : nat) (ctx : ptr) : le_result_t * string :=
  if Nat.eqb f GetSerialNumber then (LE_OK, "SN-0042")
  else if Nat.eqb f ConfigIioSensor then
    (LE_OK, match buf with Some txt => txt | None => "{}" end)
  else if Nat.eqb f FlakySensor then
    (if called t f then (LE_FAULT, "") else (LE_OK, "first"))
  else (LE_FAULT, "").

Definition zeroed : sensorHandler_t :=
  mk_handler (mk_sensorInfo 0 "" "" false "" (IO_DATA_TYPE_other 0) NULL)
             (mk_callbacks NULL NULL NULL) NULL.

(** The path buffer has 79 bytes and the unit buffer 23. *)
Definition platform (reduce_footprint : bool) : Platform :=
  mk_Platform Z (fun z => z) 79 23 reduce_footprint
    sim_json_Extract sim_json_ConvertToBoolean sim_le_utf8_Copy
    sim_io_Create sim_io_Create sim_psensor_Create
    sim_pfBool sim_pfNumeric sim_pfString
    (fun _ => zeroed).

Definition P0 : Platform := platform true.

Definition dm_callbacks (sampleFunction : fnptr) : sensorfwCallbacks_t :=
  mk_callbacks NULL NULL sampleFunction.

Definition iio_callbacks (sampleFunction : fnptr) : sensorfwCallbacks_t :=
  mk_callbacks NULL ConfigIioSensor sampleFunction.

(** Descriptors and states of the simulated device. *)
Definition booted : State P0 := COMPONENT_INIT P0.

Definition serial_descriptor : string := GetJsonDocument "" "device/SN" true "".
Definition temperature_descriptor : string :=
  GetJsonDocument "" "device/temperature" false "deg C".
Definition accel_descriptor : string := GetJsonDocument "acc" "acc/x" false "m/s2".

Definition state_of {A} (o : outcome P0 A) : State P0 :=
  match o with
  | Returns _ s => s
  | Fatal s => s
  | Undefined => booted
  end.

(** a pool block that was never registered: its type field is none of the
    four payload kinds *)
Definition stray : State P0 := mk_State {[1%nat := zeroed]} 100 0 0 [].

(** a read-once boolean sensor whose callback fails *)
Definition broken_entry : sensorHandler_t :=
  mk_handler (mk_sensorInfo 0 "" "cell/isRoaming" true "" IO_DATA_TYPE_BOOLEAN NULL)
             (mk_callbacks NULL BrokenSensor BrokenSensor) NULL.

Definition with_broken : State P0 :=
  mk_State {[1%nat := broken_entry]} 100 0 1
           [E_io_CreateInput "cell/isRoaming" IO_DATA_TYPE_BOOLEAN "";
            E_io_PushBoolean "cell/isRoaming" true].

(** a descriptor without a [path] member *)
Definition pathless_descriptor : string :=
  "{" +:+ dquote +:+ "name" +:+ dquote +:+ " : " +:+ dquote +:+ "t" +:+ dquote +:+ "," +:+
  dquote +:+ "unit" +:+ dquote +:+ " : " +:+ dquote +:+ "degC" +:+ dquote +:+ "}".

(** a descriptor whose name needs more than the 20 bytes of the name field *)
Definition longname_descriptor : string :=
  GetJsonDocument "accelerometer-on-the-expansion-board" "acc/x" false "m/s2".

(** a descriptor for a hub path the simulated hub refuses *)
Definition refused_descriptor : string := GetJsonDocument "" "down/SN" true "".

(** [n] read-once sensors on distinct paths, one request each *)
Definition fleet (n : nat) : list request :=
  map (fun k => mk_request (GetJsonDocument "" ("sensor/" +:+ pretty k) true "")
                           SF_CB_STRING (dm_callbacks GetSerialNumber) NULL)
      (seq 0 n).

Definition result_of {P A} (o : outcome P A) : option A :=
  match o with
  | Returns a _ => Some a
  | _ => None
  end.

(** the same device on a hub that accepts every path, full footprint *)
Definition easy : Platform :=
  mk_Platform Z (fun z => z) 79 23 false
    sim_json_Extract sim_json_ConvertToBoolean sim_le_utf8_Copy
    (fun _ _ _ _ => LE_OK) (fun _ _ _ _ => LE_OK) (fun t _ _ _ _ => S (length t))
    sim_pfBool sim_pfNumeric sim_pfString
    (fun _ => zeroed).

(** the device after its serial-number sensor is registered *)
Definition with_serial : State P0 :=
  state_of (sensorFw_RegisterCallback serial_descriptor SF_CB_STRING
              (dm_callbacks GetSerialNumber) NULL booted).

(** the same with a callback that answers the first call only *)
Definition with_flaky : State P0 :=
  state_of (sensorFw_RegisterCallback serial_descriptor SF_CB_STRING
              (dm_callbacks FlakySensor) NULL booted).

(** the device after an accelerometer channel is registered by the iio
    plugin, with plugin context 77 *)
Definition with_accel : State P0 :=
  state_of (sensorFw_RegisterCallback accel_descriptor SF_CB_NUMERIC
              (iio_callbacks GetTemperature) 77%nat booted).

End Sim.

(** ** Vocabulary of the registry invariants *)

Section Registry.

Context (P : Platform).

Abbreviation ev := (event (double P)).

(** What a registration answers when it returns: [LE_OK] for a valid
    descriptor with one of the four payload kinds, [LE_FAULT] otherwise. *)
Definition verdict (jsonStringPtr : string) (type_ : sensorfwDataType_t) : le_result_t :=
  if valid_descriptor P jsonStringPtr then
    match switch_type type_ with
    | Some _ => LE_OK
    | None => LE_FAULT
    end
  else LE_FAULT.

(** The number of [LE_OK] among results. *)
Definition ok_count (rs : list le_result_t) : nat :=
  length (filter (fun r => is_LE_OK r = true) rs).

(** The requests whose descriptor parses: each of them keeps a pool block,
    registered or not. *)
Definition parsing (reqs : list request) : list request :=
  filter (fun q => valid_descriptor P (req_json q) = true) reqs.

(** Sensor ids: every entry has an id below the counter, and no two
    entries share one. *)
Definition ids_issued (s : State P) : Prop :=
  forall p h,
    SensorHandlerPool s !! p = Some h ->
    0 <= sensorId (info h) < RegisteredSensorCount s.

Definition ids_distinct (s : State P) : Prop :=
  forall p q h h',
    SensorHandlerPool s !! p = Some h ->
    SensorHandlerPool s !! q = Some h' ->
    sensorId (info h) = sensorId (info h') -> p = q.

(** The contexts given to [io_AddJsonPushHandler], whatever the path. *)
Fixpoint subscribed (t : list ev) : list ptr :=
  match t with
  | [] => []
  | E_io_AddJsonPushHandler _ contextPtr :: t' => contextPtr :: subscribed t'
  | _ :: t' => subscribed t'
  end.

(** Every context the hub or the periodic sensors hold for the component
    is the address of a live pool entry. *)
Definition linked (s : State P) : Prop :=
  (forall contextPtr,
      In contextPtr (subscribed (trace s)) ->
      is_NULL contextPtr = false /\ is_Some (SensorHandlerPool s !! contextPtr))
  /\ (forall contextPtr,
         In contextPtr (periodic_targets (trace s)) ->
         is_NULL contextPtr = false /\ is_Some (SensorHandlerPool s !! contextPtr)).

(** The calls a JSON document pushed from outside leads to: one call of the
    config callback per subscribed entry, in subscription order. *)
Definition delivery_calls (pool : gmap nat sensorHandler_t) (jsonText : string)
    (hs : list ptr) : list ev :=
  flat_map
    (fun contextPtr =>
       if is_NULL contextPtr then []
       else match pool !! contextPtr with
            | Some h => [config_call P h (Some jsonText) (String.length jsonText)]
            | None => []
            end)
    hs.

(** A call of the dispatch path: into the plugin, or a push. *)
Definition is_dispatch (e : ev) : bool := is_callback e || is_push e.

(** What the parser stores as [isReadOnce]: the readOnce field converted
    to a boolean when it was extracted, [false] when it was not. *)
Definition descriptor_read_once (jsonStringPtr : string) : bool :=
  if field_extracted P jsonStringPtr "readOnce"
  then json_ConvertToBoolean P (field_value P jsonStringPtr "readOnce")
  else false.

(** A call that sets up a [config] resource. *)
Definition is_config_setup (e : ev) : bool :=
  match e with
  | E_io_CreateOutput _ _ _ | E_io_AddJsonPushHandler _ _ => true
  | _ => false
  end.

End Registry.

Arguments ids_issued {P}.
Arguments ids_distinct {P}.
Arguments subscribed {P}.
Arguments linked {P}.
Arguments is_dispatch {P}.
Arguments is_config_setup {P}.

(** * The plugins

    The two components that register sensors with the framework. *)

(** ** The iio plugin (iioPlugin.c) *)
Module Iio.

Definition DEFAULT_MEAS_UNIT : string := "".
Definition MAX_ATTR_LENGTH : nat := 128.
Definition MAX_JSON_SIZE : nat := 1024.
(** [char resourcePath[256]] of [IioPluginInit] *)
Definition sizeof_resourcePath : nat := 256.

Record iioUnits_t : Type := mk_iioUnits {
  measurementName : string;
  standardUnit : string
}.

Inductive attrErrorType_t : Type :=
  | ATTRIBUTE_FOUND
  | ATTRIBUTE_NOT_FOUND
  | ATTRIBUTE_FAULT.

Definition IioStandardUnit : list iioUnits_t :=
  [mk_iioUnits "temp" "milli degree celcius";
   mk_iioUnits "pressure" "kilo pascals";
   mk_iioUnits "anglvel" "radians per second";
   mk_iioUnits "voltage" "millivolts";
   mk_iioUnits "current" "milliamps";
   mk_iioUnits "power" "milliwatts";
   mk_iioUnits "capacitance" "nanofarads";
   mk_iioUnits "positionrelative" "milli percent";
   mk_iioUnits "magn" "Gauss";
   mk_iioUnits "accel" "m/s^2";
   mk_iioUnits "incli" "degrees";
   mk_iioUnits "humidity" "milli percent";
   mk_iioUnits "proximity" "meters"].

(** [strstr] of the C library: the first occurrence of [needle] in
    [haystack], as the rest of [haystack] from there on; [None] for the
    null pointer. *)
Fixpoint strstr (haystack needle : string) : option string :=
  if String.prefix needle haystack then Some haystack
  else match haystack with
       | EmptyString => None
       | String _ rest => strstr rest needle
       end.

(** [needle] occurs in [haystack]. *)
Definition occurs (needle haystack : string) : Prop :=
  exists before after, haystack = before +:+ needle +:+ after.

(** [snprintf(buffer, size, ...)] for a format that expands to [text]:
    the value returned and what the buffer holds afterwards.  The value is
    the length of [text], negative when that is beyond [INT_MAX]; the
    buffer keeps the first [size - 1] characters, and is left alone for
    size 0. *)
Definition snprintf (buffer : string) (size : nat) (text : string) : Z * string :=
  (if Z.leb (Z.of_nat (String.length text)) INT_MAX
   then Z.of_nat (String.length text) else -1,
   match size with
   | O => buffer
   | S n => String.substring 0 n text
   end).

(** The expansion of the descriptor format both plugins use. *)
Definition descriptor_text (name path isReadOnceString unit : string) : string :=
  "{" +:+
  Sim.dquote +:+ "name" +:+ Sim.dquote +:+ " : " +:+
    Sim.dquote +:+ name +:+ Sim.dquote +:+ "," +:+
  Sim.dquote +:+ "path" +:+ Sim.dquote +:+ " : " +:+
    Sim.dquote +:+ path +:+ Sim.dquote +:+ "," +:+
  Sim.dquote +:+ "readOnce" +:+ Sim.dquote +:+ " : " +:+ isReadOnceString +:+ "," +:+
  Sim.dquote +:+ "unit" +:+ Sim.dquote +:+ " : " +:+
    Sim.dquote +:+ unit +:+ Sim.dquote +:+
  "}".

(** [CreateJsonDocument]: the result and what [buffer] holds afterwards. *)
Definition CreateJsonDocument (buffer : string) (bufferSize : nat)
    (name path : string) (isReadOnce : bool) (unit : string) : le_result_t * string :=
  let isReadOnceString := if isReadOnce then "true" else "false" in
  let printed :=
    snprintf buffer bufferSize (descriptor_text name path isReadOnceString unit) in
  let res := fst printed in
  if Z.ltb res 0 then (LE_FAULT, snd printed)
  else if Z.leb (Z.of_nat bufferSize) res then (LE_OVERFLOW, snd printed)
  else (LE_OK, snd printed).

(** [GetIiounit]: the loop over the table, from row [i] on. *)
Fixpoint GetIiounit_from (rows : list iioUnits_t) (measNamePtr : string) : string :=
  match rows with
  | [] => DEFAULT_MEAS_UNIT
  | row :: rows' =>
      match strstr measNamePtr (measurementName row) with
      | Some _ => standardUnit row
      | None => GetIiounit_from rows' measNamePtr
      end
  end.

Definition GetIiounit (measNamePtr : string) : string :=
  GetIiounit_from IioStandardUnit measNamePtr.

(** What libiio answers for a channel.  [iio_channel_attr_read] returns a
    [ssize_t], the number of bytes read or a negative error code, and
    leaves a text in the 128-byte buffer it is given; [sensorCtxt] is the
    address [malloc] answers for the context of the channel. *)
Record iio_channel : Type := mk_channel {
  iio_channel_get_id : string;
  iio_channel_is_output : bool;
  iio_channel_find_attr : string -> bool;
  iio_channel_attr_read : string -> Z * string;
  sensorCtxt : ptr
}.

(** A device: its name, [None] for the null pointer, and its channels in
    the order of [iio_device_get_channel]. *)
Record iio_device : Type := mk_device {
  iio_device_get_name : option string;
  iio_device_get_channel : list iio_channel
}.

(** The local context: its devices in the order of
    [iio_context_get_device], and the answer to
    [iio_context_set_timeout]. *)
Record iio_context : Type := mk_context {
  iio_context_get_device : list iio_device;
  iio_context_set_timeout : Z -> Z
}.

(** The context of a sensor.  [device] is the device [IioPluginInit] got
    from the iio context, never the null pointer; [chan] is [None] for the
    null pointer. *)
Record iioSensorContext_t : Type := mk_iioSensorContext {
  device : iio_device;
  chan : option iio_channel
}.

(** The callbacks of the plugin, by address. *)
Definition ConfigIioSensor : fnptr := Sim.ConfigIioSensor.
Definition SampleIioSensor_address : fnptr := 7%nat.

(** The conversion of a [ssize_t] to [size_t], of [bits] bits. *)
Definition size_t_of (bits : Z) (z : Z) : Z := z mod 2 ^ bits.

Section Plugin.

Context (P : Platform).
(** [atof] and the arithmetic of [double]; the width of [size_t]. *)
Context (atof : string -> double P).
Context (fmul fadd : double P -> double P -> double P).
Context (size_t_bits : Z).

(** [GetAttribute]: the result and what [*readValuePtr] holds afterwards,
    [readValue] being what it held before. *)
Definition GetAttribute (chan_ : iio_channel) (attrName : string) (readValue : double P)
  : attrErrorType_t * double P :=
  if iio_channel_find_attr chan_ attrName then
    let read := iio_channel_attr_read chan_ attrName in
    let readLen := size_t_of size_t_bits (fst read) in
    if Z.ltb 0 readLen then (ATTRIBUTE_FOUND, atof (snd read))
    else (ATTRIBUTE_FAULT, readValue)
  else (ATTRIBUTE_NOT_FOUND, readValue).

(** [SampleIioSensor]: the result and what [*readValuePtr] holds
    afterwards.  [inputValue], [raw], [offset] and [scale] are what the
    locals of these names hold when they are declared: they are not
    initialised. *)
Definition SampleIioSensor (readValue : double P)
    (contextPtr : option iioSensorContext_t) (inputValue raw offset scale : double P)
  : le_result_t * double P :=
  match contextPtr with
  | None => (LE_FAULT, readValue)
  | Some sensorCtxtPtr =>
      match iio_device_get_name (device sensorCtxtPtr), chan sensorCtxtPtr with
      | Some deviceName, Some chan_ =>
          let input := GetAttribute chan_ "input" inputValue in
          match fst input with
          | ATTRIBUTE_FOUND => (LE_OK, snd input)
          | _ =>
              let raw' := snd (GetAttribute chan_ "raw" raw) in
              let offset' := snd (GetAttribute chan_ "offset" offset) in
              let scale' := snd (GetAttribute chan_ "scale" scale) in
              (LE_OK, fadd (fmul raw' scale') (fmul offset' scale'))
          end
      | _, _ => (LE_FAULT, readValue)
      end
  end.

(** The locals of [IioPluginInit] that live across the loops. *)
Record locals : Type := mk_locals {
  jsonDoc : string;
  inputValue_ : double P
}.

(** The block [IioPluginInit] runs for a channel that can be sampled
    (twice in the source, lines 617-637 and 648-668): format the
    descriptor, leave the function when that fails, register.  [None] is
    the [return]; the result of the registration is stored and not
    looked at. *)
Definition IioPluginInit_register (pluginCb : sensorfwCallbacks_t)
    (resourcePath channelName : string) (sensorCtxtPtr : ptr) (l : locals)
  : M P (option locals) :=
  let res :=
    CreateJsonDocument (jsonDoc l) MAX_JSON_SIZE resourcePath resourcePath false
                       (GetIiounit channelName) in
  if negb (is_LE_OK (fst res)) then ret None
  else
    bind (sensorFw_RegisterCallback (snd res) SF_CB_NUMERIC pluginCb sensorCtxtPtr)
         (fun _ => ret (Some (mk_locals (snd res) (inputValue_ l)))).

(** The body of the inner loop.  Three of its calls have no defined
    behaviour in C: ["%s"] given the null pointer of a device without
    name, [snprintf] from [resourcePath] into [resourcePath] for an output
    channel, and [memset] on the null pointer when [malloc] fails. *)
Definition IioPluginInit_channel (pluginCb : sensorfwCallbacks_t)
    (deviceName : option string) (chan_ : iio_channel) (raw : double P) (l : locals)
  : M P (option locals) :=
  match deviceName with
  | None => fun _ => Undefined
  | Some deviceName =>
      let channelName := iio_channel_get_id chan_ in
      let resourcePath := snprintf_path sizeof_resourcePath deviceName channelName in
      if iio_channel_is_output chan_ then fun _ => Undefined
      else
        let input := GetAttribute chan_ "input" (inputValue_ l) in
        let l := mk_locals (jsonDoc l) (snd input) in
        let sensorCtxtPtr := sensorCtxt chan_ in
        if is_NULL sensorCtxtPtr then fun _ => Undefined
        else
          match fst input with
          | ATTRIBUTE_FOUND =>
              IioPluginInit_register pluginCb resourcePath channelName sensorCtxtPtr l
          | ATTRIBUTE_NOT_FOUND =>
              match fst (GetAttribute chan_ "raw" raw) with
              | ATTRIBUTE_FOUND =>
                  IioPluginInit_register pluginCb resourcePath channelName
                                         sensorCtxtPtr l
              | _ => ret (Some l)
              end
          | ATTRIBUTE_FAULT => ret (Some l)
          end
  end.

(** The inner loop, over the channels of a device. *)
Fixpoint IioPluginInit_channels (pluginCb : sensorfwCallbacks_t)
    (deviceName : option string) (chans : list iio_channel) (raw : double P)
    (l : locals) : M P (option locals) :=
  match chans with
  | [] => ret (Some l)
  | chan_ :: chans' =>
      bind (IioPluginInit_channel pluginCb deviceName chan_ raw l)
           (fun r => match r with
                     | None => ret None
                     | Some l' => IioPluginInit_channels pluginCb deviceName chans' raw l'
                     end)
  end.

(** The outer loop, over the devices. *)
Fixpoint IioPluginInit_devices (pluginCb : sensorfwCallbacks_t)
    (devices : list iio_device) (raw : double P) (l : locals) : M P (option locals) :=
  match devices with
  | [] => ret (Some l)
  | device_ :: devices' =>
      bind (IioPluginInit_channels pluginCb (iio_device_get_name device_)
                                   (iio_device_get_channel device_) raw l)
           (fun r => match r with
                     | None => ret None
                     | Some l' => IioPluginInit_devices pluginCb devices' raw l'
                     end)
  end.

(** [IioPluginInit].  [localCtx] is what [iio_create_local_context]
    answers; [infoCb_], [raw] and [l] are what the uninitialised
    [pluginCb.infoCb], [raw], [jsonDoc] and [inputValue] hold. *)
Definition IioPluginInit (localCtx : option iio_context) (infoCb_ : fnptr)
    (raw : double P) (l : locals) : M P Datatypes.unit :=
  match localCtx with
  | None => ret tt
  | Some ctx =>
      if negb (Z.eqb (iio_context_set_timeout ctx 5000) 0) then ret tt
      else
        let pluginCb := mk_callbacks infoCb_ ConfigIioSensor SampleIioSensor_address in
        bind (IioPluginInit_devices pluginCb (iio_context_get_device ctx) raw l)
             (fun _ => ret tt)
  end.

(** *** Vocabulary of the properties *)

(** What [GetAttribute] answers for an attribute of a channel. *)
Definition attribute_status (chan_ : iio_channel) (attrName : string)
  : attrErrorType_t :=
  if iio_channel_find_attr chan_ attrName then
    if Z.ltb 0 (size_t_of size_t_bits (fst (iio_channel_attr_read chan_ attrName)))
    then ATTRIBUTE_FOUND else ATTRIBUTE_FAULT
  else ATTRIBUTE_NOT_FOUND.

(** What a local holds after [GetAttribute] was given its address: the
    value read when the attribute is found, what it held before
    otherwise. *)
Definition value_after (chan_ : iio_channel) (attrName : string) (before : double P)
  : double P :=
  match attribute_status chan_ attrName with
  | ATTRIBUTE_FOUND => atof (snd (iio_channel_attr_read chan_ attrName))
  | _ => before
  end.

(** A channel that can be sampled: its ["input"] attribute is read, or it
    has none and its ["raw"] attribute is read. *)
Definition sampled (chan_ : iio_channel) : bool :=
  match attribute_status chan_ "input" with
  | ATTRIBUTE_FOUND => true
  | ATTRIBUTE_NOT_FOUND =>
      match attribute_status chan_ "raw" with
      | ATTRIBUTE_FOUND => true
      | _ => false
      end
  | ATTRIBUTE_FAULT => false
  end.

(** The registration request for a channel: name and path are both
    [<device>/<channel>], cut to 255 characters. *)
Definition request_of (infoCb_ : fnptr) (deviceName : string) (chan_ : iio_channel)
  : request :=
  let resourcePath :=
    snprintf_path sizeof_resourcePath deviceName (iio_channel_get_id chan_) in
  mk_request
    (descriptor_text resourcePath resourcePath "false"
                     (GetIiounit (iio_channel_get_id chan_)))
    SF_CB_NUMERIC
    (mk_callbacks infoCb_ ConfigIioSensor SampleIioSensor_address)
    (sensorCtxt chan_).

Definition requests_of_device (infoCb_ : fnptr) (device_ : iio_device) : list request :=
  match iio_device_get_name device_ with
  | None => []
  | Some deviceName =>
      map (request_of infoCb_ deviceName)
          (filter (fun chan_ => sampled chan_ = true) (iio_device_get_channel device_))
  end.

Definition requests_of (infoCb_ : fnptr) (ctx : iio_context) : list request :=
  flat_map (requests_of_device infoCb_) (iio_context_get_device ctx).

(** The contexts for which every call of [IioPluginInit] is defined: the
    devices that have channels have a name, no channel is an output, and
    [malloc] has not failed. *)
Definition channel_usable (chan_ : iio_channel) : Prop :=
  iio_channel_is_output chan_ = false /\ is_NULL (sensorCtxt chan_) = false.

Definition device_usable (device_ : iio_device) : Prop :=
  (iio_device_get_channel device_ <> [] -> is_Some (iio_device_get_name device_))
  /\ Forall channel_usable (iio_device_get_channel device_).

Definition context_usable (ctx : iio_context) : Prop :=
  Forall device_usable (iio_context_get_device ctx).

End Plugin.

Arguments jsonDoc {P}.
Arguments inputValue_ {P}.
Arguments mk_locals {P}.

End Iio.

(** ** The device management plugin (dm.c) *)
Module Dm.

Definition MAX_JSON_SIZE : nat := 1024.

Record dmHandlers_t : Type := mk_dmHandlers {
  path : string;
  isReadOnce : bool;
  unit : string;
  readConfig : fnptr;
  type : sensorfwDataType_t;
  sampleFunction : fnptr
}.

(** The sample functions, by address. *)
Definition GetRoamingIndicator : fnptr := Sim.GetRoamingIndicator.
Definition GetTemperature : fnptr := Sim.GetTemperature.
Definition GetSerialNumber : fnptr := Sim.GetSerialNumber.
Definition GetImei : fnptr := 11%nat.
Definition GetIccid : fnptr := 12%nat.
Definition GetModelNumber : fnptr := 13%nat.
Definition GetVersion : fnptr := 14%nat.
Definition GetResetInfo : fnptr := 15%nat.
Definition GetTime : fnptr := 16%nat.
Definition GetTimezone : fnptr := 17%nat.
Definition GetSignalStrength : fnptr := 18%nat.
Definition GetBearer : fnptr := 19%nat.
Definition GetMcc : fnptr := 20%nat.
Definition GetMnc : fnptr := 21%nat.
Definition GetCellId : fnptr := 22%nat.
Definition GetLatitude : fnptr := 23%nat.
Definition GetLongitude : fnptr := 24%nat.
Definition GetAltitude : fnptr := 25%nat.
Definition GetDirection : fnptr := 26%nat.
Definition GetHorizontalSpeed : fnptr := 27%nat.
Definition GetVerticalSpeed : fnptr := 28%nat.
Definition GetLocationTimeStamp : fnptr := 29%nat.
Definition GetBootReason : fnptr := 30%nat.

Definition DmHandlers : list dmHandlers_t :=
  [mk_dmHandlers "device/SN" true "" NULL SF_CB_STRING GetSerialNumber;
   mk_dmHandlers "device/imei" true "" NULL SF_CB_STRING GetImei;
   mk_dmHandlers "device/iccid" true "" NULL SF_CB_STRING GetIccid;
   mk_dmHandlers "device/model" true "" NULL SF_CB_STRING GetModelNumber;
   mk_dmHandlers "device/version" true "" NULL SF_CB_STRING GetVersion;
   mk_dmHandlers "device/temperature" false "deg C" NULL SF_CB_NUMERIC GetTemperature;
   mk_dmHandlers "device/resetInfo" true "" NULL SF_CB_STRING GetResetInfo;
   mk_dmHandlers "device/time" false "" NULL SF_CB_STRING GetTime;
   mk_dmHandlers "device/tz" true "" NULL SF_CB_STRING GetTimezone;
   mk_dmHandlers "cell/SS" false "dB" NULL SF_CB_NUMERIC GetSignalStrength;
   mk_dmHandlers "cell/bearer" false "" NULL SF_CB_STRING GetBearer;
   mk_dmHandlers "cell/mcc" false "" NULL SF_CB_NUMERIC GetMcc;
   mk_dmHandlers "cell/mnc" false "" NULL SF_CB_NUMERIC GetMnc;
   mk_dmHandlers "cell/cellId" false "" NULL SF_CB_NUMERIC GetCellId;
   mk_dmHandlers "cell/isRoaming" false "" NULL SF_CB_BOOLEAN GetRoamingIndicator;
   mk_dmHandlers "position/latitude" false "Deg" NULL SF_CB_STRING GetLatitude;
   mk_dmHandlers "position/longitude" false "Deg" NULL SF_CB_STRING GetLongitude;
   mk_dmHandlers "position/altitude" false "m" NULL SF_CB_STRING GetAltitude;
   mk_dmHandlers "position/direction" false "Deg" NULL SF_CB_NUMERIC GetDirection;
   mk_dmHandlers "position/hSpeed" false "m/s" NULL SF_CB_NUMERIC GetHorizontalSpeed;
   mk_dmHandlers "position/vSpeed" false "m/s" NULL SF_CB_NUMERIC GetVerticalSpeed;
   mk_dmHandlers "position/timeStamp" false "s" NULL SF_CB_NUMERIC GetLocationTimeStamp;
   mk_dmHandlers "ulpm/bootReason" true "" NULL SF_CB_STRING GetBootReason].

(** [pluginCb] when the [switch] of [COMPONENT_INIT] is through: zeroed by
    [memset], then the sample function stored in the member of the union
    the payload kind selects; [readConfig] is not looked at. *)
Definition pluginCb_of (row : dmHandlers_t) : sensorfwCallbacks_t :=
  let zeroed := mk_callbacks NULL NULL NULL in
  if Z.eqb (type row) SF_CB_BOOLEAN then mk_callbacks NULL NULL (sampleFunction row)
  else if Z.eqb (type row) SF_CB_NUMERIC then mk_callbacks NULL NULL (sampleFunction row)
  else if Z.eqb (type row) SF_CB_STRING then mk_callbacks NULL NULL (sampleFunction row)
  else if Z.eqb (type row) SF_CB_JSON then mk_callbacks NULL NULL (sampleFunction row)
  else zeroed.

(** The request [COMPONENT_INIT] makes for a row of the table. *)
Definition request_of (row : dmHandlers_t) : request :=
  mk_request (Sim.GetJsonDocument "" (path row) (isReadOnce row) (unit row))
             (type row) (pluginCb_of row) NULL.

Section Plugin.

Context (P : Platform).

(** The loop of [COMPONENT_INIT], from row [i] on: a result other than
    [LE_OK] is logged, and the loop goes on. *)
Fixpoint COMPONENT_INIT_from (rows : list dmHandlers_t) : M P Datatypes.unit :=
  match rows with
  | [] => ret tt
  | row :: rows' =>
      let jsonDocPtr :=
        Sim.GetJsonDocument "" (path row) (isReadOnce row) (unit row) in
      bind (sensorFw_RegisterCallback jsonDocPtr (type row) (pluginCb_of row) NULL)
           (fun result => COMPONENT_INIT_from rows')
  end.

Definition COMPONENT_INIT : M P Datatypes.unit := COMPONENT_INIT_from DmHandlers.

End Plugin.

End Dm.

(** ** A bench for the plugins

    An iio context with two devices, for the simulated device with a
    32-bit [size_t], and some more requests. *)
Module Bench.

Definition size_t_bits : Z := 32.

Definition is_digit (c : Ascii.ascii) : bool :=
  Nat.leb 48 (Ascii.nat_of_ascii c) && Nat.leb (Ascii.nat_of_ascii c) 57.

Fixpoint digits (s : string) (acc : Z) : Z :=
  match s with
  | String c s' =>
      if is_digit c then digits s' (10 * acc + Z.of_nat (Ascii.nat_of_ascii c) - 48)
      else acc
  | EmptyString => acc
  end.

(** [atof] for the text of an unsigned integer, 0 for any other *)
Definition atof (s : string) : Z := digits s 0.

(** raw and scale can be read, there is no input attribute *)
Definition accel_x : Iio.iio_channel :=
  Iio.mk_channel "accel_x" false
    (fun a => String.eqb a "raw" || String.eqb a "scale")
    (fun a => if String.eqb a "raw" then (4, "512")
              else if String.eqb a "scale" then (2, "3") else (-2, ""))
    71%nat.

(** the input attribute is there; reading it fails with [-EIO] and leaves
    the buffer as it was *)
Definition temp : Iio.iio_channel :=
  Iio.mk_channel "temp" false
    (fun a => String.eqb a "input")
    (fun a => if String.eqb a "input" then (-5, "77") else (-2, ""))
    72%nat.

(** a channel without attributes *)
Definition timestamp : Iio.iio_channel :=
  Iio.mk_channel "timestamp" false (fun _ => false) (fun _ => (-2, "")) 73%nat.

Definition anglvel_x : Iio.iio_channel :=
  Iio.mk_channel "anglvel_x" false
    (fun a => String.eqb a "input")
    (fun a => if String.eqb a "input" then (5, "1000") else (-2, ""))
    74%nat.

Definition bmi160 : Iio.iio_device :=
  Iio.mk_device (Some "bmi160") [accel_x; temp; timestamp].

(** with this device name the resource path has more than 19 characters *)
Definition lsm6ds3 : Iio.iio_device :=
  Iio.mk_device (Some "lsm6ds3_accel_gyro") [anglvel_x].

Definition board : Iio.iio_context :=
  Iio.mk_context [bmi160; lsm6ds3] (fun _ => 0).

Definition start : Iio.locals Sim.P0 := Iio.mk_locals (P:=Sim.P0) "" 0.

(** a context for [SampleIioSensor] on the channel without attributes *)
Definition timestamp_context : Iio.iioSensorContext_t :=
  Iio.mk_iioSensorContext bmi160 (Some timestamp).

(** a context for [SampleIioSensor] on the accelerometer axis *)
Definition accel_context : Iio.iioSensorContext_t :=
  Iio.mk_iioSensorContext bmi160 (Some accel_x).

(** the simulated device on a hub that accepts every path, with the
    reduced pool of 100 blocks *)
Definition easy_small : Platform :=
  mk_Platform Z (fun z => z) 79 23 true
    Sim.sim_json_Extract Sim.sim_json_ConvertToBoolean Sim.sim_le_utf8_Copy
    (fun _ _ _ _ => LE_OK) (fun _ _ _ _ => LE_OK) (fun t _ _ _ _ => S (length t))
    Sim.sim_pfBool Sim.sim_pfNumeric Sim.sim_pfString
    (fun _ => Sim.zeroed).

(** a read-once descriptor that comes with a config callback *)
Definition once_descriptor : string := Sim.GetJsonDocument "acc" "acc/x" true "m/s2".

(** three requests: one that registers, one with a payload kind that is
    none of the four, one whose descriptor has no path *)
Definition mixed : list request :=
  [mk_request Sim.serial_descriptor SF_CB_STRING
              (Sim.dm_callbacks Sim.GetSerialNumber) NULL;
   mk_request Sim.temperature_descriptor 9 (Sim.dm_callbacks Sim.GetTemperature) NULL;
   mk_request Sim.pathless_descriptor SF_CB_NUMERIC
              (Sim.dm_callbacks Sim.GetTemperature) NULL].

Definition after_mixed : State Sim.P0 := Sim.state_of (register_all mixed Sim.booted).

(** the device after the device management plugin has started *)
Definition after_dm : State Sim.P0 :=
  Sim.state_of (Dm.COMPONENT_INIT Sim.P0 Sim.booted).

(** the device after the accelerometer channel is registered a second
    time, with plugin context 78 *)
Definition with_accel_twice : State Sim.P0 :=
  Sim.state_of (sensorFw_RegisterCallback Sim.accel_descriptor SF_CB_NUMERIC
                  (Sim.iio_callbacks Sim.GetTemperature) 78%nat Sim.with_accel).

(** the device with the serial-number and the temperature sensor *)
Definition with_two : State Sim.P0 :=
  Sim.state_of (sensorFw_RegisterCallback Sim.temperature_descriptor SF_CB_NUMERIC
                  (Sim.dm_callbacks Sim.GetTemperature) NULL Sim.with_serial).

End Bench.

(** * Properties *)

Section Properties.

Context (P : Platform).

Local Abbreviation State := (State P).
Local Abbreviation outcome := (outcome P).
Local Abbreviation M := (M P).
Local Abbreviation sample_value := (sample_value P).
Local Abbreviation ev := (event (double P)).

Implicit Types (s : State) (h : sensorHandler_t) (handlerPtr contextPtr : ptr).
Implicit Types (cbPtr : sensorfwCallbacks_t) (jsonStringPtr : string).

Ltac run_live_with unfold_op :=
  unfold bind at 1; unfold_op;
  cbn [SensorHandlerPool with_pool]; rewrite lookup_insert_eq;
  cbn [SensorHandlerPool with_pool].

Ltac run_deref := run_live_with ltac:(unfold deref at 1).
Ltac run_store := run_live_with ltac:(unfold store at 1).

(** ** Running monadic code *)

Lemma bind_Returns {A B} (m : M A) (k : A -> M B) s a s' :
  m s = Returns a s' -> bind m k s = k a s'.
Proof. intros H. unfold bind. now rewrite H. Qed.

Lemma deref_live s handlerPtr h :
  SensorHandlerPool s !! handlerPtr = Some h ->
  deref handlerPtr s = Returns h s.
Proof. intros H. unfold deref. now rewrite H. Qed.

Lemma store_live s handlerPtr h f :
  SensorHandlerPool s !! handlerPtr = Some h ->
  store handlerPtr f s
  = Returns tt (with_pool (<[handlerPtr := f h]> (SensorHandlerPool s)) s).
Proof. intros H. unfold store. now rewrite H. Qed.

Lemma is_LE_OK_true r : is_LE_OK r = true <-> r = LE_OK.
Proof. destruct r; simpl; split; congruence. Qed.

Lemma is_LE_OK_false r : is_LE_OK r = false <-> r <> LE_OK.
Proof. destruct r; simpl; split; congruence. Qed.

(** [PushData] does what the design says of the dispatch step. *)
Lemma PushData_run s handlerPtr h :
  SensorHandlerPool s !! handlerPtr = Some h ->
  PushData handlerPtr s =
  match sample_call P h, sample_answer h (trace s) with
  | Some e, Some (r, v) =>
      if is_LE_OK r
      then Returns LE_OK (with_trace (trace s ++ [e; push_of h v]) s)
      else Returns LE_FAULT (with_trace (trace s ++ [e]) s)
  | _, _ => Returns LE_OK s
  end.
Proof.
  intros H. unfold PushData. rewrite (bind_Returns _ _ _ _ _ (deref_live _ _ _ H)).
  unfold sample_call, sample_answer, push_of.
  destruct (type (info h)); try reflexivity;
    unfold bind, ask, emit, ret; cbn [fst snd];
    match goal with |- context [is_LE_OK ?r] => destruct (is_LE_OK r) end;
    try reflexivity;
    destruct (isReadOnce (info h)); cbn; rewrite <- app_assoc; reflexivity.
Qed.

(** ** Pool bookkeeping *)

Lemma next_block_fresh s : SensorHandlerPool s !! next_block s = None.
Proof.
  unfold next_block. apply not_elem_of_dom.
  pose proof (is_fresh ({[NULL]} ∪ dom (SensorHandlerPool s))) as H.
  set_solver.
Qed.

Lemma next_block_not_NULL s : is_NULL (next_block s) = false.
Proof.
  unfold next_block, is_NULL. apply Nat.eqb_neq.
  pose proof (is_fresh ({[NULL]} ∪ dom (SensorHandlerPool s))) as H.
  set_solver.
Qed.

Lemma register_reaches_hub jsonStringPtr type_ t cbPtr contextPtr s :
  fst (ParseSensorInfo P jsonStringPtr (info (le_mem_block P (next_block s)))) = LE_OK ->
  switch_type type_ = Some t ->
  sensorFw_RegisterCallback jsonStringPtr type_ cbPtr contextPtr s
  = after_switch cbPtr (next_block s) (entered jsonStringPtr t cbPtr contextPtr s).
Proof.
  intros Hparse Hty.
  unfold sensorFw_RegisterCallback, le_mem_ForceAlloc.
  unfold bind at 1. fold (next_block s).
  run_deref. run_store.
  rewrite Hparse; cbn [is_LE_OK negb].
  unfold bind at 1. cbn [RegisteredSensorCount].
  run_store. unfold bind at 1, deref_callbacks, address_of.
  run_store. run_store.
  rewrite Hty.
  run_store. run_store.
  rewrite !insert_insert_eq.
  reflexivity.
Qed.

(** ** AddDataHubEntry and PushConfig in closed form *)

Lemma PushData_calls s handlerPtr h :
  SensorHandlerPool s !! handlerPtr = Some h ->
  exists r,
    PushData handlerPtr s = Returns r (with_trace (trace s ++ sample_calls h (trace s)) s).
Proof.
  intros H. rewrite (PushData_run _ _ _ H). unfold sample_calls.
  destruct (sample_call P h) as [e|]; destruct (sample_answer h (trace s)) as [[r v]|];
    try destruct (is_LE_OK r); eexists;
    try reflexivity; rewrite app_nil_r; destruct s; reflexivity.
Qed.

Lemma bind_bind {A B C} (m : M A) (f : A -> M B) (g : B -> M C) s :
  bind (bind m f) g s = bind m (fun a => bind (f a) g) s.
Proof. unfold bind. destruct (m s); reflexivity. Qed.

Lemma bind_store {B} handlerPtr f (k : Datatypes.unit -> M B) s h :
  SensorHandlerPool s !! handlerPtr = Some h ->
  bind (store handlerPtr f) k s
  = k tt (with_pool (<[handlerPtr := f h]> (SensorHandlerPool s)) s).
Proof. intros H. apply bind_Returns, store_live, H. Qed.

Lemma bind_PushData {B} handlerPtr (k : le_result_t -> M B) s h :
  SensorHandlerPool s !! handlerPtr = Some h ->
  exists r,
    bind (PushData handlerPtr) k s
    = k r (with_trace (trace s ++ sample_calls h (trace s)) s).
Proof.
  intros H. destruct (PushData_calls _ _ _ H) as [r Hr].
  exists r. apply bind_Returns, Hr.
Qed.

Lemma AddDataHubEntry_run s handlerPtr h :
  SensorHandlerPool s !! handlerPtr = Some h ->
  AddDataHubEntry handlerPtr s =
  let h' := set_info (set_sensorRef (created_ref handlerPtr h (trace s))) h in
  let s0 := with_pool (<[handlerPtr := h']> (SensorHandlerPool s)) s in
  let t1 := (trace s ++ creation_calls P handlerPtr h)%list in
  if creation_ok handlerPtr h (trace s)
  then Returns tt (with_trace (t1 ++ sample_calls h' t1) s0)
  else Fatal (with_trace (trace s ++ take 1 (creation_calls P handlerPtr h)) s0).
Proof.
  intros H. unfold AddDataHubEntry.
  rewrite (bind_Returns _ _ _ _ _ (deref_live _ _ _ H)).
  unfold created_ref, creation_ok, creation_calls.
  destruct (isReadOnce (info h)) eqn:Hro.
  - rewrite bind_bind, (bind_store _ _ _ _ _ H), bind_bind.
    unfold bind at 1, ask at 1. unfold bind at 1, LE_ASSERT at 1, accepted.
    cbn [trace with_pool].
    destruct (is_LE_OK _ || is_LE_DUPLICATE _); [| reflexivity].
    match goal with |- bind (PushData ?p) ?k ?st = _ =>
      destruct (bind_PushData p k st (set_info (set_sensorRef NULL) h)) as [r Hr]
    end.
    { cbn [SensorHandlerPool with_trace with_pool]. apply lookup_insert_eq. }
    rewrite Hr. reflexivity.
  - rewrite bind_bind. unfold bind at 1, ask at 1.
    set (ref := psensor_Create P (trace s) _ _ _ _).
    rewrite bind_bind.
    rewrite (bind_store _ _ _ _ h) by exact H.
    rewrite bind_bind. unfold bind at 1, LE_ASSERT at 1.
    destruct (is_NULL ref); cbn [negb]; [reflexivity |].
    rewrite bind_bind. unfold bind at 1, emit at 1.
    unfold bind at 1, emit at 1.
    match goal with |- bind (PushData ?p) ?k ?st = _ =>
      destruct (bind_PushData p k st (set_info (set_sensorRef ref) h)) as [r Hr]
    end.
    { cbn [SensorHandlerPool with_trace with_pool]. apply lookup_insert_eq. }
    rewrite Hr. cbn [trace with_trace with_pool SensorHandlerPool poolBlocks numOverflows
         RegisteredSensorCount ret].
    rewrite <- !app_assoc. reflexivity.
Qed.

Lemma PushConfig_run s handlerPtr h :
  SensorHandlerPool s !! handlerPtr = Some h ->
  PushConfig handlerPtr s =
  Returns (if is_LE_OK (fst (config_answer h (trace s))) then LE_OK else LE_FAULT)
          (with_trace (trace s ++ config_push_calls h (trace s)) s).
Proof.
  intros H. unfold PushConfig.
  rewrite (bind_Returns _ _ _ _ _ (deref_live _ _ _ H)).
  unfold bind at 1, ask at 1, config_push_calls, config_answer, config_call, config_path.
  destruct (is_LE_OK _); [| reflexivity].
  unfold bind, emit, ret. cbn [trace with_trace]. rewrite <- app_assoc. reflexivity.
Qed.

(** ** Registration in closed form *)

Lemma after_switch_run cbPtr handlerPtr s h :
  SensorHandlerPool s !! handlerPtr = Some h ->
  after_switch cbPtr handlerPtr s =
  let h' := set_info (set_sensorRef (created_ref handlerPtr h (trace s))) h in
  let s0 := with_pool (<[handlerPtr := h']> (SensorHandlerPool s)) s in
  let t1 := (trace s ++ creation_calls P handlerPtr h)%list in
  let t2 := (t1 ++ sample_calls h' t1)%list in
  let s2 := with_count (int_incr (RegisteredSensorCount s)) (with_trace t2 s0) in
  let create := E_io_CreateOutput (config_path P h') IO_DATA_TYPE_JSON "" in
  if creation_ok handlerPtr h (trace s) then
    if wants_config cbPtr h' then
      if accepted (io_CreateOutput P t2 (config_path P h') IO_DATA_TYPE_JSON "")
      then Returns LE_OK (with_trace (t2 ++ config_calls handlerPtr h' t2) s2)
      else Fatal (with_trace (t2 ++ [create]) s2)
    else Returns LE_OK s2
  else Fatal (with_trace (trace s ++ take 1 (creation_calls P handlerPtr h)) s0).
Proof.
  intros H. unfold after_switch.
  unfold bind at 1. rewrite (AddDataHubEntry_run _ _ _ H). cbn zeta.
  destruct (creation_ok handlerPtr h (trace s)); [| reflexivity].
  unfold bind at 1.
  set (h' := set_info (set_sensorRef (created_ref handlerPtr h (trace s))) h).
  set (t2 := ((trace s ++ creation_calls P handlerPtr h) ++ _)%list).
  unfold bind at 1, deref at 1.
  cbn [SensorHandlerPool with_count with_trace with_pool]. rewrite lookup_insert_eq.
  unfold wants_config, config_path.
  destruct (negb (isReadOnce (info h')) && negb (is_NULL (configCb cbPtr)));
    [| reflexivity].
  unfold bind at 1. unfold bind at 1, ask at 1. cbn [trace with_count with_trace].
  unfold bind at 1, LE_ASSERT at 1, accepted.
  destruct (is_LE_OK _ || is_LE_DUPLICATE _); [| reflexivity].
  unfold bind at 1.
  erewrite PushConfig_run by (cbn [SensorHandlerPool]; apply lookup_insert_eq).
  unfold bind, emit, ret, config_calls, config_path.
  cbn [trace with_trace SensorHandlerPool poolBlocks numOverflows RegisteredSensorCount].
  rewrite <- !app_assoc. reflexivity.
Qed.

Lemma ParseSensorInfo_valid jsonStringPtr i :
  fst (ParseSensorInfo P jsonStringPtr i)
  = if valid_descriptor P jsonStringPtr then LE_OK else LE_FAULT.
Proof.
  unfold ParseSensorInfo, valid_descriptor, field_ok, field_fits, field_extracted,
    field_value.
  repeat match goal with
         | |- context [is_LE_OK ?r] => destruct (is_LE_OK r); cbn [negb andb fst]
         end; reflexivity.
Qed.

Lemma register_success jsonStringPtr type_ t cbPtr contextPtr s :
  valid_descriptor P jsonStringPtr = true ->
  switch_type type_ = Some t ->
  hub_lets_through jsonStringPtr t cbPtr contextPtr s = true ->
  sensorFw_RegisterCallback jsonStringPtr type_ cbPtr contextPtr s
  = Returns LE_OK (registered jsonStringPtr t cbPtr contextPtr s).
Proof.
  intros Hv Hty Hhub.
  rewrite (register_reaches_hub _ _ t) by (rewrite ?ParseSensorInfo_valid, ?Hv; done).
  erewrite after_switch_run
    by (unfold entered; cbn [SensorHandlerPool]; apply lookup_insert_eq).
  unfold hub_lets_through, registered, registered_trace, sampled_trace,
    registered_entry in *.
  cbn zeta in *. cbn [trace entered] in *.
  apply andb_true_iff in Hhub as [Hc Ho]. rewrite Hc.
  destruct (wants_config _ _).
  - rewrite Ho. unfold entered, with_trace, with_count, with_pool.
    cbn [trace SensorHandlerPool poolBlocks numOverflows RegisteredSensorCount].
    rewrite insert_insert_eq. reflexivity.
  - unfold entered, with_trace, with_count, with_pool.
    cbn [trace SensorHandlerPool poolBlocks numOverflows RegisteredSensorCount].
    rewrite insert_insert_eq. reflexivity.
Qed.

Lemma register_fatal jsonStringPtr type_ t cbPtr contextPtr s :
  valid_descriptor P jsonStringPtr = true ->
  switch_type type_ = Some t ->
  hub_lets_through jsonStringPtr t cbPtr contextPtr s = false ->
  exists s', sensorFw_RegisterCallback jsonStringPtr type_ cbPtr contextPtr s = Fatal s'.
Proof.
  intros Hv Hty Hhub.
  rewrite (register_reaches_hub _ _ t) by (rewrite ?ParseSensorInfo_valid, ?Hv; done).
  erewrite after_switch_run
    by (unfold entered; cbn [SensorHandlerPool]; apply lookup_insert_eq).
  unfold hub_lets_through, sampled_trace, registered_entry in *.
  cbn zeta in *. cbn [trace entered] in *.
  destruct (creation_ok _ _ _); [| eexists; reflexivity].
  cbn [andb] in Hhub.
  destruct (wants_config _ _); [| discriminate].
  rewrite Hhub. eexists; reflexivity.
Qed.

(** A descriptor the parser rejects: the block is taken and given back. *)
Lemma register_rejects jsonStringPtr type_ cbPtr contextPtr s :
  valid_descriptor P jsonStringPtr = false ->
  sensorFw_RegisterCallback jsonStringPtr type_ cbPtr contextPtr s
  = Returns LE_FAULT
      (mk_State (SensorHandlerPool s)
         (if Nat.leb (poolBlocks s) (size (SensorHandlerPool s))
          then S (poolBlocks s) else poolBlocks s)
         (if Nat.leb (poolBlocks s) (size (SensorHandlerPool s))
          then S (numOverflows s) else numOverflows s)
         (RegisteredSensorCount s) (trace s)).
Proof.
  intros Hv.
  unfold sensorFw_RegisterCallback, le_mem_ForceAlloc.
  unfold bind at 1. fold (next_block s).
  run_deref. run_store.
  rewrite ParseSensorInfo_valid, Hv. cbn [is_LE_OK negb].
  unfold bind, le_mem_Release, ret, with_pool.
  cbn [SensorHandlerPool poolBlocks numOverflows RegisteredSensorCount trace].
  rewrite insert_insert_eq, delete_insert_id by apply next_block_fresh.
  reflexivity.
Qed.

(** A payload kind outside the enumeration: the function returns at the
    [default:] label with the block still allocated. *)
Lemma register_default_label jsonStringPtr type_ cbPtr contextPtr s :
  valid_descriptor P jsonStringPtr = true ->
  switch_type type_ = None ->
  exists h,
    sensorFw_RegisterCallback jsonStringPtr type_ cbPtr contextPtr s
    = Returns LE_FAULT
        (mk_State (<[next_block s := h]> (SensorHandlerPool s))
           (if Nat.leb (poolBlocks s) (size (SensorHandlerPool s))
            then S (poolBlocks s) else poolBlocks s)
           (if Nat.leb (poolBlocks s) (size (SensorHandlerPool s))
            then S (numOverflows s) else numOverflows s)
           (RegisteredSensorCount s) (trace s)).
Proof.
  intros Hv Hty.
  unfold sensorFw_RegisterCallback, le_mem_ForceAlloc.
  unfold bind at 1. fold (next_block s).
  run_deref. run_store.
  rewrite ParseSensorInfo_valid, Hv. cbn [is_LE_OK negb].
  unfold bind at 1. cbn [RegisteredSensorCount].
  run_store. unfold bind at 1, deref_callbacks, address_of.
  run_store. run_store.
  rewrite Hty. rewrite !insert_insert_eq.
  eexists. unfold ret. reflexivity.
Qed.

(** ** Dispatch *)

Lemma pushes_app (t1 t2 : list ev) : pushes (t1 ++ t2) = (pushes t1 ++ pushes t2)%list.
Proof. unfold pushes. apply filter_app. Qed.

Lemma sample_call_not_push h e : sample_call P h = Some e -> is_push e = false.
Proof.
  unfold sample_call. destruct (type (info h)); intros [= <-]; reflexivity.
Qed.

Lemma sample_call_answer h (t : list ev) :
  is_Some (sample_call P h) <-> is_Some (sample_answer h t).
Proof.
  unfold sample_call, sample_answer.
  destruct (type (info h)); split; intros [x Hx]; try discriminate; eauto.
Qed.

(** C10: an entry whose stored data type is none of Boolean, Numeric,
    String and JSON: [PushData] returns [LE_OK] and leaves the state as it
    was -- the trace in particular, so no callback was invoked and nothing
    was pushed. *)
Theorem PushData_other_type s handlerPtr h :
  SensorHandlerPool s !! handlerPtr = Some h ->
  type (info h) <> IO_DATA_TYPE_BOOLEAN ->
  type (info h) <> IO_DATA_TYPE_NUMERIC ->
  type (info h) <> IO_DATA_TYPE_STRING ->
  type (info h) <> IO_DATA_TYPE_JSON ->
  PushData handlerPtr s = Returns LE_OK s.
Proof.
  intros H Hb Hn Hs Hj. unfold PushData.
  rewrite (bind_Returns _ _ _ _ _ (deref_live _ _ _ H)).
  destruct (type (info h)); try congruence. reflexivity.
Qed.

(** C2: when the callback selected for the entry, or its config callback,
    reports a failure, [PushData] / [PushConfig] returns [LE_FAULT] and the
    pushes the hub has received are those it had received before; pool and
    counter are untouched. *)
Theorem failed_callback_pushes_nothing s handlerPtr h :
  SensorHandlerPool s !! handlerPtr = Some h ->
  (forall r v,
      sample_answer h (trace s) = Some (r, v) -> r <> LE_OK ->
      exists s',
        PushData handlerPtr s = Returns LE_FAULT s'
        /\ pushes (trace s') = pushes (trace s)
        /\ SensorHandlerPool s' = SensorHandlerPool s
        /\ RegisteredSensorCount s' = RegisteredSensorCount s)
  /\ (fst (config_answer h (trace s)) <> LE_OK ->
      exists s',
        PushConfig handlerPtr s = Returns LE_FAULT s'
        /\ pushes (trace s') = pushes (trace s)
        /\ SensorHandlerPool s' = SensorHandlerPool s
        /\ RegisteredSensorCount s' = RegisteredSensorCount s).
Proof.
  intros H. split.
  - intros r v Ha Hr. rewrite (PushData_run _ _ _ H), Ha.
    destruct (sample_call P h) as [e|] eqn:He.
    + apply is_LE_OK_false in Hr. rewrite Hr. eexists. split; [reflexivity |].
      cbn [trace with_trace SensorHandlerPool RegisteredSensorCount].
      rewrite pushes_app. unfold pushes at 2. cbn [filter list_filter].
      rewrite decide_False by (rewrite (sample_call_not_push _ _ He); discriminate).
      cbn. rewrite app_nil_r. auto.
    + exfalso. assert (Hs : is_Some (sample_call P h))
        by (apply (sample_call_answer h (trace s)); eauto).
      rewrite He in Hs. destruct Hs; discriminate.
  - intros Hr. rewrite (PushConfig_run _ _ _ H).
    apply is_LE_OK_false in Hr. unfold config_push_calls. rewrite Hr.
    eexists. split; [reflexivity |].
    cbn [trace with_trace SensorHandlerPool RegisteredSensorCount].
    rewrite pushes_app. unfold pushes at 2, config_call. cbn [filter list_filter].
    rewrite decide_False by (cbn; discriminate).
    cbn. rewrite app_nil_r. auto.
Qed.

(** ** The descriptor parser *)

Lemma valid_descriptor_fields jsonStringPtr :
  valid_descriptor P jsonStringPtr = true <->
  forall key destSize,
    In (key, destSize) (descriptor_fields P) ->
    field_extracted P jsonStringPtr key = true
    /\ field_fits P jsonStringPtr key destSize = true.
Proof.
  unfold valid_descriptor, field_ok, descriptor_fields. split.
  - intros H key destSize Hin.
    rewrite !andb_true_iff in H. destruct H as [[[? ?] [? ?]] [? ?]].
    cbn in Hin. destruct Hin as [[= <- <-] | [[= <- <-] | [[= <- <-] | []]]]; auto.
  - intros H.
    destruct (H "name" MAX_RESOURCE_NAME_LEN) as [-> ->]; [cbn; auto |].
    destruct (H "path" (IO_MAX_RESOURCE_PATH_LEN P)) as [-> ->]; [cbn; auto |].
    destruct (H "unit" (IO_MAX_UNITS_NAME_LEN P)) as [-> ->]; [cbn; auto |].
    reflexivity.
Qed.

(** What a successful parse leaves in the record. *)
Lemma ParseSensorInfo_fields jsonStringPtr i :
  fst (ParseSensorInfo P jsonStringPtr i) = LE_OK ->
  let i' := snd (ParseSensorInfo P jsonStringPtr i) in
  name i' = snd (le_utf8_Copy P (field_value P jsonStringPtr "name") MAX_RESOURCE_NAME_LEN)
  /\ path i' = snd (le_utf8_Copy P (field_value P jsonStringPtr "path")
                                 (IO_MAX_RESOURCE_PATH_LEN P))
  /\ unit i' = snd (le_utf8_Copy P (field_value P jsonStringPtr "unit")
                                 (IO_MAX_UNITS_NAME_LEN P))
  /\ isReadOnce i' =
     (if field_extracted P jsonStringPtr "readOnce"
      then json_ConvertToBoolean P (field_value P jsonStringPtr "readOnce")
      else false)
  /\ sensorId i' = sensorId i /\ type i' = type i /\ sensorRef i' = sensorRef i.
Proof.
  unfold ParseSensorInfo, field_extracted, field_value.
  repeat match goal with
         | |- context [negb (is_LE_OK ?r)] => destruct (is_LE_OK r); cbn [negb fst snd]
         end; try discriminate; intros _;
    destruct (is_LE_OK _); cbn; auto 10.
Qed.

Lemma register_rejected_state jsonStringPtr type_ cbPtr contextPtr s :
  valid_descriptor P jsonStringPtr = false ->
  exists s',
    sensorFw_RegisterCallback jsonStringPtr type_ cbPtr contextPtr s
    = Returns LE_FAULT s'
    /\ RegisteredSensorCount s' = RegisteredSensorCount s
    /\ SensorHandlerPool s' = SensorHandlerPool s
    /\ trace s' = trace s.
Proof.
  intros Hv. rewrite (register_rejects _ _ _ _ _ Hv). eexists. split; [reflexivity |].
  auto.
Qed.

(** C6: the parse succeeds exactly when name, path and unit are each
    extracted from the descriptor and each fits its destination buffer;
    a descriptor without name or without path makes the registration
    return [LE_FAULT] with counter, pool and trace as before; and a parsed
    descriptor without readOnce has [isReadOnce = false]. *)
Theorem ParseSensorInfo_accepts jsonStringPtr :
  (forall i,
      fst (ParseSensorInfo P jsonStringPtr i) = LE_OK <->
      (field_extracted P jsonStringPtr "name" = true
       /\ field_fits P jsonStringPtr "name" MAX_RESOURCE_NAME_LEN = true)
      /\ (field_extracted P jsonStringPtr "path" = true
          /\ field_fits P jsonStringPtr "path" (IO_MAX_RESOURCE_PATH_LEN P) = true)
      /\ (field_extracted P jsonStringPtr "unit" = true
          /\ field_fits P jsonStringPtr "unit" (IO_MAX_UNITS_NAME_LEN P) = true))
  /\ (forall type_ cbPtr contextPtr s,
         field_extracted P jsonStringPtr "name" = false
         \/ field_extracted P jsonStringPtr "path" = false ->
         exists s',
           sensorFw_RegisterCallback jsonStringPtr type_ cbPtr contextPtr s
           = Returns LE_FAULT s'
           /\ RegisteredSensorCount s' = RegisteredSensorCount s
           /\ SensorHandlerPool s' = SensorHandlerPool s
           /\ trace s' = trace s)
  /\ (forall i,
         field_extracted P jsonStringPtr "readOnce" = false ->
         fst (ParseSensorInfo P jsonStringPtr i) = LE_OK ->
         isReadOnce (snd (ParseSensorInfo P jsonStringPtr i)) = false).
Proof.
  split; [| split].
  - intros i. rewrite ParseSensorInfo_valid.
    unfold valid_descriptor, field_ok.
    destruct (field_extracted P jsonStringPtr "name"),
      (field_fits P jsonStringPtr "name" MAX_RESOURCE_NAME_LEN),
      (field_extracted P jsonStringPtr "path"),
      (field_fits P jsonStringPtr "path" (IO_MAX_RESOURCE_PATH_LEN P)),
      (field_extracted P jsonStringPtr "unit"),
      (field_fits P jsonStringPtr "unit" (IO_MAX_UNITS_NAME_LEN P));
      cbn [andb]; split; try tauto; try discriminate;
      intros [[? ?] [[? ?] [? ?]]]; discriminate.
  - intros type_ cbPtr contextPtr s Hmiss.
    apply register_rejected_state.
    unfold valid_descriptor, field_ok.
    destruct Hmiss as [-> | ->]; cbn [andb]; [reflexivity |].
    rewrite andb_false_r. reflexivity.
  - intros i Hro Hok.
    destruct (ParseSensorInfo_fields _ _ Hok) as (_ & _ & _ & H & _).
    rewrite H, Hro. reflexivity.
Qed.

(** C8, as the code has it: a field that was extracted but does not fit
    its destination buffer makes the parse return [LE_FAULT], so the
    truncation is not silent; but the parse has by then stored in the
    record it was given what [le_utf8_Copy] left in the destination -- the
    cut copy --, for the name, and likewise for the path and the unit when
    the fields before them were in order.  The registration returns
    [LE_FAULT] and the block the parser wrote into is back in the pool:
    no entry keeps the cut text.  And when the parse succeeds, each stored
    field is the whole extracted text, given that [le_utf8_Copy] reports
    [LE_OK] only for a complete copy. *)
Theorem oversized_field_is_rejected jsonStringPtr :
  (forall key destSize,
      In (key, destSize) (descriptor_fields P) ->
      field_extracted P jsonStringPtr key = true ->
      field_fits P jsonStringPtr key destSize = false ->
      (forall i, fst (ParseSensorInfo P jsonStringPtr i) = LE_FAULT)
      /\ (forall type_ cbPtr contextPtr s,
             exists s',
               sensorFw_RegisterCallback jsonStringPtr type_ cbPtr contextPtr s
               = Returns LE_FAULT s'
               /\ RegisteredSensorCount s' = RegisteredSensorCount s
               /\ SensorHandlerPool s' = SensorHandlerPool s
               /\ trace s' = trace s))
  /\ (forall i,
         (field_extracted P jsonStringPtr "name" = true ->
          field_fits P jsonStringPtr "name" MAX_RESOURCE_NAME_LEN = false ->
          snd (ParseSensorInfo P jsonStringPtr i)
          = set_name (snd (le_utf8_Copy P (field_value P jsonStringPtr "name")
                             MAX_RESOURCE_NAME_LEN)) i)
         /\ (field_ok P jsonStringPtr "name" MAX_RESOURCE_NAME_LEN = true ->
             field_extracted P jsonStringPtr "path" = true ->
             field_fits P jsonStringPtr "path" (IO_MAX_RESOURCE_PATH_LEN P) = false ->
             path (snd (ParseSensorInfo P jsonStringPtr i))
             = snd (le_utf8_Copy P (field_value P jsonStringPtr "path")
                      (IO_MAX_RESOURCE_PATH_LEN P)))
         /\ (field_ok P jsonStringPtr "name" MAX_RESOURCE_NAME_LEN = true ->
             field_ok P jsonStringPtr "path" (IO_MAX_RESOURCE_PATH_LEN P) = true ->
             field_extracted P jsonStringPtr "unit" = true ->
             field_fits P jsonStringPtr "unit" (IO_MAX_UNITS_NAME_LEN P) = false ->
             unit (snd (ParseSensorInfo P jsonStringPtr i))
             = snd (le_utf8_Copy P (field_value P jsonStringPtr "unit")
                      (IO_MAX_UNITS_NAME_LEN P))))
  /\ (copy_exact P ->
      forall i,
        fst (ParseSensorInfo P jsonStringPtr i) = LE_OK ->
        name (snd (ParseSensorInfo P jsonStringPtr i)) = field_value P jsonStringPtr "name"
        /\ path (snd (ParseSensorInfo P jsonStringPtr i))
           = field_value P jsonStringPtr "path"
        /\ unit (snd (ParseSensorInfo P jsonStringPtr i))
           = field_value P jsonStringPtr "unit").
Proof.
  split; [| split].
  - intros key destSize Hin Hx Hfit.
    assert (Hv : valid_descriptor P jsonStringPtr = false).
    { destruct (valid_descriptor P jsonStringPtr) eqn:Hv; [| reflexivity].
      destruct (proj1 (valid_descriptor_fields _) Hv key destSize Hin) as [_ Hf].
      congruence. }
    split.
    + intros i. rewrite ParseSensorInfo_valid, Hv. reflexivity.
    + intros. apply register_rejected_state, Hv.
  - intros i. unfold field_ok, field_extracted, field_fits, field_value, ParseSensorInfo.
    split; [| split].
    + intros -> ->. reflexivity.
    + intros Hname. apply andb_true_iff in Hname. destruct Hname as [-> ->].
      intros -> ->. reflexivity.
    + intros Hname Hpath.
      apply andb_true_iff in Hname. destruct Hname as [-> ->].
      apply andb_true_iff in Hpath. destruct Hpath as [-> ->].
      intros -> ->. cbn [negb fst snd].
      destruct (is_LE_OK _); reflexivity.
  - intros Hexact i Hok.
    destruct (ParseSensorInfo_fields _ _ Hok) as (Hn & Hp & Hu & _).
    rewrite ParseSensorInfo_valid in Hok.
    destruct (valid_descriptor P jsonStringPtr) eqn:Hv; [| discriminate].
    pose proof (proj1 (valid_descriptor_fields _) Hv) as Hall.
    cbn zeta in *. rewrite Hn, Hp, Hu.
    assert (Hcopy : forall key destSize,
               In (key, destSize) (descriptor_fields P) ->
               snd (le_utf8_Copy P (field_value P jsonStringPtr key) destSize)
               = field_value P jsonStringPtr key).
    { intros key destSize Hin. destruct (Hall _ _ Hin) as [_ Hf].
      unfold field_fits in Hf. apply is_LE_OK_true in Hf.
      destruct (le_utf8_Copy P _ destSize) as [r d] eqn:Hc. cbn in *. subst r.
      apply (Hexact _ _ _ Hc). }
    repeat split; apply Hcopy; cbn; auto.
Qed.

(** ** Registration that does not go through *)

(** A descriptor the parser rejects leaves no trace of the attempt: the
    block is released, nothing is created in the hub and the counter keeps
    its value. *)
Lemma rejected_descriptor_leaves_nothing jsonStringPtr type_ cbPtr contextPtr s :
  valid_descriptor P jsonStringPtr = false ->
  exists s',
    sensorFw_RegisterCallback jsonStringPtr type_ cbPtr contextPtr s
    = Returns LE_FAULT s'
    /\ RegisteredSensorCount s' = RegisteredSensorCount s
    /\ SensorHandlerPool s' = SensorHandlerPool s
    /\ trace s' = trace s.
Proof. apply register_rejected_state. Qed.

(** With a payload kind outside the enumeration the function returns
    [LE_FAULT] from the [default:] label and the block it allocated stays
    allocated, where the parse-failure path above releases it. *)
Lemma invalid_kind_strands_block jsonStringPtr type_ cbPtr contextPtr s :
  valid_descriptor P jsonStringPtr = true ->
  switch_type type_ = None ->
  exists s',
    sensorFw_RegisterCallback jsonStringPtr type_ cbPtr contextPtr s
    = Returns LE_FAULT s'
    /\ RegisteredSensorCount s' = RegisteredSensorCount s
    /\ trace s' = trace s
    /\ is_Some (SensorHandlerPool s' !! next_block s)
    /\ size (SensorHandlerPool s') = S (size (SensorHandlerPool s)).
Proof.
  intros Hv Hty.
  destruct (register_default_label _ _ cbPtr contextPtr s Hv Hty) as [h ->].
  eexists. split; [reflexivity |]. cbn [RegisteredSensorCount trace SensorHandlerPool].
  repeat split.
  - rewrite lookup_insert_eq. eauto.
  - apply map_size_insert_None, next_block_fresh.
Qed.

(** C9, as the code has it: when the hub refuses to create the resource
    of the entry -- [io_CreateInput] answers neither [LE_OK] nor
    [LE_DUPLICATE], [psensor_Create] answers [NULL], or [io_CreateOutput]
    refuses the config resource -- the [LE_ASSERT] that follows the call
    fails: the call into the framework does not return to the plugin. *)
Theorem refused_creation_is_fatal jsonStringPtr type_ t cbPtr contextPtr s :
  valid_descriptor P jsonStringPtr = true ->
  switch_type type_ = Some t ->
  creation_ok (next_block s) (new_entry jsonStringPtr t cbPtr contextPtr s) (trace s)
  = false
  \/ (wants_config cbPtr (registered_entry jsonStringPtr t cbPtr contextPtr s) = true
      /\ accepted
           (io_CreateOutput P (sampled_trace jsonStringPtr t cbPtr contextPtr s)
              (config_path P (registered_entry jsonStringPtr t cbPtr contextPtr s))
              IO_DATA_TYPE_JSON "") = false) ->
  exists s',
    sensorFw_RegisterCallback jsonStringPtr type_ cbPtr contextPtr s = Fatal s'.
Proof.
  intros Hv Hty Hrefused.
  apply (register_fatal _ _ t); [assumption | assumption |].
  unfold hub_lets_through. cbn zeta.
  destruct Hrefused as [-> | [-> ->]]; [reflexivity |].
  apply andb_false_r.
Qed.

(** ** Resource paths *)

Lemma string_length_app (a b : string) :
  String.length (a +:+ b) = (String.length a + String.length b)%nat.
Proof. induction a as [| c a IH]; simpl; [reflexivity | f_equal; exact IH]. Qed.

Lemma substring_whole (n : nat) (a : string) :
  (String.length a <= n)%nat -> String.substring 0 n a = a.
Proof.
  revert n. induction a as [| c a IH]; intros [| n] Hn; cbn in *;
    try reflexivity; try lia.
  rewrite IH by lia. reflexivity.
Qed.

(** The 20 spare bytes of [resourcePath] hold the suffixes the source
    appends: a stored path, shorter than its buffer, is never cut. *)
Lemma snprintf_path_whole (a b : string) :
  (String.length a < IO_MAX_RESOURCE_PATH_LEN P)%nat ->
  (String.length b < MAX_RESOURCE_NAME_LEN - 1)%nat ->
  snprintf_path (resourcePath_size P) a b = a +:+ "/" +:+ b.
Proof.
  intros Ha Hb. unfold snprintf_path, resourcePath_size. apply substring_whole.
  rewrite !string_length_app. cbn [String.length]. unfold MAX_RESOURCE_NAME_LEN in *. lia.
Qed.

(** ** Registration that goes through *)

Lemma hub_accepts_lets_through jsonStringPtr t cbPtr contextPtr s :
  hub_accepts P -> hub_lets_through jsonStringPtr t cbPtr contextPtr s = true.
Proof.
  intros (Hin & Hout & Hps). unfold hub_lets_through, creation_ok. cbn zeta.
  apply andb_true_iff. split.
  - destruct (isReadOnce _); [apply Hin | rewrite Hps; reflexivity].
  - destruct (wants_config _ _); [apply Hout | reflexivity].
Qed.

Lemma registered_size jsonStringPtr t cbPtr contextPtr s :
  size (SensorHandlerPool (registered jsonStringPtr t cbPtr contextPtr s))
  = S (size (SensorHandlerPool s)).
Proof. cbn [registered SensorHandlerPool]. apply map_size_insert_None, next_block_fresh. Qed.

(** Registrations in a row on a hub that accepts them: each returns
    [LE_OK]; the pool grows when it has no free block left. *)
Lemma register_all_accepted (reqs : list request) :
  hub_accepts P ->
  Forall (valid_request P) reqs ->
  forall s,
    (size (SensorHandlerPool s) <= poolBlocks s)%nat ->
    exists s',
      register_all reqs s = Returns (replicate (length reqs) LE_OK) s'
      /\ size (SensorHandlerPool s') = (size (SensorHandlerPool s) + length reqs)%nat
      /\ poolBlocks s'
         = Nat.max (poolBlocks s) (size (SensorHandlerPool s) + length reqs)
      /\ numOverflows s'
         = (numOverflows s
            + (size (SensorHandlerPool s) + length reqs - poolBlocks s))%nat.
Proof.
  intros Hhub Hall. induction Hall as [| q reqs [Hv [t Ht]] _ IH]; intros s Hinv.
  - exists s. cbn. repeat split; lia.
  - cbn [register_all length replicate].
    erewrite bind_Returns
      by (apply (register_success _ _ t); auto using hub_accepts_lets_through).
    set (s1 := registered _ _ _ _ s).
    assert (Hsize : size (SensorHandlerPool s1) = S (size (SensorHandlerPool s)))
      by apply registered_size.
    assert (Hblocks : poolBlocks s1
                      = if Nat.leb (poolBlocks s) (size (SensorHandlerPool s))
                        then S (poolBlocks s) else poolBlocks s) by reflexivity.
    assert (Hover : numOverflows s1
                    = if Nat.leb (poolBlocks s) (size (SensorHandlerPool s))
                      then S (numOverflows s) else numOverflows s) by reflexivity.
    destruct (Nat.leb_spec (poolBlocks s) (size (SensorHandlerPool s)));
      (destruct (IH s1) as (s' & Hrun & Hs & Hb & Ho); [lia |]);
      exists s'; (erewrite bind_Returns by exact Hrun); cbn [ret];
      (split; [reflexivity |]); lia.
Qed.

(** C5, as the code has it: registrations with valid descriptors and
    payload kinds, on a hub that accepts them, all return [LE_OK] -- the
    first [SENSOR_HANDLER_POOL_SIZE] and every one after them.  There is
    no capacity error: past the configured size each registration makes
    [le_mem_ForceAlloc] grow the pool by a block and count an overflow. *)
Theorem registrations_beyond_capacity_succeed (reqs : list request) :
  hub_accepts P ->
  Forall (valid_request P) reqs ->
  exists s',
    register_all reqs (COMPONENT_INIT P) = Returns (replicate (length reqs) LE_OK) s'
    /\ size (SensorHandlerPool s') = length reqs
    /\ poolBlocks s'
       = Nat.max (SENSOR_HANDLER_POOL_SIZE (LE_CONFIG_REDUCE_FOOTPRINT P)) (length reqs)
    /\ numOverflows s'
       = (length reqs - SENSOR_HANDLER_POOL_SIZE (LE_CONFIG_REDUCE_FOOTPRINT P))%nat.
Proof.
  intros Hhub Hall.
  destruct (register_all_accepted reqs Hhub Hall (COMPONENT_INIT P))
    as (s' & Hrun & Hs & Hb & Ho).
  { cbn [COMPONENT_INIT SensorHandlerPool poolBlocks]. rewrite map_size_empty. lia. }
  exists s'. cbn [COMPONENT_INIT SensorHandlerPool poolBlocks numOverflows] in *.
  rewrite map_size_empty in *. repeat split; [assumption | lia ..].
Qed.

(** ** What a registration that returned [LE_OK] has done *)

Lemma register_OK_inv jsonStringPtr type_ cbPtr contextPtr s s' :
  sensorFw_RegisterCallback jsonStringPtr type_ cbPtr contextPtr s = Returns LE_OK s' ->
  valid_descriptor P jsonStringPtr = true
  /\ exists t,
      switch_type type_ = Some t
      /\ hub_lets_through jsonStringPtr t cbPtr contextPtr s = true
      /\ s' = registered jsonStringPtr t cbPtr contextPtr s.
Proof.
  intros Hrun.
  destruct (valid_descriptor P jsonStringPtr) eqn:Hv.
  2:{ rewrite (register_rejects _ _ _ _ _ Hv) in Hrun. discriminate. }
  split; [reflexivity |].
  destruct (switch_type type_) as [t |] eqn:Hty.
  2:{ destruct (register_default_label _ _ cbPtr contextPtr s Hv Hty) as [h Hh].
      rewrite Hh in Hrun. discriminate. }
  exists t. split; [reflexivity |].
  destruct (hub_lets_through jsonStringPtr t cbPtr contextPtr s) eqn:Hhub.
  - rewrite (register_success _ _ t _ _ _ Hv Hty Hhub) in Hrun.
    injection Hrun as <-. auto.
  - destruct (register_fatal _ _ t _ _ _ Hv Hty Hhub) as [s0 Hs0].
    rewrite Hs0 in Hrun. discriminate.
Qed.

Lemma switch_type_known type_ t :
  switch_type type_ = Some t ->
  t = IO_DATA_TYPE_NUMERIC \/ t = IO_DATA_TYPE_BOOLEAN
  \/ t = IO_DATA_TYPE_STRING \/ t = IO_DATA_TYPE_JSON.
Proof.
  unfold switch_type.
  repeat match goal with |- context [Z.eqb ?a ?b] => destruct (Z.eqb a b) end;
    intros [= <-]; auto.
Qed.

Lemma sample_call_known h :
  type (info h) = IO_DATA_TYPE_NUMERIC \/ type (info h) = IO_DATA_TYPE_BOOLEAN
  \/ type (info h) = IO_DATA_TYPE_STRING \/ type (info h) = IO_DATA_TYPE_JSON ->
  forall t : list ev,
  exists e r v,
    sample_call P h = Some e /\ sample_answer h t = Some (r, v)
    /\ is_callback e = true
    /\ sample_calls h t = e :: (if is_LE_OK r then [push_of h v] else []).
Proof.
  intros Hty t. unfold sample_calls, sample_call, sample_answer.
  destruct Hty as [-> | [-> | [-> | ->]]]; do 3 eexists;
    (split; [reflexivity |]); (split; [reflexivity |]); (split; [reflexivity |]);
    cbn [fst]; destruct (is_LE_OK _); reflexivity.
Qed.

Lemma int_incr_in_range (z : Z) : 0 <= z < INT_MAX -> int_incr z = z + 1.
Proof.
  unfold int_incr, int_wrap, INT_MAX. intros Hz.
  rewrite Z.mod_small by lia. lia.
Qed.

(** C1, as the code has it: a registration with a valid descriptor and a
    valid payload kind, on a hub that lets it through, returns [LE_OK]
    with the counter one higher.  Its calls are, in order: the creation of
    the resource, one call of the sample callback stored for the payload
    kind, the push of the sampled value when that call reported [LE_OK]
    (no push when it did not), and the set-up of the config resource when
    there is one.  No other call into the plugin is made before the
    sample call. *)
Theorem registration_samples_once jsonStringPtr type_ t cbPtr contextPtr s :
  valid_descriptor P jsonStringPtr = true ->
  switch_type type_ = Some t ->
  hub_lets_through jsonStringPtr t cbPtr contextPtr s = true ->
  0 <= RegisteredSensorCount s < INT_MAX ->
  exists s' h e r v,
    sensorFw_RegisterCallback jsonStringPtr type_ cbPtr contextPtr s = Returns LE_OK s'
    /\ RegisteredSensorCount s' = RegisteredSensorCount s + 1
    /\ SensorHandlerPool s' !! next_block s = Some h
    /\ type (info h) = t
    /\ sample (callbacks h) = sample cbPtr
    /\ pluginContextPtr h = contextPtr
    /\ sample_call P h = Some e
    /\ sample_answer h (trace s ++ creation_calls P (next_block s) h) = Some (r, v)
    /\ plugin_calls (creation_calls P (next_block s) h) = []
    /\ trace s' =
       (trace s ++ creation_calls P (next_block s) h
        ++ e :: (if is_LE_OK r then [push_of h v] else [])
        ++ (if wants_config cbPtr h
            then config_calls (next_block s) h
                   (trace s ++ creation_calls P (next_block s) h
                    ++ e :: (if is_LE_OK r then [push_of h v] else []))
            else []))%list.
Proof.
  intros Hv Hty Hhub Hcount.
  set (h := registered_entry jsonStringPtr t cbPtr contextPtr s).
  destruct (sample_call_known h (switch_type_known _ _ Hty)
              (trace s ++ creation_calls P (next_block s) h)%list)
    as (e & r & v & He & Ha & _ & Hcalls).
  exists (registered jsonStringPtr t cbPtr contextPtr s), h, e, r, v.
  split; [apply register_success; assumption |].
  split; [cbn [registered RegisteredSensorCount]; apply int_incr_in_range, Hcount |].
  split; [cbn [registered SensorHandlerPool]; apply lookup_insert_eq |].
  do 5 (split; [first [reflexivity | assumption] |]).
  split.
  { unfold creation_calls. destruct (isReadOnce (info h)); reflexivity. }
  cbn [registered trace]. unfold registered_trace, sampled_trace. cbn zeta. fold h.
  change (creation_calls P (next_block s) (new_entry jsonStringPtr t cbPtr contextPtr s))
    with (creation_calls P (next_block s) h).
  rewrite Hcalls.
  destruct (wants_config cbPtr h);
    rewrite ?app_nil_r, <- ?app_assoc, <- ?app_comm_cons; reflexivity.
Qed.

Lemma registered_entry_path_bounded jsonStringPtr t cbPtr contextPtr s :
  copy_bounded P ->
  valid_descriptor P jsonStringPtr = true ->
  (String.length (path (info (registered_entry jsonStringPtr t cbPtr contextPtr s)))
   < IO_MAX_RESOURCE_PATH_LEN P)%nat.
Proof.
  intros Hb Hv.
  change (path (info (registered_entry jsonStringPtr t cbPtr contextPtr s)))
    with (path (snd (ParseSensorInfo P jsonStringPtr
                       (info (le_mem_block P (next_block s)))))).
  destruct (ParseSensorInfo_fields jsonStringPtr (info (le_mem_block P (next_block s))))
    as (_ & Hp & _).
  { rewrite ParseSensorInfo_valid, Hv. reflexivity. }
  cbn zeta in Hp. rewrite Hp.
  destruct (proj1 (valid_descriptor_fields _) Hv "path" (IO_MAX_RESOURCE_PATH_LEN P))
    as [_ Hf]; [cbn; auto |].
  unfold field_fits in Hf. apply is_LE_OK_true in Hf.
  destruct (le_utf8_Copy P _ _) as [r d] eqn:Hc. cbn in *. subst r.
  apply (Hb _ _ _ Hc).
Qed.

Lemma periodic_targets_app (t1 t2 : list ev) :
  periodic_targets (t1 ++ t2) = (periodic_targets t1 ++ periodic_targets t2)%list.
Proof.
  induction t1 as [| e t1 IH]; [reflexivity |].
  destruct e; cbn; rewrite ?IH; reflexivity.
Qed.

Lemma creations_sample_calls h (t : list ev) : creations (sample_calls h t) = [].
Proof.
  unfold sample_calls, sample_call, sample_answer, push_of.
  destruct (type (info h)); try reflexivity;
    cbn [fst snd]; destruct (is_LE_OK _); try reflexivity;
    destruct (isReadOnce (info h)); reflexivity.
Qed.

Lemma push_of_read_once h (v : sample_value) :
  isReadOnce (info h) = true -> io_push_at (path (info h)) (push_of h v) = true.
Proof.
  intros Hro. unfold push_of. rewrite Hro.
  destruct v; cbn; apply String.eqb_refl.
Qed.

(** C7, as the code has it: what a registration that returned [LE_OK]
    has set up for its entry.  Not read-once: a periodic sensor was created with the entry as
    the context of its sample function, its [enable] resource was pushed
    [true] and its [period] resource 60, and a tick of that sensor runs one
    dispatch step on the entry.  Read-once: a plain hub input was created,
    nothing else, the entry has no periodic sensor reference, and
    [sensorFw_PushSample] on the entry calls its sample callback again and
    pushes the value to the entry's path when the callback reports
    [LE_OK]; when it does not, the call returns [LE_FAULT] and nothing is
    pushed. *)
Theorem registration_creates_resource jsonStringPtr type_ cbPtr contextPtr s s' :
  copy_bounded P ->
  sensorFw_RegisterCallback jsonStringPtr type_ cbPtr contextPtr s = Returns LE_OK s' ->
  exists h rest,
    SensorHandlerPool s' !! next_block s = Some h
    /\ (isReadOnce (info h) = false ->
        trace s' =
        (trace s
         ++ [E_psensor_Create (path (info h)) (type (info h)) (unit (info h))
                              (next_block s);
             E_io_PushBoolean (path (info h) +:+ "/enable") true;
             E_io_PushNumeric (path (info h) +:+ "/period")
                              (double_of_int P DEFAULT_SAMPLING_PERIOD_SEC)]
         ++ rest)%list
        /\ sensorRef (info h)
           = psensor_Create P (trace s) (path (info h)) (type (info h)) (unit (info h))
                            (next_block s)
        /\ sensorRef (info h) <> NULL
        /\ In (next_block s) (periodic_targets (trace s'))
        /\ forall s2,
            SensorHandlerPool s2 !! next_block s = Some h ->
            SampleSensor (sensorRef (info h)) (next_block s) s2
            = Returns tt (with_trace (trace s2 ++ sample_calls h (trace s2)) s2))
    /\ (isReadOnce (info h) = true ->
        trace s' =
        (trace s
         ++ E_io_CreateInput (path (info h)) (type (info h)) (unit (info h)) :: rest)%list
        /\ creations rest = []
        /\ sensorRef (info h) = NULL
        /\ forall s2 r v,
            SensorHandlerPool s2 !! next_block s = Some h ->
            sample_answer h (trace s2) = Some (r, v) ->
            exists e,
              sample_call P h = Some e
              /\ is_callback e = true
              /\ io_push_at (path (info h)) (push_of h v) = true
              /\ sensorFw_PushSample (next_block s) s2
                 = if is_LE_OK r
                   then Returns LE_OK (with_trace (trace s2 ++ [e; push_of h v]) s2)
                   else Returns LE_FAULT (with_trace (trace s2 ++ [e]) s2)).
Proof.
  intros Hb Hrun.
  destruct (register_OK_inv _ _ _ _ _ _ Hrun) as (Hv & t & Hty & Hhub & ->).
  set (h := registered_entry jsonStringPtr t cbPtr contextPtr s).
  assert (Hlen := registered_entry_path_bounded jsonStringPtr t cbPtr contextPtr s Hb Hv).
  fold h in Hlen.
  assert (Hknown := switch_type_known _ _ Hty).
  change t with (type (info h)) in Hknown.
  assert (Htrace :
            trace (registered jsonStringPtr t cbPtr contextPtr s)
            = (trace s ++ creation_calls P (next_block s) h
               ++ sample_calls h (trace s ++ creation_calls P (next_block s) h)
               ++ (if wants_config cbPtr h
                   then config_calls (next_block s) h
                          (sampled_trace jsonStringPtr t cbPtr contextPtr s)
                   else []))%list).
  { assert (Ht2 : sampled_trace jsonStringPtr t cbPtr contextPtr s
                   = (trace s ++ creation_calls P (next_block s) h
                      ++ sample_calls h (trace s ++ creation_calls P (next_block s) h))%list)
      by (unfold sampled_trace; cbn zeta; rewrite <- app_assoc; reflexivity).
    cbn [registered trace]. unfold registered_trace. cbn zeta. fold h.
    destruct (wants_config cbPtr h).
    - rewrite Ht2 at 1. rewrite <- !app_assoc. reflexivity.
    - rewrite Ht2, app_nil_r. reflexivity. }
  exists h.
  exists (if isReadOnce (info h)
          then sample_calls h (trace s ++ creation_calls P (next_block s) h)
          else (sample_calls h (trace s ++ creation_calls P (next_block s) h)
                ++ (if wants_config cbPtr h
                    then config_calls (next_block s) h
                           (sampled_trace jsonStringPtr t cbPtr contextPtr s)
                    else []))%list).
  split; [cbn [registered SensorHandlerPool]; apply lookup_insert_eq |].
  split.
  - intros Hro. rewrite Hro.
    assert (Hhub' := Hhub). unfold hub_lets_through in Hhub'. cbn zeta in Hhub'.
    apply andb_true_iff in Hhub' as [Hc _].
    unfold creation_ok in Hc.
    change (isReadOnce (info (new_entry jsonStringPtr t cbPtr contextPtr s)))
      with (isReadOnce (info h)) in Hc.
    rewrite Hro in Hc. apply negb_true_iff in Hc.
    assert (Href : sensorRef (info h)
                   = psensor_Create P (trace s) (path (info h)) (type (info h))
                       (unit (info h)) (next_block s)).
    { unfold h, registered_entry, created_ref.
      change (isReadOnce (info (new_entry jsonStringPtr t cbPtr contextPtr s)))
        with (isReadOnce (info h)). rewrite Hro. reflexivity. }
    assert (Hcreate :
              creation_calls P (next_block s) h
              = [E_psensor_Create (path (info h)) (type (info h)) (unit (info h))
                                  (next_block s);
                 E_io_PushBoolean (path (info h) +:+ "/enable") true;
                 E_io_PushNumeric (path (info h) +:+ "/period")
                                  (double_of_int P DEFAULT_SAMPLING_PERIOD_SEC)]).
    { unfold creation_calls. rewrite Hro.
      rewrite !snprintf_path_whole by (assumption || (cbn; lia)). reflexivity. }
    split; [rewrite Htrace, Hcreate; reflexivity |].
    split; [exact Href |].
    split.
    { rewrite Href. intros Hnull. unfold is_NULL in Hc. apply Nat.eqb_neq in Hc.
      apply Hc. exact Hnull. }
    split.
    { rewrite Htrace, Hcreate, !periodic_targets_app. apply in_or_app. right.
      left. reflexivity. }
    intros s2 Hs2. unfold SampleSensor. rewrite next_block_not_NULL.
    destruct (PushData_calls _ _ _ Hs2) as [r Hr].
    erewrite bind_Returns by exact Hr. reflexivity.
  - intros Hro. rewrite Hro.
    assert (Hcreate :
              creation_calls P (next_block s) h
              = [E_io_CreateInput (path (info h)) (type (info h)) (unit (info h))]).
    { unfold creation_calls. rewrite Hro. reflexivity. }
    assert (Hcfg : wants_config cbPtr h = false)
      by (unfold wants_config; rewrite Hro; reflexivity).
    split; [rewrite Htrace, Hcreate, Hcfg, app_nil_r; reflexivity |].
    split; [apply creations_sample_calls |].
    split.
    { unfold h, registered_entry, created_ref.
      change (isReadOnce (info (new_entry jsonStringPtr t cbPtr contextPtr s)))
        with (isReadOnce (info h)). rewrite Hro. reflexivity. }
    intros s2 r v Hs2 Ha.
    destruct (sample_call_known h Hknown (trace s2)) as (e & r' & v' & He & Ha' & Hcb & _).
    rewrite Ha in Ha'. injection Ha' as <- <-.
    exists e. split; [exact He |]. split; [exact Hcb |].
    split; [apply push_of_read_once, Hro |].
    unfold sensorFw_PushSample. rewrite next_block_not_NULL.
    rewrite (PushData_run _ _ _ Hs2), He, Ha. reflexivity.
Qed.

(** ** Configuration updates *)

Lemma json_push_handlers_app (t1 t2 : list ev) (p : string) :
  json_push_handlers (t1 ++ t2) p
  = (json_push_handlers t1 p ++ json_push_handlers t2 p)%list.
Proof.
  induction t1 as [| e t1 IH]; [reflexivity |].
  destruct e; cbn; rewrite ?IH; try reflexivity.
  destruct (String.eqb _ _); reflexivity.
Qed.

Lemma json_push_handlers_creation handlerPtr h (p : string) :
  json_push_handlers (creation_calls P handlerPtr h) p = [].
Proof. unfold creation_calls. destruct (isReadOnce (info h)); reflexivity. Qed.

Lemma json_push_handlers_sample h (t : list ev) (p : string) :
  json_push_handlers (sample_calls h t) p = [].
Proof.
  unfold sample_calls, sample_call, sample_answer, push_of.
  destruct (type (info h)); try reflexivity;
    cbn [fst snd]; destruct (is_LE_OK _); try reflexivity;
    destruct (isReadOnce (info h)); reflexivity.
Qed.

Lemma json_push_handlers_config handlerPtr h (t : list ev) :
  json_push_handlers (config_calls handlerPtr h t) (config_path P h) = [handlerPtr].
Proof.
  unfold config_calls, config_push_calls, config_call. cbn zeta.
  destruct (is_LE_OK _); cbn; rewrite String.eqb_refl; reflexivity.
Qed.

Lemma run_handlers_live (timestamp : double P) (jsonText : string) (hs : list nat) :
  forall s,
    (forall contextPtr,
        In contextPtr hs ->
        is_NULL contextPtr = true \/ is_Some (SensorHandlerPool s !! contextPtr)) ->
    run_handlers timestamp jsonText hs s
    = Returns tt
        (with_trace (trace s ++ delivery_calls P (SensorHandlerPool s) jsonText hs) s).
Proof.
  induction hs as [| c hs IH]; intros s Hlive.
  - cbn. rewrite app_nil_r. destruct s; reflexivity.
  - cbn [run_handlers delivery_calls flat_map].
    fold (delivery_calls P (SensorHandlerPool s) jsonText hs).
    unfold bind at 1. unfold ConfigUpdateHandler.
    destruct (is_NULL c) eqn:Hc.
    + unfold ret. apply IH. intros x Hx. apply Hlive. right. exact Hx.
    + destruct (Hlive c) as [Hn | [h Hh]]; [left; reflexivity | congruence |].
      unfold bind at 1. rewrite (deref_live _ _ _ Hh), Hh.
      unfold bind, ask, ret. rewrite IH.
      * cbn [trace with_trace SensorHandlerPool]. unfold config_call.
        rewrite <- app_assoc. reflexivity.
      * intros x Hx. cbn [SensorHandlerPool with_trace]. apply Hlive. right. exact Hx.
Qed.

Lemma json_push_handlers_delivery (pool : gmap nat sensorHandler_t)
    (jsonText : string) (hs : list nat) (p : string) :
  json_push_handlers (delivery_calls P pool jsonText hs) p = [].
Proof.
  induction hs as [| c hs IH]; [reflexivity |].
  cbn [delivery_calls flat_map]. fold (delivery_calls P pool jsonText hs).
  rewrite json_push_handlers_app, IH, app_nil_r.
  destruct (is_NULL c); [reflexivity |]. destruct (pool !! c); reflexivity.
Qed.

Lemma delivery_calls_length (pool : gmap nat sensorHandler_t) (jsonText : string)
    (hs : list nat) :
  (forall c, In c hs -> is_NULL c = true \/ is_Some (pool !! c)) ->
  length (delivery_calls P pool jsonText hs)
  = length (filter (fun c => is_NULL c = false) hs).
Proof.
  induction hs as [| c hs IH]; intros Hlive; [reflexivity |].
  cbn [delivery_calls flat_map]. fold (delivery_calls P pool jsonText hs).
  rewrite length_app, IH by (intros x Hx; apply Hlive; right; exact Hx).
  destruct (is_NULL c) eqn:Hc.
  - rewrite filter_cons_False by congruence. reflexivity.
  - rewrite filter_cons_True by exact Hc.
    destruct (Hlive c) as [Hn | [h ->]]; [left; reflexivity | congruence |].
    reflexivity.
Qed.

Lemma delivery_calls_In (pool : gmap nat sensorHandler_t) (jsonText : string)
    (hs : list nat) contextPtr h :
  In contextPtr hs -> is_NULL contextPtr = false -> pool !! contextPtr = Some h ->
  In (config_call P h (Some jsonText) (String.length jsonText))
     (delivery_calls P pool jsonText hs).
Proof.
  intros Hin Hnn Hh. unfold delivery_calls. apply in_flat_map.
  exists contextPtr. split; [exact Hin |]. rewrite Hnn, Hh. left. reflexivity.
Qed.

(** C3, as the code has it: a registration that returned [LE_OK] for a
    descriptor that is not read-once, with a config callback: the output
    [<path>/config] was created and the entry subscribed there as the
    context of the push handler, behind the subscriptions the path had
    before.  From then on, in any state where the entry and the other
    subscribers of the path are live, a JSON document pushed to
    [<path>/config] from outside makes one call of the config callback per
    subscribed entry and nothing else: the call for this entry, with the
    pushed text as its buffer, the length of that text and the plugin
    context given at registration, is among them when the entry is
    subscribed, and it is the only call when the entry is the only
    subscriber -- which a second registration of the same path ends.  The
    entry is still live and the subscriptions are the same afterwards, so
    the same holds for the next push. *)
Theorem config_push_reaches_plugin jsonStringPtr type_ cbPtr contextPtr s s' :
  copy_bounded P ->
  sensorFw_RegisterCallback jsonStringPtr type_ cbPtr contextPtr s = Returns LE_OK s' ->
  exists h,
    SensorHandlerPool s' !! next_block s = Some h
    /\ (isReadOnce (info h) = false ->
        is_NULL (configCb cbPtr) = false ->
        let config := path (info h) +:+ "/config" in
        In (E_io_CreateOutput config IO_DATA_TYPE_JSON "") (trace s')
        /\ json_push_handlers (trace s') config
           = (json_push_handlers (trace s) config ++ [next_block s])%list
        /\ forall s2,
            SensorHandlerPool s2 !! next_block s = Some h ->
            (forall c,
                In c (json_push_handlers (trace s2) config) ->
                is_NULL c = true \/ is_Some (SensorHandlerPool s2 !! c)) ->
            forall (timestamp : double P) (jsonText : string),
              let call :=
                E_pfString (configCb cbPtr) (Some jsonText) (String.length jsonText)
                           contextPtr in
              let calls :=
                delivery_calls P (SensorHandlerPool s2) jsonText
                               (json_push_handlers (trace s2) config) in
              let s3 := with_trace (trace s2 ++ calls) s2 in
              hub_external_json_push config timestamp jsonText s2 = Returns tt s3
              /\ length calls
                 = length (filter (fun c => is_NULL c = false)
                                  (json_push_handlers (trace s2) config))
              /\ (In (next_block s) (json_push_handlers (trace s2) config) ->
                  In call calls)
              /\ (json_push_handlers (trace s2) config = [next_block s] ->
                  calls = [call])
              /\ SensorHandlerPool s3 !! next_block s = Some h
              /\ json_push_handlers (trace s3) config
                 = json_push_handlers (trace s2) config).
Proof.
  intros Hb Hrun.
  destruct (register_OK_inv _ _ _ _ _ _ Hrun) as (Hv & t & Hty & Hhub & ->).
  set (h := registered_entry jsonStringPtr t cbPtr contextPtr s).
  assert (Hlen := registered_entry_path_bounded jsonStringPtr t cbPtr contextPtr s Hb Hv).
  fold h in Hlen.
  exists h. split; [cbn [registered SensorHandlerPool]; apply lookup_insert_eq |].
  intros Hro Hcb config.
  assert (Hpath : config_path P h = config).
  { unfold config_path. apply snprintf_path_whole; [assumption | cbn; lia]. }
  assert (Hcfg : wants_config cbPtr h = true)
    by (unfold wants_config; rewrite Hro, Hcb; reflexivity).
  assert (Htrace :
            trace (registered jsonStringPtr t cbPtr contextPtr s)
            = (trace s ++ creation_calls P (next_block s) h
               ++ sample_calls h (trace s ++ creation_calls P (next_block s) h)
               ++ config_calls (next_block s) h
                    (sampled_trace jsonStringPtr t cbPtr contextPtr s))%list).
  { cbn [registered trace]. unfold registered_trace. cbn zeta. fold h. rewrite Hcfg.
    unfold sampled_trace at 1. cbn zeta. rewrite <- !app_assoc. reflexivity. }
  split.
  { rewrite Htrace. apply in_or_app. right. apply in_or_app. right.
    apply in_or_app. right. unfold config_calls. cbn zeta. rewrite Hpath.
    left. reflexivity. }
  split.
  { rewrite <- Hpath.
    rewrite Htrace, !json_push_handlers_app, json_push_handlers_creation,
      json_push_handlers_sample, json_push_handlers_config. reflexivity. }
  intros s2 Hs2 Hlive timestamp jsonText call calls s3.
  assert (Hcall : config_call P h (Some jsonText) (String.length jsonText) = call)
    by reflexivity.
  split.
  { unfold hub_external_json_push. apply run_handlers_live, Hlive. }
  split; [apply delivery_calls_length, Hlive |].
  split.
  { intros Hin. rewrite <- Hcall.
    apply (delivery_calls_In _ _ _ (next_block s)); auto using next_block_not_NULL. }
  split.
  { intros Hsub. unfold calls. rewrite Hsub. cbn [delivery_calls flat_map].
    rewrite next_block_not_NULL, Hs2, Hcall. reflexivity. }
  split; [exact Hs2 |].
  unfold s3, calls. cbn [trace with_trace].
  rewrite json_push_handlers_app, json_push_handlers_delivery, app_nil_r. reflexivity.
Qed.

(** * Further properties of the registry *)

(** The three ways a registration returns. *)
Lemma register_cases jsonStringPtr type_ cbPtr contextPtr s r s' :
  sensorFw_RegisterCallback jsonStringPtr type_ cbPtr contextPtr s = Returns r s' ->
  (valid_descriptor P jsonStringPtr = false /\ r = LE_FAULT
   /\ SensorHandlerPool s' = SensorHandlerPool s
   /\ RegisteredSensorCount s' = RegisteredSensorCount s /\ trace s' = trace s)
  \/ (valid_descriptor P jsonStringPtr = true /\ switch_type type_ = None /\ r = LE_FAULT
      /\ (exists h, SensorHandlerPool s' = <[next_block s := h]> (SensorHandlerPool s)
                    /\ sensorId (info h) = RegisteredSensorCount s)
      /\ RegisteredSensorCount s' = RegisteredSensorCount s /\ trace s' = trace s)
  \/ (valid_descriptor P jsonStringPtr = true /\ r = LE_OK
      /\ exists t, switch_type type_ = Some t
                   /\ hub_lets_through jsonStringPtr t cbPtr contextPtr s = true
                   /\ s' = registered jsonStringPtr t cbPtr contextPtr s).
Proof.
  intros Hrun.
  destruct (valid_descriptor P jsonStringPtr) eqn:Hv.
  2:{ rewrite (register_rejects _ _ _ _ _ Hv) in Hrun. injection Hrun as <- <-.
      left. auto 6. }
  destruct (switch_type type_) as [t |] eqn:Hty.
  - right. right.
    destruct (hub_lets_through jsonStringPtr t cbPtr contextPtr s) eqn:Hhub.
    + rewrite (register_success _ _ t _ _ _ Hv Hty Hhub) in Hrun.
      injection Hrun as <- <-. eauto 8.
    + destruct (register_fatal _ _ t _ _ _ Hv Hty Hhub) as [s0 Hs0].
      rewrite Hs0 in Hrun. discriminate.
  - right. left.
    assert (Hrun' := Hrun).
    unfold sensorFw_RegisterCallback, le_mem_ForceAlloc in Hrun'.
    unfold bind at 1 in Hrun'. fold (next_block s) in Hrun'.
    revert Hrun'. run_deref. run_store.
    rewrite ParseSensorInfo_valid, Hv. cbn [is_LE_OK negb].
    unfold bind at 1. cbn [RegisteredSensorCount].
    run_store. unfold bind at 1, deref_callbacks, address_of.
    run_store. run_store.
    rewrite Hty. rewrite !insert_insert_eq. unfold ret.
    intros [= <- <-]. cbn [SensorHandlerPool RegisteredSensorCount trace].
    repeat split; try reflexivity.
    eexists. split; [reflexivity |]. reflexivity.
Qed.




Lemma registered_trace_extends jsonStringPtr t cbPtr contextPtr s :
  exists new, registered_trace jsonStringPtr t cbPtr contextPtr s = (trace s ++ new)%list.
Proof.
  unfold registered_trace, sampled_trace. cbn zeta.
  destruct (wants_config _ _); rewrite <- ?app_assoc; eexists; reflexivity.
Qed.

Lemma register_writes_own_block jsonStringPtr type_ cbPtr contextPtr s r s' :
  sensorFw_RegisterCallback jsonStringPtr type_ cbPtr contextPtr s = Returns r s' ->
  (forall p, p <> next_block s -> SensorHandlerPool s' !! p = SensorHandlerPool s !! p)
  /\ exists new, trace s' = (trace s ++ new)%list.
Proof.
  intros Hrun.
  destruct (register_cases _ _ _ _ _ _ _ Hrun)
    as [(_ & _ & Hp & _ & Ht) | [(_ & _ & _ & (h & Hp & _) & _ & Ht) | (_ & _ & t & _ & _ & ->)]].
  - rewrite Hp, Ht. split; [auto |]. exists []. now rewrite app_nil_r.
  - rewrite Hp, Ht. split.
    + intros p Hne. now rewrite lookup_insert_ne.
    + exists []. now rewrite app_nil_r.
  - cbn [registered SensorHandlerPool trace]. split.
    + intros p Hne. now rewrite lookup_insert_ne.
    + apply registered_trace_extends.
Qed.

Lemma register_keeps_entries jsonStringPtr type_ cbPtr contextPtr s r s' :
  sensorFw_RegisterCallback jsonStringPtr type_ cbPtr contextPtr s = Returns r s' ->
  forall p h, SensorHandlerPool s !! p = Some h -> SensorHandlerPool s' !! p = Some h.
Proof.
  intros Hrun p h Hp.
  destruct (register_writes_own_block _ _ _ _ _ _ _ Hrun) as [Hother _].
  rewrite Hother; [exact Hp |].
  intros ->. rewrite next_block_fresh in Hp. discriminate.
Qed.

(** X2: a registration, whatever it returns, leaves every other pool
    entry as it was -- it writes only into the block it allocated -- and
    the calls recorded so far stay as the beginning of the trace. *)
Theorem register_frame jsonStringPtr type_ cbPtr contextPtr s r s' :
  sensorFw_RegisterCallback jsonStringPtr type_ cbPtr contextPtr s = Returns r s' ->
  (forall p, p <> next_block s -> SensorHandlerPool s' !! p = SensorHandlerPool s !! p)
  /\ (forall p h, SensorHandlerPool s !! p = Some h -> SensorHandlerPool s' !! p = Some h)
  /\ exists new, trace s' = (trace s ++ new)%list.
Proof.
  intros Hrun.
  destruct (register_writes_own_block _ _ _ _ _ _ _ Hrun) as [Hother Htrace].
  split; [exact Hother |]. split; [| exact Htrace].
  exact (register_keeps_entries _ _ _ _ _ _ _ Hrun).
Qed.

Lemma register_step_accounts jsonStringPtr type_ cbPtr contextPtr s r s' :
  sensorFw_RegisterCallback jsonStringPtr type_ cbPtr contextPtr s = Returns r s' ->
  r = verdict P jsonStringPtr type_
  /\ size (SensorHandlerPool s')
     = (size (SensorHandlerPool s)
        + if valid_descriptor P jsonStringPtr then 1 else 0)%nat
  /\ RegisteredSensorCount s'
     = if is_LE_OK r then int_incr (RegisteredSensorCount s) else RegisteredSensorCount s.
Proof.
  intros Hrun. unfold verdict.
  destruct (register_cases _ _ _ _ _ _ _ Hrun)
    as [(Hv & -> & Hp & Hc & _)
       | [(Hv & Hty & -> & (h & Hp & _) & Hc & _) | (Hv & -> & t & Hty & _ & ->)]];
    rewrite Hv, ?Hty; cbn [is_LE_OK].
  - rewrite Hp, Hc. repeat split. lia.
  - rewrite Hp, Hc. repeat split.
    rewrite map_size_insert_None by apply next_block_fresh. lia.
  - repeat split. rewrite registered_size. lia.
Qed.

Lemma register_all_books (reqs : list request) s rs s' :
  register_all reqs s = Returns rs s' ->
  0 <= RegisteredSensorCount s ->
  RegisteredSensorCount s + Z.of_nat (length reqs) <= INT_MAX ->
  rs = map (fun q => verdict P (req_json q) (req_type q)) reqs
  /\ RegisteredSensorCount s' = RegisteredSensorCount s + Z.of_nat (ok_count rs)
  /\ size (SensorHandlerPool s')
     = (size (SensorHandlerPool s) + length (parsing P reqs))%nat.
Proof.
  revert s rs s'. induction reqs as [| q reqs IH]; intros s rs s' Hrun H0 Hmax.
  - cbn in Hrun. injection Hrun as <- <-. cbn. repeat split; lia.
  - cbn [register_all] in Hrun. unfold bind at 1 in Hrun.
    destruct (sensorFw_RegisterCallback _ _ _ _ s) as [r s1 | |] eqn:Hstep;
      try discriminate.
    unfold bind at 1 in Hrun.
    destruct (register_all reqs s1) as [rs1 s2 | |] eqn:Hrest; try discriminate.
    injection Hrun as <- <-.
    destruct (register_step_accounts _ _ _ _ _ _ _ Hstep) as (Hr & Hsize & Hcount).
    cbn [length] in Hmax.
    assert (Hc1 : RegisteredSensorCount s1
                  = RegisteredSensorCount s + (if is_LE_OK r then 1 else 0)).
    { rewrite Hcount. destruct (is_LE_OK r); [| lia].
      apply int_incr_in_range. lia. }
    destruct (IH s1 rs1 s2 Hrest) as (Hrs & Hc & Hs).
    { rewrite Hc1. destruct (is_LE_OK r); lia. }
    { rewrite Hc1. destruct (is_LE_OK r); lia. }
    split; [cbn [map]; congruence |].
    split.
    + rewrite Hc, Hc1. unfold ok_count.
      destruct (is_LE_OK r) eqn:Hok.
      * rewrite filter_cons_True by exact Hok. cbn [length]. lia.
      * rewrite filter_cons_False by congruence. lia.
    + rewrite Hs, Hsize. unfold parsing.
      destruct (valid_descriptor P (req_json q)) eqn:Hv.
      * rewrite filter_cons_True by exact Hv. cbn [length]. lia.
      * rewrite filter_cons_False by congruence. lia.
Qed.

(** X3: the books after a run of registrations.  Each result is the
    verdict on its request; the counter has gone up by the number of
    [LE_OK] results; and the pool holds one more block for every request
    whose descriptor parsed -- so the requests turned down for their
    payload kind are exactly the blocks in use beyond the counter. *)
Theorem register_all_accounts (reqs : list request) s rs s' :
  register_all reqs s = Returns rs s' ->
  0 <= RegisteredSensorCount s ->
  RegisteredSensorCount s + Z.of_nat (length reqs) <= INT_MAX ->
  rs = map (fun q => verdict P (req_json q) (req_type q)) reqs
  /\ RegisteredSensorCount s' = RegisteredSensorCount s + Z.of_nat (ok_count rs)
  /\ size (SensorHandlerPool s')
     = (size (SensorHandlerPool s) + length (parsing P reqs))%nat.
Proof. exact (register_all_books reqs s rs s'). Qed.

(** X4: sensor ids.  A registration that returns [LE_OK] gives its entry
    the value of the counter as id; if until then every entry had an id
    below the counter and no two entries shared one, that is still so
    afterwards.  A registration whose descriptor does not parse changes
    nothing of it. *)
Theorem register_keeps_ids jsonStringPtr type_ cbPtr contextPtr s r s' :
  sensorFw_RegisterCallback jsonStringPtr type_ cbPtr contextPtr s = Returns r s' ->
  r = LE_OK \/ valid_descriptor P jsonStringPtr = false ->
  0 <= RegisteredSensorCount s < INT_MAX ->
  ids_issued s -> ids_distinct s ->
  ids_issued s' /\ ids_distinct s'
  /\ (r = LE_OK ->
      exists h, SensorHandlerPool s' !! next_block s = Some h
                /\ sensorId (info h) = RegisteredSensorCount s
                /\ RegisteredSensorCount s' = RegisteredSensorCount s + 1).
Proof.
  intros Hrun Hcase Hrange Hissued Hdistinct.
  destruct (register_cases _ _ _ _ _ _ _ Hrun)
    as [(Hv & -> & Hp & Hc & _)
       | [(Hv & Hty & -> & _) | (Hv & -> & t & Hty & _ & ->)]].
  - split; [| split; [| discriminate]].
    + intros p h. rewrite Hp, Hc. apply Hissued.
    + intros p q h h'. rewrite Hp. apply Hdistinct.
  - destruct Hcase as [Hcase | Hcase]; congruence.
  - set (h0 := registered_entry jsonStringPtr t cbPtr contextPtr s).
    assert (Hid : sensorId (info h0) = RegisteredSensorCount s).
    { unfold h0, registered_entry, new_entry. cbn.
      reflexivity. }
    assert (Hinc : int_incr (RegisteredSensorCount s) = RegisteredSensorCount s + 1)
      by (apply int_incr_in_range, Hrange).
    unfold ids_issued, ids_distinct in *.
    cbn [registered SensorHandlerPool RegisteredSensorCount]. fold h0.
    split; [| split].
    + intros p h Hp. rewrite Hinc.
      destruct (decide (p = next_block s)) as [-> | Hne].
      * rewrite lookup_insert_eq in Hp. injection Hp as <-. rewrite Hid. lia.
      * rewrite lookup_insert_ne in Hp by congruence.
        specialize (Hissued p h Hp). lia.
    + intros p q h h' Hp Hq Heq.
      destruct (decide (p = next_block s)) as [-> | Hp'];
        destruct (decide (q = next_block s)) as [-> | Hq']; try reflexivity.
      * rewrite lookup_insert_eq in Hp. injection Hp as <-.
        rewrite lookup_insert_ne in Hq by congruence.
        specialize (Hissued q h' Hq). lia.
      * rewrite lookup_insert_eq in Hq. injection Hq as <-.
        rewrite lookup_insert_ne in Hp by congruence.
        specialize (Hissued p h Hp). lia.
      * rewrite lookup_insert_ne in Hp, Hq by congruence.
        exact (Hdistinct p q h h' Hp Hq Heq).
    + intros _. exists h0. rewrite lookup_insert_eq. auto.
Qed.

(** ** Dispatch and the registry *)

Lemma sample_calls_dispatch h (t : list ev) :
  forallb is_dispatch (sample_calls h t) = true.
Proof.
  unfold sample_calls, sample_call, sample_answer, push_of.
  destruct (type (info h)); try reflexivity;
    cbn [fst snd]; destruct (is_LE_OK _); try reflexivity;
    destruct (isReadOnce (info h)); reflexivity.
Qed.

(** X5: dispatch on a live entry that has the callback.  The code
    calls the sample callback and the config callback without testing them
    for null; for an entry whose callback is not null, [PushData],
    [PushConfig] and [ConfigUpdateHandler] always return -- no assertion
    stands on these paths --, [PushData] and [PushConfig] with [LE_OK] or
    [LE_FAULT] and nothing else; the pool, its accounting and the counter
    are as before, and what is added to the trace are calls into the
    plugin and pushes only: nothing is created or subscribed. *)
Theorem dispatch_only_calls s handlerPtr h :
  SensorHandlerPool s !! handlerPtr = Some h ->
  (is_NULL (sample (callbacks h)) = false ->
   exists r new,
     PushData handlerPtr s = Returns r (with_trace (trace s ++ new) s)
     /\ (r = LE_OK \/ r = LE_FAULT)
     /\ forallb is_dispatch new = true)
  /\ (is_NULL (configCb (callbacks h)) = false ->
      exists r new,
        PushConfig handlerPtr s = Returns r (with_trace (trace s ++ new) s)
        /\ (r = LE_OK \/ r = LE_FAULT)
        /\ forallb is_dispatch new = true)
  /\ (is_NULL (configCb (callbacks h)) = false ->
      forall (timestamp : double P) (jsonText : string),
        is_NULL handlerPtr = false ->
        exists new,
          ConfigUpdateHandler timestamp jsonText handlerPtr s
          = Returns tt (with_trace (trace s ++ new) s)
          /\ forallb is_callback new = true).
Proof.
  intros H. split; [| split].
  - intros _. rewrite (PushData_run _ _ _ H).
    pose proof (sample_calls_dispatch h (trace s)) as Hd. unfold sample_calls in Hd.
    destruct (sample_call P h) as [e |];
      destruct (sample_answer h (trace s)) as [[r v] |];
      try destruct (is_LE_OK r);
      try (do 2 eexists; split; [reflexivity |]; split; [auto | exact Hd]);
      exists LE_OK, []; rewrite app_nil_r; destruct s; auto.
  - intros _. rewrite (PushConfig_run _ _ _ H). unfold config_push_calls, config_call.
    destruct (is_LE_OK _); do 2 eexists; (split; [reflexivity |]); split; auto.
  - intros _ timestamp jsonText Hnn. unfold ConfigUpdateHandler. rewrite Hnn.
    unfold bind at 1. rewrite (deref_live _ _ _ H). unfold bind, ask, ret.
    eexists. split; [reflexivity | reflexivity].
Qed.

Lemma pushes_delivery_calls (pool : gmap nat sensorHandler_t) (jsonText : string)
    (hs : list nat) :
  pushes (delivery_calls P pool jsonText hs) = [].
Proof.
  induction hs as [| c hs IH]; [reflexivity |].
  cbn [delivery_calls flat_map]. fold (delivery_calls P pool jsonText hs).
  rewrite pushes_app, IH, app_nil_r.
  destruct (is_NULL c); [reflexivity |]. destruct (pool !! c); reflexivity.
Qed.

(** X6: a JSON document pushed from outside to a path where several
    entries are subscribed (the same path registered more than once): each
    live subscriber's config callback is called once, in subscription
    order, with the pushed text and its length; a subscription with a null
    context is passed over.  Whatever the callbacks answer, the delivery
    returns and pushes nothing back to the hub. *)
Theorem external_push_reaches_every_subscriber (p : string) (timestamp : double P)
    (jsonText : string) s :
  (forall contextPtr,
      In contextPtr (json_push_handlers (trace s) p) ->
      is_NULL contextPtr = true \/ is_Some (SensorHandlerPool s !! contextPtr)) ->
  exists s',
    hub_external_json_push p timestamp jsonText s = Returns tt s'
    /\ trace s'
       = (trace s ++ delivery_calls P (SensorHandlerPool s) jsonText
                       (json_push_handlers (trace s) p))%list
    /\ pushes (trace s') = pushes (trace s)
    /\ SensorHandlerPool s' = SensorHandlerPool s
    /\ RegisteredSensorCount s' = RegisteredSensorCount s.
Proof.
  intros Hlive. unfold hub_external_json_push.
  rewrite (run_handlers_live _ _ _ _ Hlive).
  eexists. split; [reflexivity |].
  cbn [trace with_trace SensorHandlerPool RegisteredSensorCount].
  split; [reflexivity |]. split; [| auto].
  rewrite pushes_app, pushes_delivery_calls, app_nil_r. reflexivity.
Qed.

(** ** Contexts held outside the component *)

Lemma subscribed_app (t1 t2 : list ev) :
  subscribed (t1 ++ t2) = (subscribed t1 ++ subscribed t2)%list.
Proof.
  induction t1 as [| e t1 IH]; [reflexivity |].
  destruct e; cbn; rewrite ?IH; reflexivity.
Qed.

Lemma json_push_handlers_subscribed (t : list ev) (p : string) contextPtr :
  In contextPtr (json_push_handlers t p) -> In contextPtr (subscribed t).
Proof.
  induction t as [| e t IH]; [auto |].
  destruct e; cbn; auto.
  destruct (String.eqb _ _); cbn; tauto.
Qed.

Lemma contexts_creation_calls handlerPtr h :
  subscribed (creation_calls P handlerPtr h) = []
  /\ incl (periodic_targets (creation_calls P handlerPtr h)) [handlerPtr].
Proof.
  unfold creation_calls. destruct (isReadOnce (info h)); cbn; split;
    auto using incl_nil_l, incl_refl.
Qed.

Lemma contexts_sample_calls h (t : list ev) :
  subscribed (sample_calls h t) = [] /\ periodic_targets (sample_calls h t) = [].
Proof.
  unfold sample_calls, sample_call, sample_answer, push_of.
  destruct (type (info h)); try (split; reflexivity);
    cbn [fst snd]; destruct (is_LE_OK _); try (split; reflexivity);
    destruct (isReadOnce (info h)); split; reflexivity.
Qed.

Lemma contexts_config_calls handlerPtr h (t : list ev) :
  subscribed (config_calls handlerPtr h t) = [handlerPtr]
  /\ periodic_targets (config_calls handlerPtr h t) = [].
Proof.
  unfold config_calls, config_push_calls, config_call. cbn zeta.
  destruct (is_LE_OK _); split; reflexivity.
Qed.

Lemma contexts_delivery_calls (pool : gmap nat sensorHandler_t) (jsonText : string)
    (hs : list nat) :
  subscribed (delivery_calls P pool jsonText hs) = []
  /\ periodic_targets (delivery_calls P pool jsonText hs) = [].
Proof.
  induction hs as [| c hs [IH1 IH2]]; [split; reflexivity |].
  cbn [delivery_calls flat_map]. fold (delivery_calls P pool jsonText hs).
  rewrite subscribed_app, periodic_targets_app, IH1, IH2, !app_nil_r.
  destruct (is_NULL c); [split; reflexivity |].
  destruct (pool !! c); split; reflexivity.
Qed.

Lemma contexts_registered jsonStringPtr t cbPtr contextPtr s c :
  In c (subscribed (registered_trace jsonStringPtr t cbPtr contextPtr s))
  \/ In c (periodic_targets (registered_trace jsonStringPtr t cbPtr contextPtr s)) ->
  (In c (subscribed (trace s)) \/ In c (periodic_targets (trace s)))
  \/ c = next_block s.
Proof.
  unfold registered_trace, sampled_trace. cbn zeta.
  set (h := new_entry jsonStringPtr t cbPtr contextPtr s).
  set (h' := registered_entry jsonStringPtr t cbPtr contextPtr s).
  destruct (contexts_creation_calls (next_block s) h) as [Hc1 Hc2].
  assert (Hin : forall x, In x (periodic_targets (creation_calls P (next_block s) h)) ->
                          x = next_block s).
  { intros x Hx. apply Hc2 in Hx. destruct Hx as [<- | []]. reflexivity. }
  destruct (wants_config cbPtr h').
  - rewrite !subscribed_app, !periodic_targets_app.
    destruct (contexts_sample_calls h' (trace s ++ creation_calls P (next_block s) h))
      as [-> ->].
    match goal with |- context [config_calls ?p ?e ?tr] =>
      destruct (contexts_config_calls p e tr) as [-> ->] end.
    rewrite Hc1, !app_nil_r. cbn [app].
    rewrite !in_app_iff. cbn [In]. intros [[H | [H | []]] | [H | H]]; auto.
  - rewrite !subscribed_app, !periodic_targets_app.
    destruct (contexts_sample_calls h' (trace s ++ creation_calls P (next_block s) h))
      as [-> ->].
    rewrite Hc1, !app_nil_r.
    rewrite !in_app_iff. intros [H | [H | H]]; auto.
Qed.

(** X7: no dangling context.  At start-up, and after every registration
    that returns -- with whatever result --, each context the component
    has handed to the hub as push-handler context or to a periodic sensor
    as sampling context is the non-null address of a live pool entry. *)
Theorem register_keeps_linked :
  linked (COMPONENT_INIT P)
  /\ forall jsonStringPtr type_ cbPtr contextPtr s r s',
      linked s ->
      sensorFw_RegisterCallback jsonStringPtr type_ cbPtr contextPtr s = Returns r s' ->
      linked s'.
Proof.
  split.
  { split; intros c []. }
  intros jsonStringPtr type_ cbPtr contextPtr s r s' [Hsub Hper] Hrun.
  pose proof (register_keeps_entries _ _ _ _ _ _ _ Hrun) as Hkeep.
  assert (Hold : forall c,
             In c (subscribed (trace s)) \/ In c (periodic_targets (trace s)) ->
             is_NULL c = false /\ is_Some (SensorHandlerPool s' !! c)).
  { intros c [Hc | Hc]; [destruct (Hsub c Hc) as [Hn [h Hh]]
                        | destruct (Hper c Hc) as [Hn [h Hh]]];
      (split; [exact Hn | exists h; apply Hkeep, Hh]). }
  destruct (register_cases _ _ _ _ _ _ _ Hrun)
    as [(_ & _ & _ & _ & Ht) | [(_ & _ & _ & _ & _ & Ht) | (_ & _ & t & _ & _ & Hs')]].
  - split; intros c Hc; rewrite Ht in Hc; auto.
  - split; intros c Hc; rewrite Ht in Hc; auto.
  - assert (Hnew : forall c,
               In c (subscribed (trace s')) \/ In c (periodic_targets (trace s')) ->
               is_NULL c = false /\ is_Some (SensorHandlerPool s' !! c)).
    { intros c Hc. rewrite Hs' in Hc. cbn [registered trace] in Hc.
      destruct (contexts_registered _ _ _ _ _ _ Hc) as [Hc' | ->]; [auto |].
      split; [apply next_block_not_NULL |].
      rewrite Hs'. cbn [registered SensorHandlerPool]. rewrite lookup_insert_eq. eauto. }
    split; intros c Hc; apply Hnew; auto.
Qed.

(** X8: what the invariant buys.  In a state where no context dangles,
    every push of a JSON document from outside, to any path, and every
    tick of a periodic sensor the component has created return to the
    caller -- no read through a freed or null entry, no termination -- and
    leave a state where still no context dangles. *)
Theorem linked_stimuli_return s :
  linked s ->
  (forall (p : string) (timestamp : double P) (jsonText : string),
      exists s',
        hub_external_json_push p timestamp jsonText s = Returns tt s' /\ linked s')
  /\ (forall (ref contextPtr : nat),
         In contextPtr (periodic_targets (trace s)) ->
         exists s', SampleSensor ref contextPtr s = Returns tt s' /\ linked s').
Proof.
  intros [Hsub Hper]. split.
  - intros p timestamp jsonText.
    assert (Hlive : forall c,
               In c (json_push_handlers (trace s) p) ->
               is_NULL c = true \/ is_Some (SensorHandlerPool s !! c)).
    { intros c Hc. right. apply Hsub, (json_push_handlers_subscribed _ p), Hc. }
    unfold hub_external_json_push. rewrite (run_handlers_live _ _ _ _ Hlive).
    eexists. split; [reflexivity |].
    destruct (contexts_delivery_calls (SensorHandlerPool s) jsonText
                (json_push_handlers (trace s) p)) as [H1 H2].
    split; intros c; cbn [trace with_trace SensorHandlerPool];
      rewrite ?subscribed_app, ?periodic_targets_app, ?H1, ?H2, app_nil_r; auto.
  - intros ref c Hc. destruct (Hper c Hc) as [Hn [h Hh]].
    unfold SampleSensor. rewrite Hn.
    destruct (PushData_calls _ _ _ Hh) as [r Hr].
    erewrite bind_Returns by exact Hr. unfold ret.
    eexists. split; [reflexivity |].
    destruct (contexts_sample_calls h (trace s)) as [H1 H2].
    split; intros x; cbn [trace with_trace SensorHandlerPool];
      rewrite ?subscribed_app, ?periodic_targets_app, ?H1, ?H2, app_nil_r; auto.
Qed.

(** ** The entry a registration leaves *)

Lemma registered_entry_read_once jsonStringPtr t cbPtr contextPtr s :
  valid_descriptor P jsonStringPtr = true ->
  isReadOnce (info (registered_entry jsonStringPtr t cbPtr contextPtr s))
  = descriptor_read_once P jsonStringPtr.
Proof.
  intros Hv.
  change (isReadOnce (info (registered_entry jsonStringPtr t cbPtr contextPtr s)))
    with (isReadOnce (snd (ParseSensorInfo P jsonStringPtr
                             (info (le_mem_block P (next_block s)))))).
  destruct (ParseSensorInfo_fields jsonStringPtr (info (le_mem_block P (next_block s))))
    as (_ & _ & _ & Hro & _).
  { rewrite ParseSensorInfo_valid, Hv. reflexivity. }
  exact Hro.
Qed.

(** X9: the entry of a successful registration.  Every field the
    component reads later has been written: the id is the counter before
    the call, the kind the one the payload kind maps to, name, path and
    unit what [le_utf8_Copy] left, [isReadOnce] the converted readOnce
    field ([false] without one), the config and sample callbacks and the
    plugin context those of the caller; the periodic sensor reference is
    null exactly for a read-once entry.  The one field left as the
    allocator handed it out is [infoCb]. *)
Theorem registered_entry_is_initialised jsonStringPtr type_ cbPtr contextPtr s s' :
  sensorFw_RegisterCallback jsonStringPtr type_ cbPtr contextPtr s = Returns LE_OK s' ->
  exists h,
    SensorHandlerPool s' !! next_block s = Some h
    /\ sensorId (info h) = RegisteredSensorCount s
    /\ switch_type type_ = Some (type (info h))
    /\ name (info h)
       = snd (le_utf8_Copy P (field_value P jsonStringPtr "name") MAX_RESOURCE_NAME_LEN)
    /\ path (info h)
       = snd (le_utf8_Copy P (field_value P jsonStringPtr "path")
                (IO_MAX_RESOURCE_PATH_LEN P))
    /\ unit (info h)
       = snd (le_utf8_Copy P (field_value P jsonStringPtr "unit")
                (IO_MAX_UNITS_NAME_LEN P))
    /\ isReadOnce (info h) = descriptor_read_once P jsonStringPtr
    /\ is_NULL (sensorRef (info h)) = isReadOnce (info h)
    /\ configCb (callbacks h) = configCb cbPtr
    /\ sample (callbacks h) = sample cbPtr
    /\ pluginContextPtr h = contextPtr
    /\ infoCb (callbacks h) = infoCb (callbacks (le_mem_block P (next_block s))).
Proof.
  intros Hrun.
  destruct (register_OK_inv _ _ _ _ _ _ Hrun) as (Hv & t & Hty & Hhub & ->).
  exists (registered_entry jsonStringPtr t cbPtr contextPtr s).
  split; [cbn [registered SensorHandlerPool]; apply lookup_insert_eq |].
  destruct (ParseSensorInfo_fields jsonStringPtr (info (le_mem_block P (next_block s))))
    as (Hn & Hp & Hu & _).
  { rewrite ParseSensorInfo_valid, Hv. reflexivity. }
  cbn zeta in Hn, Hp, Hu.
  split; [reflexivity |]. split; [exact Hty |].
  split; [exact Hn |]. split; [exact Hp |]. split; [exact Hu |].
  split; [apply registered_entry_read_once, Hv |].
  split; [| repeat split].
  unfold hub_lets_through in Hhub. cbn zeta in Hhub.
  apply andb_true_iff in Hhub. destruct Hhub as [Hc _].
  set (h := new_entry jsonStringPtr t cbPtr contextPtr s) in *.
  change (is_NULL (created_ref (next_block s) h (trace s)) = isReadOnce (info h)).
  unfold creation_ok in Hc. unfold created_ref.
  destruct (isReadOnce (info h)); [reflexivity |].
  apply negb_true_iff in Hc. exact Hc.
Qed.

Lemma creation_calls_no_config handlerPtr h :
  forallb (fun e => negb (is_config_setup e)) (creation_calls P handlerPtr h) = true
  /\ plugin_calls (creation_calls P handlerPtr h) = [].
Proof.
  unfold creation_calls. destruct (isReadOnce (info h)); split; reflexivity.
Qed.

Lemma sample_calls_no_config h (t : list ev) :
  forallb (fun e => negb (is_config_setup e)) (sample_calls h t) = true
  /\ (length (plugin_calls (sample_calls h t)) <= 1)%nat.
Proof.
  unfold sample_calls, sample_call, sample_answer, push_of.
  destruct (type (info h)); try (split; [reflexivity | cbn; lia]);
    cbn [fst snd]; destruct (is_LE_OK _); try (split; [reflexivity | cbn; lia]);
    destruct (isReadOnce (info h)); split; try reflexivity; cbn; lia.
Qed.

Lemma plugin_calls_app (t1 t2 : list ev) :
  plugin_calls (t1 ++ t2) = (plugin_calls t1 ++ plugin_calls t2)%list.
Proof. apply filter_app. Qed.

Lemma register_without_config jsonStringPtr type_ cbPtr contextPtr s r s' :
  sensorFw_RegisterCallback jsonStringPtr type_ cbPtr contextPtr s = Returns r s' ->
  is_NULL (configCb cbPtr) = true \/ descriptor_read_once P jsonStringPtr = true ->
  exists new,
    trace s' = (trace s ++ new)%list
    /\ forallb (fun e => negb (is_config_setup e)) new = true
    /\ (length (plugin_calls new) <= 1)%nat
    /\ forall p : string, json_push_handlers (trace s') p = json_push_handlers (trace s) p.
Proof.
  intros Hrun Hcase.
  destruct (register_cases _ _ _ _ _ _ _ Hrun)
    as [(_ & _ & _ & _ & Ht) | [(_ & _ & _ & _ & _ & Ht) | (Hv & _ & t & _ & _ & ->)]].
  - exists []. rewrite Ht, app_nil_r. repeat split. cbn. lia.
  - exists []. rewrite Ht, app_nil_r. repeat split. cbn. lia.
  - cbn [registered trace]. unfold registered_trace, sampled_trace. cbn zeta.
    set (h := new_entry jsonStringPtr t cbPtr contextPtr s).
    set (h' := registered_entry jsonStringPtr t cbPtr contextPtr s).
    assert (Hw : wants_config cbPtr h' = false).
    { unfold wants_config, h'. rewrite (registered_entry_read_once _ _ _ _ _ Hv).
      destruct Hcase as [-> | ->]; [apply andb_false_r | reflexivity]. }
    rewrite Hw.
    destruct (creation_calls_no_config (next_block s) h) as [Hc1 Hc2].
    destruct (sample_calls_no_config h' (trace s ++ creation_calls P (next_block s) h))
      as [Hs1 Hs2].
    exists (creation_calls P (next_block s) h
            ++ sample_calls h' (trace s ++ creation_calls P (next_block s) h))%list.
    split; [now rewrite app_assoc |].
    split; [rewrite forallb_app, Hc1, Hs1; reflexivity |].
    split; [rewrite plugin_calls_app, Hc2; exact Hs2 |].
    intros p. rewrite !json_push_handlers_app, json_push_handlers_creation,
      json_push_handlers_sample, !app_nil_r. reflexivity.
Qed.

(** X10: no config without a config callback, and none for a read-once
    sensor.  A registration with a null config callback, or with a
    descriptor whose readOnce field converts to true -- whatever config
    callback comes with it --, creates no output, subscribes no push
    handler at any path, and calls the plugin at most once (the first
    sample): for a read-once sensor the config callback is stored and
    never called. *)
Theorem no_config_setup jsonStringPtr type_ cbPtr contextPtr s r s' :
  sensorFw_RegisterCallback jsonStringPtr type_ cbPtr contextPtr s = Returns r s' ->
  is_NULL (configCb cbPtr) = true \/ descriptor_read_once P jsonStringPtr = true ->
  exists new,
    trace s' = (trace s ++ new)%list
    /\ forallb (fun e => negb (is_config_setup e)) new = true
    /\ (length (plugin_calls new) <= 1)%nat
    /\ forall p : string, json_push_handlers (trace s') p = json_push_handlers (trace s) p.
Proof. exact (register_without_config jsonStringPtr type_ cbPtr contextPtr s r s'). Qed.

(** ** Runs of registrations *)

Lemma bind_at {A B} (m m' : M A) (k : A -> M B) s :
  m s = m' s -> bind m k s = bind m' k s.
Proof. intros H. unfold bind. rewrite H. reflexivity. Qed.

Lemma bind_Returns_congr {A B} (m : M A) (k k' : A -> M B) s :
  (forall a s1, m s = Returns a s1 -> k a s1 = k' a s1) ->
  bind m k s = bind m k' s.
Proof. intros H. unfold bind. destruct (m s); auto. Qed.

Lemma bind_ret_then {A B C} (m : M A) (f : A -> B) (k : M C) s :
  bind (bind m (fun a => ret (f a))) (fun _ => k) s = bind m (fun _ => k) s.
Proof. unfold bind, ret. destruct (m s); reflexivity. Qed.

Lemma register_all_cons_then {C} (q : request) (reqs : list request) (k : M C) s :
  bind (register_all (q :: reqs)) (fun _ => k) s
  = bind (sensorFw_RegisterCallback (req_json q) (req_type q) (req_callbacks q)
                                    (req_context q))
         (fun _ => bind (register_all reqs) (fun _ => k)) s.
Proof.
  cbn [register_all]. unfold bind, ret.
  destruct (sensorFw_RegisterCallback _ _ _ _ s) as [r s1 | |]; try reflexivity.
  destruct (register_all reqs s1); reflexivity.
Qed.

Lemma register_all_app_then {C} (reqs reqs' : list request) (k : M C) s :
  bind (register_all (reqs ++ reqs')) (fun _ => k) s
  = bind (register_all reqs) (fun _ => bind (register_all reqs') (fun _ => k)) s.
Proof.
  revert s. induction reqs as [| q reqs IH]; intros s; [reflexivity |].
  rewrite <- app_comm_cons, !register_all_cons_then.
  apply (bind_Returns_congr _ _ _ s). intros r s1 _. apply IH.
Qed.

Lemma register_all_inv (q : request) (reqs : list request) s rs s' :
  register_all (q :: reqs) s = Returns rs s' ->
  exists r s1 rs1,
    sensorFw_RegisterCallback (req_json q) (req_type q) (req_callbacks q)
                              (req_context q) s = Returns r s1
    /\ register_all reqs s1 = Returns rs1 s' /\ rs = r :: rs1.
Proof.
  cbn [register_all]. unfold bind at 1.
  destruct (sensorFw_RegisterCallback _ _ _ _ s) as [r s1 | |] eqn:Hstep;
    try discriminate.
  unfold bind at 1.
  destruct (register_all reqs s1) as [rs1 s2 | |] eqn:Hrest; try discriminate.
  unfold ret. intros [= <- <-]. exists r, s1, rs1. auto.
Qed.

Lemma register_all_without_config (reqs : list request) :
  Forall (fun q => is_NULL (configCb (req_callbacks q)) = true
                   \/ descriptor_read_once P (req_json q) = true) reqs ->
  forall s rs s',
    register_all reqs s = Returns rs s' ->
    exists news : list (list ev),
      length news = length reqs
      /\ trace s' = (trace s ++ concat news)%list
      /\ Forall (fun new => forallb (fun e => negb (is_config_setup e)) new = true
                            /\ (length (plugin_calls new) <= 1)%nat) news
      /\ forall p : string,
          json_push_handlers (trace s') p = json_push_handlers (trace s) p.
Proof.
  induction 1 as [| q reqs Hq _ IH]; intros s rs s' Hrun.
  - cbn in Hrun. injection Hrun as <- <-. exists []. cbn. rewrite app_nil_r.
    repeat split. constructor.
  - destruct (register_all_inv _ _ _ _ _ Hrun) as (r & s1 & rs1 & Hstep & Hrest & _).
    destruct (register_without_config _ _ _ _ _ _ _ Hstep Hq)
      as (new1 & Ht1 & Hc1 & Hp1 & Hj1).
    destruct (IH _ _ _ Hrest) as (news & Hn & Ht2 & Hall & Hj2).
    exists (new1 :: news).
    split; [cbn [length]; rewrite Hn; reflexivity |].
    split; [cbn [concat]; rewrite Ht2, Ht1, app_assoc; reflexivity |].
    split; [constructor; auto |].
    intros p. rewrite Hj2, Hj1. reflexivity.
Qed.

Lemma concat_without_config (news : list (list ev)) :
  Forall (fun new => forallb (fun e => negb (is_config_setup e)) new = true
                     /\ (length (plugin_calls new) <= 1)%nat) news ->
  forallb (fun e => negb (is_config_setup e)) (concat news) = true
  /\ (length (plugin_calls (concat news)) <= length news)%nat.
Proof.
  induction 1 as [| new news [Hc Hp] _ [IHc IHp]]; [split; [reflexivity | cbn; lia] |].
  cbn [concat length]. rewrite forallb_app, Hc, IHc, plugin_calls_app, length_app.
  split; [reflexivity | lia].
Qed.

Lemma ok_count_verdicts (reqs : list request) :
  Forall (fun q => is_Some (switch_type (req_type q))) reqs ->
  ok_count (map (fun q => verdict P (req_json q) (req_type q)) reqs)
  = length (parsing P reqs).
Proof.
  induction 1 as [| q reqs [t Ht] _ IH]; [reflexivity |].
  cbn [map]. unfold ok_count, parsing in *. unfold verdict at 1. rewrite Ht.
  destruct (valid_descriptor P (req_json q)) eqn:Hv.
  - rewrite !filter_cons_True by (try exact Hv; reflexivity).
    cbn [length]. rewrite IH. reflexivity.
  - rewrite !filter_cons_False by (rewrite ?Hv; cbn; congruence).
    exact IH.
Qed.

End Properties.

(** * Properties of the plugins *)

(** ** Text *)

Lemma prefix_append (needle haystack : string) :
  String.prefix needle haystack = true <-> exists after, haystack = needle +:+ after.
Proof.
  revert haystack. induction needle as [| a needle IH]; intros haystack.
  - destruct haystack; cbn; split; eauto.
  - destruct haystack as [| b haystack]; cbn.
    + split; [discriminate | intros [after [=]]].
    + destruct (Ascii.ascii_dec a b) as [-> | Hne].
      * rewrite IH. split; intros [after H]; exists after; [now rewrite H | now injection H].
      * split; [discriminate |]. intros [after H]. injection H as Hab _.
        congruence.
Qed.

Lemma strstr_occurs (haystack needle : string) :
  is_Some (Iio.strstr haystack needle) <-> Iio.occurs needle haystack.
Proof.
  unfold Iio.occurs.
  induction haystack as [| c haystack IH]; cbn [Iio.strstr].
  - destruct (String.prefix needle "") eqn:Hp.
    + split; [| eauto]. intros _. apply prefix_append in Hp. destruct Hp as [after H].
      exists "", after. exact H.
    + split; [intros [x [=]] |]. intros (before & after & H).
      destruct before; [| discriminate]. cbn in H.
      assert (String.prefix needle "" = true) by (apply prefix_append; eauto).
      congruence.
  - destruct (String.prefix needle (String c haystack)) eqn:Hp.
    + split; [| eauto]. intros _. apply prefix_append in Hp. destruct Hp as [after H].
      exists "", after. exact H.
    + rewrite IH. split.
      * intros (before & after & ->). exists (String c before), after. reflexivity.
      * intros (before & after & H). destruct before as [| b before].
        -- cbn in H.
           assert (String.prefix needle (String c haystack) = true)
             by (apply prefix_append; eauto).
           congruence.
        -- injection H as _ H. eauto.
Qed.

Lemma strstr_None (haystack needle : string) :
  Iio.strstr haystack needle = None <-> ~ Iio.occurs needle haystack.
Proof.
  rewrite <- strstr_occurs. destruct (Iio.strstr haystack needle); split;
    try discriminate; try reflexivity.
  - intros H. destruct H. eauto.
  - intros _ [x [=]].
Qed.

Lemma length_substring (n : nat) (a : string) :
  (String.length (String.substring 0 n a) <= n)%nat.
Proof.
  revert n. induction a as [| c a IH]; intros [| n]; cbn; try lia.
  specialize (IH n). lia.
Qed.

(** ** GetIiounit *)

Lemma GetIiounit_from_first (measNamePtr : string) (before : list Iio.iioUnits_t) row
    after :
  Iio.occurs (Iio.measurementName row) measNamePtr ->
  (forall r, In r before -> ~ Iio.occurs (Iio.measurementName r) measNamePtr) ->
  Iio.GetIiounit_from (before ++ row :: after) measNamePtr = Iio.standardUnit row.
Proof.
  intros Hrow. induction before as [| r before IH]; intros Hnone.
  - cbn. apply strstr_occurs in Hrow. destruct Hrow as [x ->]. reflexivity.
  - cbn. rewrite (proj2 (strstr_None _ _)) by (apply Hnone; left; reflexivity).
    apply IH. intros r' Hr'. apply Hnone. right. exact Hr'.
Qed.

Lemma GetIiounit_from_none (measNamePtr : string) (rows : list Iio.iioUnits_t) :
  (forall r, In r rows -> ~ Iio.occurs (Iio.measurementName r) measNamePtr) ->
  Iio.GetIiounit_from rows measNamePtr = "".
Proof.
  induction rows as [| r rows IH]; intros Hnone; [reflexivity |].
  cbn. rewrite (proj2 (strstr_None _ _)) by (apply Hnone; left; reflexivity).
  apply IH. intros r' Hr'. apply Hnone. right. exact Hr'.
Qed.

Lemma GetIiounit_from_cases (measNamePtr : string) (rows : list Iio.iioUnits_t) :
  (Iio.GetIiounit_from rows measNamePtr = ""
   /\ forall r, In r rows -> ~ Iio.occurs (Iio.measurementName r) measNamePtr)
  \/ exists r, In r rows /\ Iio.occurs (Iio.measurementName r) measNamePtr
               /\ Iio.GetIiounit_from rows measNamePtr = Iio.standardUnit r.
Proof.
  induction rows as [| r rows IH]; [left; split; [reflexivity | intros r []] |].
  cbn [Iio.GetIiounit_from].
  destruct (Iio.strstr measNamePtr (Iio.measurementName r)) eqn:Hs.
  - right. exists r. split; [left; reflexivity |]. split; [| reflexivity].
    apply strstr_occurs. rewrite Hs. eauto.
  - apply strstr_None in Hs. destruct IH as [[H0 Hnone] | (r' & Hin & Hocc & Hr')].
    + left. split; [exact H0 |]. intros r' [<- | Hr']; auto.
    + right. exists r'. split; [right; exact Hin |]. auto.
Qed.

Lemma IioStandardUnit_units :
  Forall (fun r => Iio.standardUnit r <> ""
                   /\ (String.length (Iio.standardUnit r) <= 20)%nat)
         Iio.IioStandardUnit.
Proof. repeat constructor; cbn; (discriminate || lia). Qed.

Lemma GetIiounit_length (measNamePtr : string) :
  (String.length (Iio.GetIiounit measNamePtr) <= 20)%nat.
Proof.
  unfold Iio.GetIiounit.
  destruct (GetIiounit_from_cases measNamePtr Iio.IioStandardUnit)
    as [[-> _] | (r & Hin & _ & ->)]; [cbn; lia |].
  pose proof IioStandardUnit_units as Hall. rewrite List.Forall_forall in Hall.
  apply Hall, Hin.
Qed.

(** X11: the unit the iio plugin gives a channel.  [GetIiounit] answers
    the unit of the first row of its table whose measurement name occurs
    somewhere in the channel name -- at the beginning, in the middle or at
    the end -- and the empty unit exactly when no name of the table occurs
    in it. *)
Theorem GetIiounit_first_match (measNamePtr : string) :
  (Iio.GetIiounit measNamePtr = ""
   <-> forall r, In r Iio.IioStandardUnit ->
                 ~ Iio.occurs (Iio.measurementName r) measNamePtr)
  /\ forall before row after,
      Iio.IioStandardUnit = (before ++ row :: after)%list ->
      Iio.occurs (Iio.measurementName row) measNamePtr ->
      (forall r, In r before -> ~ Iio.occurs (Iio.measurementName r) measNamePtr) ->
      Iio.GetIiounit measNamePtr = Iio.standardUnit row.
Proof.
  split.
  - split.
    + intros H0. unfold Iio.GetIiounit in H0.
      destruct (GetIiounit_from_cases measNamePtr Iio.IioStandardUnit)
        as [[_ Hnone] | (r & Hin & _ & Hr)]; [exact Hnone |].
      pose proof IioStandardUnit_units as Hall. rewrite List.Forall_forall in Hall.
      destruct (Hall r Hin) as [Hne _]. congruence.
    + apply GetIiounit_from_none.
  - intros before row after Htable Hrow Hnone. unfold Iio.GetIiounit.
    rewrite Htable. apply GetIiounit_from_first; assumption.
Qed.

(** ** CreateJsonDocument *)

Lemma descriptor_text_length (name path isReadOnceString unit : string) :
  String.length (Iio.descriptor_text name path isReadOnceString unit)
  = (51 + String.length name + String.length path + String.length isReadOnceString
     + String.length unit)%nat.
Proof.
  unfold Iio.descriptor_text. rewrite !string_length_app. cbn [String.length Sim.dquote].
  lia.
Qed.

Lemma length_substring_lt (n : nat) (a : string) :
  (n < String.length a)%nat -> String.length (String.substring 0 n a) = n.
Proof.
  revert n. induction a as [| c a IH]; intros [| n] H; cbn in *; try lia.
  rewrite IH by lia. reflexivity.
Qed.

(** X12: [CreateJsonDocument], for a document within [INT_MAX]
    characters.  The result is [LE_OK] exactly when the document with its
    terminator fits the buffer, and the buffer then holds the whole
    document; otherwise the result is [LE_OVERFLOW] -- never [LE_FAULT] --
    and the buffer holds the first [bufferSize - 1] characters of it, or
    what it held before when [bufferSize] is 0. *)
Theorem CreateJsonDocument_fits (buffer : string) (bufferSize : nat)
    (name path : string) (isReadOnce : bool) (unit : string) :
  let text :=
    Iio.descriptor_text name path (if isReadOnce then "true" else "false") unit in
  let answer := Iio.CreateJsonDocument buffer bufferSize name path isReadOnce unit in
  Z.of_nat (String.length text) <= INT_MAX ->
  (fst answer = LE_OK <-> (String.length text < bufferSize)%nat)
  /\ (fst answer = LE_OK -> snd answer = text)
  /\ (fst answer <> LE_OK ->
      fst answer = LE_OVERFLOW
      /\ snd answer = match bufferSize with
                      | O => buffer
                      | S n => String.substring 0 n text
                      end
      /\ ((0 < bufferSize)%nat -> String.length (snd answer) = (bufferSize - 1)%nat)).
Proof.
  intros text answer Hmax. subst answer.
  unfold Iio.CreateJsonDocument, Iio.snprintf. fold text. cbn [fst snd].
  destruct (Z.leb_spec (Z.of_nat (String.length text)) INT_MAX) as [_ | Hgt]; [| lia].
  destruct (Z.ltb_spec (Z.of_nat (String.length text)) 0) as [Hneg | _]; [lia |].
  destruct (Z.leb_spec (Z.of_nat bufferSize) (Z.of_nat (String.length text)))
    as [Hover | Hfit]; cbn [fst snd].
  - split; [split; [discriminate | lia] |]. split; [discriminate |].
    intros _. split; [reflexivity |]. split; [reflexivity |].
    intros Hpos. destruct bufferSize as [| n]; [lia |].
    cbn [Nat.sub]. rewrite Nat.sub_0_r.
    assert (n < String.length text)%nat by lia.
    apply length_substring_lt. assumption.
  - split; [split; [lia | reflexivity] |]. split; [| congruence].
    intros _. destruct bufferSize as [| n]; [lia |].
    apply substring_whole. lia.
Qed.

Lemma descriptor_fits (buffer deviceName channelName : string) :
  let resourcePath :=
    snprintf_path Iio.sizeof_resourcePath deviceName channelName in
  Iio.CreateJsonDocument buffer Iio.MAX_JSON_SIZE resourcePath resourcePath false
                         (Iio.GetIiounit channelName)
  = (LE_OK,
     Iio.descriptor_text resourcePath resourcePath "false" (Iio.GetIiounit channelName)).
Proof.
  intros resourcePath.
  assert (Hrp : (String.length resourcePath <= 255)%nat).
  { unfold resourcePath, snprintf_path. apply length_substring. }
  pose proof (GetIiounit_length channelName) as Hunit.
  assert (Hlen : (String.length
                    (Iio.descriptor_text resourcePath resourcePath "false"
                                         (Iio.GetIiounit channelName)) <= 586)%nat).
  { rewrite descriptor_text_length. cbn [String.length]. lia. }
  unfold Iio.CreateJsonDocument, Iio.snprintf. cbn [fst snd].
  set (text := Iio.descriptor_text resourcePath resourcePath "false"
                                   (Iio.GetIiounit channelName)) in *.
  destruct (Z.leb_spec (Z.of_nat (String.length text)) INT_MAX) as [_ | Hgt];
    [| unfold INT_MAX in Hgt; lia].
  destruct (Z.ltb_spec (Z.of_nat (String.length text)) 0) as [Hneg | _]; [lia |].
  destruct (Z.leb_spec (Z.of_nat Iio.MAX_JSON_SIZE) (Z.of_nat (String.length text)))
    as [Hover | _]; [unfold Iio.MAX_JSON_SIZE in Hover; lia |].
  f_equal. change Iio.MAX_JSON_SIZE with (S 1023). apply substring_whole. lia.
Qed.

(** ** GetJsonDocument *)

Lemma substring_whole_inv (n : nat) (a : string) :
  String.substring 0 n a = a -> (String.length a <= n)%nat.
Proof.
  intros H. rewrite <- H. apply length_substring.
Qed.

Lemma DmHandlers_documents :
  Forall (fun row =>
            req_json (Dm.request_of row)
            = Iio.descriptor_text "" (Dm.path row)
                (if Dm.isReadOnce row then "true" else "false") (Dm.unit row))
         Dm.DmHandlers.
Proof. repeat constructor. Qed.

(** X18: [GetJsonDocument] of the device management plugin reports no
    truncation.  What it returns is the first 1023 characters of the
    document: the whole document exactly when that is what
    [CreateJsonDocument] of the iio plugin, given a buffer of the same
    1024 bytes, answers [LE_OK] for, and otherwise a text of 1023
    characters that lacks the end of the document.  The descriptors of
    all rows of [DmHandlers] are whole. *)
Theorem GetJsonDocument_cuts_silently (name path : string) (isReadOnce : bool)
    (unit : string) :
  let text :=
    Iio.descriptor_text name path (if isReadOnce then "true" else "false") unit in
  Sim.GetJsonDocument name path isReadOnce unit = String.substring 0 1023 text
  /\ (Sim.GetJsonDocument name path isReadOnce unit = text
      <-> (String.length text <= 1023)%nat)
  /\ ((1023 < String.length text)%nat ->
      String.length (Sim.GetJsonDocument name path isReadOnce unit) = 1023%nat)
  /\ (forall buffer : string,
         Z.of_nat (String.length text) <= INT_MAX ->
         (fst (Iio.CreateJsonDocument buffer Iio.MAX_JSON_SIZE name path isReadOnce unit)
          = LE_OK
          <-> Sim.GetJsonDocument name path isReadOnce unit = text)
         /\ snd (Iio.CreateJsonDocument buffer Iio.MAX_JSON_SIZE name path isReadOnce
                                        unit)
            = Sim.GetJsonDocument name path isReadOnce unit)
  /\ Forall (fun row =>
               req_json (Dm.request_of row)
               = Iio.descriptor_text "" (Dm.path row)
                   (if Dm.isReadOnce row then "true" else "false") (Dm.unit row))
            Dm.DmHandlers.
Proof.
  intros text.
  assert (Hcut : Sim.GetJsonDocument name path isReadOnce unit
                 = String.substring 0 1023 text) by reflexivity.
  assert (Hwhole : Sim.GetJsonDocument name path isReadOnce unit = text
                   <-> (String.length text <= 1023)%nat).
  { rewrite Hcut. split; [apply substring_whole_inv | apply substring_whole]. }
  split; [exact Hcut |]. split; [exact Hwhole |].
  split; [intros Hlong; rewrite Hcut; apply length_substring_lt; exact Hlong |].
  split; [| exact DmHandlers_documents].
  intros buffer Hmax. split.
  - rewrite Hwhole.
    unfold Iio.CreateJsonDocument, Iio.snprintf. fold text. cbn [fst snd].
    destruct (Z.leb_spec (Z.of_nat (String.length text)) INT_MAX) as [_ | Hgt]; [| lia].
    destruct (Z.ltb_spec (Z.of_nat (String.length text)) 0) as [Hneg | _]; [lia |].
    destruct (Z.leb_spec (Z.of_nat Iio.MAX_JSON_SIZE) (Z.of_nat (String.length text)))
      as [Hover | Hfit]; cbn [fst]; unfold Iio.MAX_JSON_SIZE in *;
      (split; [try discriminate; lia | try reflexivity; lia]).
  - rewrite Hcut. unfold Iio.CreateJsonDocument, Iio.snprintf. fold text.
    cbn [fst snd].
    destruct (Z.ltb _ 0); [reflexivity |].
    destruct (Z.leb (Z.of_nat Iio.MAX_JSON_SIZE) _); reflexivity.
Qed.

Section PluginProperties.

Context (P : Platform).
Context (atof : string -> double P).
Context (fmul fadd : double P -> double P -> double P).
Context (size_t_bits : Z).

Local Abbreviation GetAttribute := (Iio.GetAttribute P atof size_t_bits).
Local Abbreviation SampleIioSensor := (Iio.SampleIioSensor P atof fmul fadd size_t_bits).
Local Abbreviation IioPluginInit := (Iio.IioPluginInit P atof size_t_bits).
Local Abbreviation attribute_status := (Iio.attribute_status size_t_bits).
Local Abbreviation value_after := (Iio.value_after P atof size_t_bits).

(** ** GetAttribute and SampleIioSensor *)

Lemma GetAttribute_status (chan_ : Iio.iio_channel) (attrName : string)
    (readValue : double P) :
  fst (GetAttribute chan_ attrName readValue) = attribute_status chan_ attrName.
Proof.
  unfold Iio.GetAttribute, Iio.attribute_status.
  destruct (Iio.iio_channel_find_attr chan_ attrName); [| reflexivity].
  cbn zeta. destruct (Z.ltb _ _); reflexivity.
Qed.

Lemma GetAttribute_keeps (chan_ : Iio.iio_channel) (attrName : string)
    (readValue : double P) :
  attribute_status chan_ attrName <> Iio.ATTRIBUTE_FOUND ->
  snd (GetAttribute chan_ attrName readValue) = readValue.
Proof.
  unfold Iio.GetAttribute, Iio.attribute_status.
  destruct (Iio.iio_channel_find_attr chan_ attrName); [| reflexivity].
  cbn zeta. destruct (Z.ltb _ _); [congruence | reflexivity].
Qed.

Lemma GetAttribute_value (chan_ : Iio.iio_channel) (attrName : string)
    (readValue : double P) :
  snd (GetAttribute chan_ attrName readValue) = value_after chan_ attrName readValue.
Proof.
  unfold Iio.GetAttribute, Iio.value_after, Iio.attribute_status.
  destruct (Iio.iio_channel_find_attr chan_ attrName); [| reflexivity].
  cbn zeta. destruct (Z.ltb _ _); reflexivity.
Qed.

Lemma size_t_of_zero (z : Z) :
  0 < size_t_bits ->
  - 2 ^ (size_t_bits - 1) <= z < 2 ^ (size_t_bits - 1) ->
  Z.ltb 0 (Iio.size_t_of size_t_bits z) = false <-> z = 0.
Proof.
  intros Hbits Hz. unfold Iio.size_t_of.
  assert (Hpow : 2 ^ size_t_bits = 2 * 2 ^ (size_t_bits - 1)).
  { rewrite <- Z.pow_succ_r by lia. f_equal. lia. }
  assert (Hpos : 0 < 2 ^ (size_t_bits - 1)) by (apply Z.pow_pos_nonneg; lia).
  rewrite Z.ltb_ge. split.
  - intros Hmod. destruct (Z.neg_nonneg_cases z) as [Hneg | Hnn].
    + assert (Hm : z mod 2 ^ size_t_bits = z + 2 ^ size_t_bits).
      { symmetry. apply (Z.mod_unique _ _ (-1)); lia. }
      lia.
    + rewrite Z.mod_small in Hmod by lia. lia.
  - intros ->. rewrite Z.mod_0_l by lia. lia.
Qed.

(** X13: [GetAttribute] on an attribute the channel has.  The value
    [iio_channel_attr_read] returns is stored in a [size_t] and compared
    with 0, so the answer is [ATTRIBUTE_FAULT] only when the read returned
    0: a negative error code is answered with [ATTRIBUTE_FOUND], and the
    value handed back is [atof] of what the failed read left in the
    buffer. *)
Theorem GetAttribute_fault_only_for_zero (chan_ : Iio.iio_channel) (attrName : string)
    (readValue : double P) :
  0 < size_t_bits ->
  - 2 ^ (size_t_bits - 1) <= fst (Iio.iio_channel_attr_read chan_ attrName)
    < 2 ^ (size_t_bits - 1) ->
  Iio.iio_channel_find_attr chan_ attrName = true ->
  (fst (GetAttribute chan_ attrName readValue) = Iio.ATTRIBUTE_FAULT
   <-> fst (Iio.iio_channel_attr_read chan_ attrName) = 0)
  /\ (fst (Iio.iio_channel_attr_read chan_ attrName) <> 0 ->
      GetAttribute chan_ attrName readValue
      = (Iio.ATTRIBUTE_FOUND, atof (snd (Iio.iio_channel_attr_read chan_ attrName))))
  /\ (fst (Iio.iio_channel_attr_read chan_ attrName) = 0 ->
      snd (GetAttribute chan_ attrName readValue) = readValue).
Proof.
  intros Hbits Hrange Hfind.
  pose proof (size_t_of_zero _ Hbits Hrange) as Hzero.
  unfold Iio.GetAttribute. rewrite Hfind. cbn zeta.
  destruct (Z.ltb 0 (Iio.size_t_of size_t_bits
                       (fst (Iio.iio_channel_attr_read chan_ attrName)))) eqn:Hlt;
    cbn [fst snd].
  - assert (Hne : fst (Iio.iio_channel_attr_read chan_ attrName) <> 0).
    { intros H0. apply Hzero in H0. congruence. }
    split; [split; [discriminate | contradiction] |].
    split; [reflexivity | contradiction].
  - assert (H0 : fst (Iio.iio_channel_attr_read chan_ attrName) = 0)
      by (apply Hzero; reflexivity).
    split; [split; auto |]. split; [contradiction | reflexivity].
Qed.

(** X14: [SampleIioSensor] reports no read failure.  With a context
    whose device has a name and whose channel is set it returns [LE_OK]
    whatever the attributes answer: the value is the one read from
    ["input"] when that is found, and otherwise [raw * scale + offset *
    scale], where each of the three is the value read when its attribute
    is found and what the uninitialised local happened to hold when it is
    not -- all three of them when none is found.  It returns [LE_FAULT],
    leaving the value alone, for a context without device name or
    channel, and for no context. *)
Theorem SampleIioSensor_reports_no_failure (readValue : double P)
    (contextPtr : option Iio.iioSensorContext_t) (inputValue raw offset scale : double P) :
  let answer := SampleIioSensor readValue contextPtr inputValue raw offset scale in
  (forall sensorCtxtPtr deviceName chan_,
      contextPtr = Some sensorCtxtPtr ->
      Iio.iio_device_get_name (Iio.device sensorCtxtPtr) = Some deviceName ->
      Iio.chan sensorCtxtPtr = Some chan_ ->
      fst answer = LE_OK
      /\ (attribute_status chan_ "input" = Iio.ATTRIBUTE_FOUND ->
          snd answer = atof (snd (Iio.iio_channel_attr_read chan_ "input")))
      /\ (attribute_status chan_ "input" <> Iio.ATTRIBUTE_FOUND ->
          attribute_status chan_ "raw" <> Iio.ATTRIBUTE_FOUND ->
          attribute_status chan_ "offset" <> Iio.ATTRIBUTE_FOUND ->
          attribute_status chan_ "scale" <> Iio.ATTRIBUTE_FOUND ->
          snd answer = fadd (fmul raw scale) (fmul offset scale))
      /\ (attribute_status chan_ "input" <> Iio.ATTRIBUTE_FOUND ->
          snd answer
          = fadd (fmul (value_after chan_ "raw" raw) (value_after chan_ "scale" scale))
                 (fmul (value_after chan_ "offset" offset)
                       (value_after chan_ "scale" scale))))
  /\ ((contextPtr = None
       \/ exists sensorCtxtPtr,
           contextPtr = Some sensorCtxtPtr
           /\ (Iio.iio_device_get_name (Iio.device sensorCtxtPtr) = None
               \/ Iio.chan sensorCtxtPtr = None)) ->
      answer = (LE_FAULT, readValue)).
Proof.
  intros answer. subst answer. split.
  - intros sensorCtxtPtr deviceName chan_ -> Hname Hchan.
    unfold Iio.SampleIioSensor. rewrite Hname, Hchan. cbn zeta.
    rewrite (GetAttribute_status chan_ "input").
    destruct (attribute_status chan_ "input") eqn:Hin; cbn [fst snd].
    + split; [reflexivity |]. split; [| split; congruence].
      intros _. unfold Iio.GetAttribute. unfold Iio.attribute_status in Hin.
      destruct (Iio.iio_channel_find_attr chan_ "input"); [| discriminate].
      cbn zeta. destruct (Z.ltb _ _); [reflexivity | discriminate].
    + split; [reflexivity |]. split; [discriminate |]. split.
      * intros _ Hraw Hoff Hsc.
        rewrite !GetAttribute_keeps by assumption. reflexivity.
      * intros _. rewrite !GetAttribute_value. reflexivity.
    + split; [reflexivity |]. split; [discriminate |]. split.
      * intros _ Hraw Hoff Hsc.
        rewrite !GetAttribute_keeps by assumption. reflexivity.
      * intros _. rewrite !GetAttribute_value. reflexivity.
  - intros [-> | (sensorCtxtPtr & -> & Hmiss)]; [reflexivity |].
    unfold Iio.SampleIioSensor.
    destruct Hmiss as [-> | ->]; [reflexivity |].
    destruct (Iio.iio_device_get_name _); reflexivity.
Qed.

(** ** IioPluginInit *)

Lemma IioPluginInit_register_run (pluginCb : sensorfwCallbacks_t)
    (deviceName channelName : string) (sensorCtxtPtr : nat) (l : Iio.locals P)
    (s : State P) :
  let resourcePath :=
    snprintf_path Iio.sizeof_resourcePath deviceName channelName in
  let json := Iio.descriptor_text resourcePath resourcePath "false"
                                  (Iio.GetIiounit channelName) in
  Iio.IioPluginInit_register P pluginCb resourcePath channelName sensorCtxtPtr l s
  = bind (sensorFw_RegisterCallback json SF_CB_NUMERIC pluginCb sensorCtxtPtr)
         (fun _ => ret (Some (Iio.mk_locals json (Iio.inputValue_ l)))) s.
Proof.
  intros resourcePath json. unfold Iio.IioPluginInit_register.
  unfold resourcePath. rewrite descriptor_fits. reflexivity.
Qed.

Lemma IioPluginInit_channel_run (infoCb_ : nat) (deviceName : string)
    (chan_ : Iio.iio_channel) (raw : double P) (l : Iio.locals P) (s : State P) :
  Iio.channel_usable chan_ ->
  let pluginCb :=
    mk_callbacks infoCb_ Iio.ConfigIioSensor Iio.SampleIioSensor_address in
  exists l',
    Iio.IioPluginInit_channel P atof size_t_bits pluginCb (Some deviceName) chan_ raw l s
    = if Iio.sampled size_t_bits chan_ then
        bind (register_all [Iio.request_of infoCb_ deviceName chan_])
             (fun _ => ret (Some l')) s
      else Returns (Some l') s.
Proof.
  intros [Hout Hctx] pluginCb. unfold Iio.IioPluginInit_channel.
  rewrite Hout, Hctx. cbn zeta. rewrite !GetAttribute_status.
  unfold Iio.sampled.
  destruct (attribute_status chan_ "input") eqn:Hin.
  - eexists. rewrite IioPluginInit_register_run.
    rewrite register_all_cons_then. cbn [register_all].
    apply bind_Returns_congr. intros a s1 _. reflexivity.
  - destruct (attribute_status chan_ "raw") eqn:Hraw.
    + eexists. rewrite IioPluginInit_register_run.
      rewrite register_all_cons_then. cbn [register_all].
      apply bind_Returns_congr. intros a s1 _. reflexivity.
    + eexists. reflexivity.
    + eexists. reflexivity.
  - eexists. reflexivity.
Qed.

Lemma IioPluginInit_channels_run (infoCb_ : nat) (deviceName : string)
    (chans : list Iio.iio_channel) (raw : double P) :
  Forall Iio.channel_usable chans ->
  let pluginCb :=
    mk_callbacks infoCb_ Iio.ConfigIioSensor Iio.SampleIioSensor_address in
  forall (l : Iio.locals P) (s : State P),
  exists l',
    Iio.IioPluginInit_channels P atof size_t_bits pluginCb (Some deviceName) chans raw l s
    = bind (register_all
              (map (Iio.request_of infoCb_ deviceName)
                   (filter (fun chan_ => Iio.sampled size_t_bits chan_ = true) chans)))
           (fun _ => ret (Some l')) s.
Proof.
  intros Hall pluginCb. induction Hall as [| chan_ chans Hchan _ IH]; intros l s.
  - exists l. reflexivity.
  - cbn [Iio.IioPluginInit_channels].
    destruct (IioPluginInit_channel_run infoCb_ deviceName chan_ raw l s Hchan)
      as [l1 Hstep].
    fold pluginCb in Hstep.
    destruct (Iio.sampled size_t_bits chan_) eqn:Hs.
    + rewrite filter_cons_True by exact Hs. cbn [map].
      rewrite register_all_cons_then in Hstep. cbn [register_all] in Hstep.
      destruct (sensorFw_RegisterCallback
                  (req_json (Iio.request_of infoCb_ deviceName chan_))
                  (req_type (Iio.request_of infoCb_ deviceName chan_))
                  (req_callbacks (Iio.request_of infoCb_ deviceName chan_))
                  (req_context (Iio.request_of infoCb_ deviceName chan_)) s)
        as [r s1 | s1 |] eqn:Hq.
      * rewrite (bind_Returns _ _ _ _ _ _ Hq) in Hstep.
        destruct (IH l1 s1) as [l' Hl']. exists l'.
        rewrite (bind_Returns _ _ _ _ _ _ Hstep).
        rewrite register_all_cons_then, (bind_Returns _ _ _ _ _ _ Hq). exact Hl'.
      * exists l. rewrite register_all_cons_then.
        unfold bind in Hstep |- *. rewrite Hq in Hstep |- *. rewrite Hstep. reflexivity.
      * exists l. rewrite register_all_cons_then.
        unfold bind in Hstep |- *. rewrite Hq in Hstep |- *. rewrite Hstep. reflexivity.
    + rewrite filter_cons_False by congruence.
      destruct (IH l1 s) as [l' Hl']. exists l'.
      rewrite (bind_Returns _ _ _ _ _ _ Hstep). exact Hl'.
Qed.

Lemma IioPluginInit_devices_run (infoCb_ : nat) (devices : list Iio.iio_device)
    (raw : double P) :
  Forall Iio.device_usable devices ->
  let pluginCb :=
    mk_callbacks infoCb_ Iio.ConfigIioSensor Iio.SampleIioSensor_address in
  forall (l : Iio.locals P) (s : State P),
  exists l',
    Iio.IioPluginInit_devices P atof size_t_bits pluginCb devices raw l s
    = bind (register_all (flat_map (Iio.requests_of_device size_t_bits infoCb_) devices))
           (fun _ => ret (Some l')) s.
Proof.
  intros Hall pluginCb. induction Hall as [| device_ devices [Hname Hchans] _ IH];
    intros l s.
  - exists l. reflexivity.
  - cbn [Iio.IioPluginInit_devices flat_map].
    assert (Hrun : exists l1,
               Iio.IioPluginInit_channels P atof size_t_bits pluginCb
                 (Iio.iio_device_get_name device_) (Iio.iio_device_get_channel device_)
                 raw l s
               = bind (register_all (Iio.requests_of_device size_t_bits infoCb_ device_))
                      (fun _ => ret (Some l1)) s).
    { unfold Iio.requests_of_device.
      destruct (Iio.iio_device_get_name device_) as [deviceName |] eqn:Hn.
      - apply IioPluginInit_channels_run, Hchans.
      - destruct (Iio.iio_device_get_channel device_) as [| chan_ chans] eqn:Hc.
        + exists l. reflexivity.
        + destruct Hname as [x Hx]; [discriminate | discriminate]. }
    destruct Hrun as [l1 Hrun].
    destruct (register_all (Iio.requests_of_device size_t_bits infoCb_ device_) s)
      as [rs s1 | s1 |] eqn:Hq.
    + rewrite (bind_Returns _ _ _ _ _ _ Hq) in Hrun. unfold ret in Hrun.
      destruct (IH l1 s1) as [l' Hl']. exists l'.
      rewrite (bind_Returns _ _ _ _ _ _ Hrun), register_all_app_then,
        (bind_Returns _ _ _ _ _ _ Hq).
      exact Hl'.
    + exists l. rewrite register_all_app_then.
      unfold bind in Hrun |- *. rewrite Hq in Hrun |- *. rewrite Hrun. reflexivity.
    + exists l. rewrite register_all_app_then.
      unfold bind in Hrun |- *. rewrite Hq in Hrun |- *. rewrite Hrun. reflexivity.
Qed.

(** X15: what [IioPluginInit] amounts to.  For a context in which every
    call is defined (devices with channels have a name, no channel is an
    output, [malloc] has not failed) and whose timeout could be set, the
    function is the run of registrations for the channels that can be
    sampled, device by device, in channel order: each with
    [<device>/<channel>] as name and as path, payload kind numeric, the two
    callbacks of the plugin and its own context.  So the [return] after
    [CreateJsonDocument] is never taken -- the descriptor of a channel
    always fits the 1024 bytes --, and a registration the framework turns
    down does not stop the next ones. *)
Theorem IioPluginInit_registers (ctx : Iio.iio_context) (infoCb_ : nat)
    (raw : double P) (l : Iio.locals P) (s : State P) :
  Iio.context_usable ctx ->
  Iio.iio_context_set_timeout ctx 5000 = 0 ->
  IioPluginInit (Some ctx) infoCb_ raw l s
  = bind (register_all (Iio.requests_of size_t_bits infoCb_ ctx)) (fun _ => ret tt) s.
Proof.
  intros Husable Htimeout. unfold Iio.IioPluginInit. rewrite Htimeout. cbn [Z.eqb negb].
  destruct (IioPluginInit_devices_run infoCb_ (Iio.iio_context_get_device ctx) raw
              Husable l s) as [l' Hrun].
  unfold bind at 1. rewrite Hrun. unfold Iio.requests_of. unfold bind, ret.
  destruct (register_all _ s); reflexivity.
Qed.

(** X16: the 20-byte name field and the iio plugin.  The plugin hands
    in [<device>/<channel>] both as path and as name.  When that text has
    20 characters or more, the framework turns the registration down with
    [LE_FAULT] and keeps nothing of it -- although the text would fit the
    path field --, given that [json_Extract], where it succeeds, yields
    the name member and that [le_utf8_Copy] reports [LE_OK] only for a
    complete copy within the destination. *)
Theorem iio_long_name_is_rejected (infoCb_ : nat) (deviceName : string)
    (chan_ : Iio.iio_channel) (s : State P) :
  let q := Iio.request_of infoCb_ deviceName chan_ in
  let resourcePath :=
    snprintf_path Iio.sizeof_resourcePath deviceName (Iio.iio_channel_get_id chan_) in
  copy_exact P -> copy_bounded P ->
  (field_extracted P (req_json q) "name" = true ->
   field_value P (req_json q) "name" = resourcePath) ->
  (MAX_RESOURCE_NAME_LEN <= String.length resourcePath)%nat ->
  exists s',
    sensorFw_RegisterCallback (req_json q) (req_type q) (req_callbacks q)
                              (req_context q) s = Returns LE_FAULT s'
    /\ SensorHandlerPool s' = SensorHandlerPool s
    /\ RegisteredSensorCount s' = RegisteredSensorCount s
    /\ trace s' = trace s.
Proof.
  intros q resourcePath Hexact Hbounded Hname Hlong.
  destruct (register_rejected_state P (req_json q) (req_type q) (req_callbacks q)
              (req_context q) s) as (s' & Hrun & Hcount & Hpool & Htrace).
  - unfold valid_descriptor, field_ok.
    destruct (field_extracted P (req_json q) "name") eqn:Hx; [| reflexivity].
    cbn [andb]. unfold field_fits. rewrite (Hname eq_refl).
    destruct (le_utf8_Copy P resourcePath MAX_RESOURCE_NAME_LEN) as [r d] eqn:Hcopy.
    destruct r; try reflexivity.
    pose proof (Hexact _ _ _ Hcopy) as ->.
    pose proof (Hbounded _ _ _ Hcopy). lia.
  - exists s'. auto.
Qed.

(** ** The device management plugin *)

Lemma dm_COMPONENT_INIT_from_run (rows : list Dm.dmHandlers_t) (s : State P) :
  Dm.COMPONENT_INIT_from P rows s
  = bind (register_all (map Dm.request_of rows)) (fun _ => ret tt) s.
Proof.
  revert s. induction rows as [| row rows IH]; intros s; [reflexivity |].
  cbn [Dm.COMPONENT_INIT_from map]. rewrite register_all_cons_then.
  apply bind_Returns_congr. intros r s1 _. apply IH.
Qed.

Lemma DmHandlers_requests :
  Forall (fun q => is_NULL (configCb (req_callbacks q)) = true
                   /\ is_Some (switch_type (req_type q))
                   /\ req_context q = NULL)
         (map Dm.request_of Dm.DmHandlers).
Proof. repeat constructor; cbn; eauto. Qed.

(** X17: the device management plugin.  Its [COMPONENT_INIT] makes one
    registration per row of [DmHandlers], 23 in all, and goes on after a
    row that is turned down.  None of its sensors is configurable: no
    output is created, no push handler subscribed, and the plugin is
    called at most once per row, for the first sample.  Every row has one
    of the four payload kinds, so each registration either is counted or
    leaves no block behind: counter and pool grow by the same number. *)
Theorem dm_init_registers_without_config (s s' : State P) :
  Dm.COMPONENT_INIT P s = Returns tt s' ->
  0 <= RegisteredSensorCount s ->
  RegisteredSensorCount s + 23 <= INT_MAX ->
  exists (rs : list le_result_t) (new : list (event (double P))),
    register_all (map Dm.request_of Dm.DmHandlers) s = Returns rs s'
    /\ length rs = 23%nat
    /\ trace s' = (trace s ++ new)%list
    /\ forallb (fun e => negb (is_config_setup e)) new = true
    /\ (length (plugin_calls new) <= 23)%nat
    /\ (forall p : string,
           json_push_handlers (trace s') p = json_push_handlers (trace s) p)
    /\ RegisteredSensorCount s' = RegisteredSensorCount s + Z.of_nat (ok_count rs)
    /\ size (SensorHandlerPool s') = (size (SensorHandlerPool s) + ok_count rs)%nat
    /\ exists by_row : list (list (event (double P))),
        new = concat by_row
        /\ length by_row = 23%nat
        /\ Forall (fun calls => (length (plugin_calls calls) <= 1)%nat) by_row.
Proof.
  intros Hrun H0 Hmax. unfold Dm.COMPONENT_INIT in Hrun.
  rewrite dm_COMPONENT_INIT_from_run in Hrun. unfold bind, ret in Hrun.
  destruct (register_all (map Dm.request_of Dm.DmHandlers) s) as [rs s1 | |] eqn:Hall;
    try discriminate.
  injection Hrun as ->.
  pose proof DmHandlers_requests as Hrows.
  destruct (register_all_without_config P (map Dm.request_of Dm.DmHandlers))
    with (s := s) (rs := rs) (s' := s') as (news & Hn & Ht & Hnews & Hj).
  { eapply Forall_impl; [exact Hrows |]. cbn. intros q (Hq & _). left. exact Hq. }
  { exact Hall. }
  destruct (concat_without_config P news Hnews) as [Hc Hp].
  destruct (register_all_books P (map Dm.request_of Dm.DmHandlers) s rs s' Hall H0)
    as (Hrs & Hcount & Hsize).
  { rewrite length_map. exact Hmax. }
  rewrite length_map in Hn.
  exists rs, (concat news). split; [reflexivity |].
  split; [rewrite Hrs, !length_map; reflexivity |].
  split; [exact Ht |]. split; [exact Hc |].
  split; [rewrite Hn in Hp; exact Hp |].
  split; [exact Hj |]. split; [exact Hcount |].
  split.
  - rewrite Hsize, Hrs. f_equal. symmetry. apply ok_count_verdicts.
    eapply Forall_impl; [exact Hrows |]. cbn. intros q (_ & Hq & _). exact Hq.
  - exists news. split; [reflexivity |]. split; [exact Hn |].
    eapply Forall_impl; [exact Hnews |]. cbn. intros calls [_ Hcalls]. exact Hcalls.
Qed.

End PluginProperties.

(** * The properties on the simulated device *)

Lemma PushData_other_type_witness :
  PushData 1%nat Sim.stray = Returns LE_OK Sim.stray.
Proof.
  apply (PushData_other_type Sim.P0 Sim.stray 1%nat Sim.zeroed);
    [reflexivity | discriminate | discriminate | discriminate | discriminate].
Defined.

Lemma failed_callback_pushes_nothing_witness :
  SensorHandlerPool Sim.with_broken !! 1%nat = Some Sim.broken_entry
  /\ (exists s',
         PushData 1%nat Sim.with_broken = Returns LE_FAULT s'
         /\ pushes (trace s') = pushes (trace Sim.with_broken)
         /\ SensorHandlerPool s' = SensorHandlerPool Sim.with_broken
         /\ RegisteredSensorCount s' = RegisteredSensorCount Sim.with_broken)
  /\ (exists s',
         PushConfig 1%nat Sim.with_broken = Returns LE_FAULT s'
         /\ pushes (trace s') = pushes (trace Sim.with_broken)
         /\ SensorHandlerPool s' = SensorHandlerPool Sim.with_broken
         /\ RegisteredSensorCount s' = RegisteredSensorCount Sim.with_broken).
Proof.
  pose proof (failed_callback_pushes_nothing Sim.P0 Sim.with_broken 1%nat
                Sim.broken_entry eq_refl) as [Hs Hc].
  split; [reflexivity |]. split.
  - apply (Hs LE_FAULT (V_boolean false)); [reflexivity | discriminate].
  - apply Hc. discriminate.
Defined.

Lemma ParseSensorInfo_accepts_witness :
  field_extracted Sim.P0 Sim.pathless_descriptor "path" = false
  /\ exists s',
      sensorFw_RegisterCallback Sim.pathless_descriptor SF_CB_NUMERIC
        (Sim.dm_callbacks Sim.GetTemperature) NULL Sim.booted
      = Returns LE_FAULT s'
      /\ RegisteredSensorCount s' = RegisteredSensorCount Sim.booted
      /\ SensorHandlerPool s' = SensorHandlerPool Sim.booted
      /\ trace s' = trace Sim.booted.
Proof.
  split; [reflexivity |].
  apply (proj1 (proj2 (ParseSensorInfo_accepts Sim.P0 Sim.pathless_descriptor))).
  right. reflexivity.
Defined.

(** C8 on the device: the descriptor whose name has 36 characters.  The
    parse returns [LE_FAULT], and the record it was given then holds the
    first 19 characters of the name. *)
Lemma oversized_name_is_stored_cut :
  field_value Sim.P0 Sim.longname_descriptor "name"
  = "accelerometer-on-the-expansion-board"
  /\ fst (ParseSensorInfo Sim.P0 Sim.longname_descriptor (info Sim.zeroed)) = LE_FAULT
  /\ name (snd (ParseSensorInfo Sim.P0 Sim.longname_descriptor (info Sim.zeroed)))
     = "accelerometer-on-th".
Proof. vm_compute. auto. Qed.

Lemma oversized_field_is_rejected_witness :
  In ("name", MAX_RESOURCE_NAME_LEN) (descriptor_fields Sim.P0)
  /\ field_extracted Sim.P0 Sim.longname_descriptor "name" = true
  /\ field_fits Sim.P0 Sim.longname_descriptor "name" MAX_RESOURCE_NAME_LEN = false
  /\ (forall i, fst (ParseSensorInfo Sim.P0 Sim.longname_descriptor i) = LE_FAULT)
  /\ (forall i,
         snd (ParseSensorInfo Sim.P0 Sim.longname_descriptor i)
         = set_name "accelerometer-on-th" i)
  /\ exists s',
      sensorFw_RegisterCallback Sim.longname_descriptor SF_CB_NUMERIC
        (Sim.iio_callbacks Sim.GetTemperature) 77%nat Sim.booted = Returns LE_FAULT s'
      /\ SensorHandlerPool s' = SensorHandlerPool Sim.booted.
Proof.
  assert (Hin : In ("name", MAX_RESOURCE_NAME_LEN) (descriptor_fields Sim.P0))
    by (left; reflexivity).
  destruct (oversized_field_is_rejected Sim.P0 Sim.longname_descriptor)
    as (Hreject & Hstored & _).
  destruct (Hreject "name" MAX_RESOURCE_NAME_LEN Hin eq_refl eq_refl) as [Hparse Hreg].
  split; [exact Hin |]. split; [reflexivity |]. split; [reflexivity |].
  split; [exact Hparse |].
  split.
  - intros i. exact (proj1 (Hstored i) eq_refl eq_refl).
  - destruct (Hreg SF_CB_NUMERIC (Sim.iio_callbacks Sim.GetTemperature) 77%nat
                   Sim.booted) as (s' & Hrun & _ & Hpool & _).
    exists s'. split; [exact Hrun | exact Hpool].
Defined.

(** C4: a failed registration is to leave no entry behind.  On the
    device, a registration with a valid descriptor and payload kind 7
    returns [LE_FAULT] with the counter and the trace as at boot, but the
    pool, empty at boot, now has one block in use: the block allocated for
    the entry was not released. *)
Lemma default_label_keeps_block :
  valid_descriptor Sim.P0 Sim.serial_descriptor = true
  /\ SensorHandlerPool Sim.booted = ∅
  /\ exists s',
      sensorFw_RegisterCallback Sim.serial_descriptor 7
        (Sim.dm_callbacks Sim.GetSerialNumber) NULL Sim.booted
      = Returns LE_FAULT s'
      /\ RegisteredSensorCount s' = 0
      /\ trace s' = []
      /\ size (SensorHandlerPool s') = 1%nat.
Proof.
  split; [reflexivity |]. split; [reflexivity |].
  eexists. split; [vm_compute; reflexivity |].
  repeat split.
Qed.

(** C9 on the device: the hub refuses ["down/SN"]; the registration ends
    in the failed assertion and returns nothing to the plugin. *)
Lemma refused_creation_does_not_return :
  io_CreateInput Sim.P0 [] "down/SN" IO_DATA_TYPE_STRING "" = LE_FAULT
  /\ (exists s',
         sensorFw_RegisterCallback Sim.refused_descriptor SF_CB_STRING
           (Sim.dm_callbacks Sim.GetSerialNumber) NULL Sim.booted
         = Fatal s')
  /\ (forall r s',
         sensorFw_RegisterCallback Sim.refused_descriptor SF_CB_STRING
           (Sim.dm_callbacks Sim.GetSerialNumber) NULL Sim.booted
         <> Returns r s').
Proof.
  split; [reflexivity |].
  assert (H : exists s',
             sensorFw_RegisterCallback Sim.refused_descriptor SF_CB_STRING
               (Sim.dm_callbacks Sim.GetSerialNumber) NULL Sim.booted
             = Fatal s') by (eexists; vm_compute; reflexivity).
  split; [exact H |].
  destruct H as [s0 H]. intros r s'. rewrite H. discriminate.
Qed.

Lemma refused_creation_is_fatal_witness :
  valid_descriptor Sim.P0 Sim.refused_descriptor = true
  /\ switch_type SF_CB_STRING = Some IO_DATA_TYPE_STRING
  /\ creation_ok (next_block Sim.booted)
       (new_entry Sim.refused_descriptor IO_DATA_TYPE_STRING
          (Sim.dm_callbacks Sim.GetSerialNumber) NULL Sim.booted)
       (trace Sim.booted) = false
  /\ exists s',
      sensorFw_RegisterCallback Sim.refused_descriptor SF_CB_STRING
        (Sim.dm_callbacks Sim.GetSerialNumber) NULL Sim.booted
      = Fatal s'.
Proof.
  assert (Hc : creation_ok (next_block Sim.booted)
       (new_entry Sim.refused_descriptor IO_DATA_TYPE_STRING
          (Sim.dm_callbacks Sim.GetSerialNumber) NULL Sim.booted)
       (trace Sim.booted) = false) by reflexivity.
  split; [reflexivity |]. split; [reflexivity |]. split; [exact Hc |].
  apply (refused_creation_is_fatal Sim.P0 Sim.refused_descriptor SF_CB_STRING
           IO_DATA_TYPE_STRING); [reflexivity | reflexivity | left; exact Hc].
Defined.

(** C5 on the device, built with the reduced footprint (a pool of 100):
    101 sensors are registered and the 101st registration returns [LE_OK]
    like the hundred before it, with one pool overflow counted. *)
Lemma registration_101_succeeds :
  SENSOR_HANDLER_POOL_SIZE (LE_CONFIG_REDUCE_FOOTPRINT Sim.P0) = 100%nat
  /\ Sim.result_of (register_all (Sim.fleet 101) Sim.booted)
     = Some (replicate 101 LE_OK)
  /\ size (SensorHandlerPool (Sim.state_of (register_all (Sim.fleet 101) Sim.booted)))
     = 101%nat
  /\ numOverflows (Sim.state_of (register_all (Sim.fleet 101) Sim.booted)) = 1%nat.
Proof. vm_compute. auto. Qed.

Lemma registrations_beyond_capacity_succeed_witness :
  hub_accepts Bench.easy_small
  /\ Forall (valid_request Bench.easy_small) (Sim.fleet 101)
  /\ SENSOR_HANDLER_POOL_SIZE (LE_CONFIG_REDUCE_FOOTPRINT Bench.easy_small) = 100%nat
  /\ exists s',
      register_all (Sim.fleet 101) (COMPONENT_INIT Bench.easy_small)
      = Returns (replicate 101 LE_OK) s'
      /\ size (SensorHandlerPool s') = 101%nat
      /\ poolBlocks s' = 101%nat
      /\ numOverflows s' = 1%nat.
Proof.
  assert (Hhub : hub_accepts Bench.easy_small) by (repeat split).
  assert (Hall : Forall (valid_request Bench.easy_small) (Sim.fleet 101)).
  { assert (Hb : forallb
                   (fun q => valid_descriptor Bench.easy_small (req_json q)
                             && match switch_type (req_type q) with
                                | Some _ => true
                                | None => false
                                end)
                   (Sim.fleet 101) = true) by (vm_compute; reflexivity).
    rewrite forallb_forall in Hb. apply List.Forall_forall. intros q Hq.
    specialize (Hb q Hq). apply andb_true_iff in Hb. destruct Hb as [Hv Hk].
    split; [exact Hv |]. destruct (switch_type (req_type q)); [eauto | discriminate]. }
  split; [exact Hhub |]. split; [exact Hall |]. split; [reflexivity |].
  destruct (registrations_beyond_capacity_succeed Bench.easy_small (Sim.fleet 101)
              Hhub Hall) as (s' & Hrun & Hsize & Hblocks & Hover).
  exists s'. split; [exact Hrun |]. split; [exact Hsize |].
  split; [exact Hblocks | exact Hover].
Defined.

Lemma sim_copy_bounded : copy_bounded Sim.P0.
Proof.
  intros src destSize d. cbn. unfold Sim.sim_le_utf8_Copy.
  destruct (Nat.ltb_spec (String.length src) destSize); intros [= <-]; assumption.
Defined.

(** C1 on the device: the serial-number sensor is registered with a
    sample callback that fails.  The descriptor is valid and the
    registration returns [LE_OK] with the counter at 1; the callback was
    called once; the hub has been pushed nothing. *)
Lemma registration_with_failing_sample :
  valid_descriptor Sim.P0 Sim.serial_descriptor = true
  /\ Sim.result_of
       (sensorFw_RegisterCallback Sim.serial_descriptor SF_CB_STRING
          (Sim.dm_callbacks Sim.BrokenSensor) NULL Sim.booted) = Some LE_OK
  /\ RegisteredSensorCount
       (Sim.state_of
          (sensorFw_RegisterCallback Sim.serial_descriptor SF_CB_STRING
             (Sim.dm_callbacks Sim.BrokenSensor) NULL Sim.booted)) = 1
  /\ trace
       (Sim.state_of
          (sensorFw_RegisterCallback Sim.serial_descriptor SF_CB_STRING
             (Sim.dm_callbacks Sim.BrokenSensor) NULL Sim.booted))
     = [E_io_CreateInput "device/SN" IO_DATA_TYPE_STRING "";
        E_pfString Sim.BrokenSensor None MAX_RES_STRING_LEN NULL]
  /\ pushes
       (trace
          (Sim.state_of
             (sensorFw_RegisterCallback Sim.serial_descriptor SF_CB_STRING
                (Sim.dm_callbacks Sim.BrokenSensor) NULL Sim.booted))) = [].
Proof. vm_compute. auto 10. Qed.

Lemma registration_samples_once_witness :
  valid_descriptor Sim.P0 Sim.temperature_descriptor = true
  /\ switch_type SF_CB_NUMERIC = Some IO_DATA_TYPE_NUMERIC
  /\ hub_lets_through Sim.temperature_descriptor IO_DATA_TYPE_NUMERIC
       (Sim.dm_callbacks Sim.GetTemperature) NULL Sim.booted = true
  /\ 0 <= RegisteredSensorCount Sim.booted < INT_MAX
  /\ exists s',
      sensorFw_RegisterCallback Sim.temperature_descriptor SF_CB_NUMERIC
        (Sim.dm_callbacks Sim.GetTemperature) NULL Sim.booted = Returns LE_OK s'
      /\ RegisteredSensorCount s' = RegisteredSensorCount Sim.booted + 1.
Proof.
  assert (Hc : 0 <= RegisteredSensorCount Sim.booted < INT_MAX)
    by (split; [apply Z.le_refl | reflexivity]).
  assert (Hv : valid_descriptor Sim.P0 Sim.temperature_descriptor = true)
    by (vm_compute; reflexivity).
  assert (Hhub : hub_lets_through Sim.temperature_descriptor IO_DATA_TYPE_NUMERIC
                   (Sim.dm_callbacks Sim.GetTemperature) NULL Sim.booted = true)
    by (vm_compute; reflexivity).
  split; [exact Hv |]. split; [reflexivity |]. split; [exact Hhub |].
  split; [exact Hc |].
  destruct (registration_samples_once Sim.P0 Sim.temperature_descriptor SF_CB_NUMERIC
              IO_DATA_TYPE_NUMERIC (Sim.dm_callbacks Sim.GetTemperature) NULL Sim.booted
              Hv eq_refl Hhub Hc)
    as (s' & h & e & r & v & Hrun & Hcount & _).
  exists s'. split; [exact Hrun | exact Hcount].
Defined.

(** C7 on the device: a read-once sensor whose callback answers the
    first call only.  Registration returns [LE_OK] and pushes the first
    sample; the explicit re-sample calls the callback again, returns
    [LE_FAULT] and pushes nothing more. *)
Lemma resample_with_failing_callback :
  Sim.result_of
    (sensorFw_RegisterCallback Sim.serial_descriptor SF_CB_STRING
       (Sim.dm_callbacks Sim.FlakySensor) NULL Sim.booted) = Some LE_OK
  /\ pushes (trace Sim.with_flaky) = [E_io_PushString "device/SN" "first"]
  /\ Sim.result_of (sensorFw_PushSample 1%nat Sim.with_flaky) = Some LE_FAULT
  /\ trace (Sim.state_of (sensorFw_PushSample 1%nat Sim.with_flaky))
     = (trace Sim.with_flaky
        ++ [E_pfString Sim.FlakySensor None MAX_RES_STRING_LEN NULL])%list
  /\ pushes (trace (Sim.state_of (sensorFw_PushSample 1%nat Sim.with_flaky)))
     = [E_io_PushString "device/SN" "first"].
Proof. vm_compute. auto 10. Qed.

Lemma registration_creates_resource_witness :
  copy_bounded Sim.P0
  /\ sensorFw_RegisterCallback Sim.serial_descriptor SF_CB_STRING
       (Sim.dm_callbacks Sim.GetSerialNumber) NULL Sim.booted
     = Returns LE_OK Sim.with_serial
  /\ sensorFw_PushSample 1%nat Sim.with_serial
     = Returns LE_OK
         (with_trace
            (trace Sim.with_serial
             ++ [E_pfString Sim.GetSerialNumber None MAX_RES_STRING_LEN NULL;
                 E_io_PushString "device/SN" "SN-0042"])
            Sim.with_serial)
  /\ sensorFw_RegisterCallback Sim.accel_descriptor SF_CB_NUMERIC
       (Sim.iio_callbacks Sim.GetTemperature) 77%nat Sim.booted
     = Returns LE_OK Sim.with_accel
  /\ (exists rest,
         trace Sim.with_accel
         = ([E_psensor_Create "acc/x" IO_DATA_TYPE_NUMERIC "m/s2" 1%nat;
             E_io_PushBoolean "acc/x/enable" true;
             E_io_PushNumeric "acc/x/period" 60] ++ rest)%list)
  /\ In 1%nat (periodic_targets (trace Sim.with_accel))
  /\ SampleSensor 1%nat 1%nat Sim.with_accel
     = Returns tt
         (with_trace
            (trace Sim.with_accel
             ++ [E_pfNumeric Sim.GetTemperature sizeof_double 77%nat;
                 E_psensor_PushNumeric 1%nat 42])
            Sim.with_accel).
Proof.
  assert (Hrun : sensorFw_RegisterCallback Sim.serial_descriptor SF_CB_STRING
                   (Sim.dm_callbacks Sim.GetSerialNumber) NULL Sim.booted
                 = Returns LE_OK Sim.with_serial) by (vm_compute; reflexivity).
  assert (Hrun2 : sensorFw_RegisterCallback Sim.accel_descriptor SF_CB_NUMERIC
                    (Sim.iio_callbacks Sim.GetTemperature) 77%nat Sim.booted
                  = Returns LE_OK Sim.with_accel) by (vm_compute; reflexivity).
  split; [exact sim_copy_bounded |]. split; [exact Hrun |].
  split.
  - destruct (registration_creates_resource Sim.P0 Sim.serial_descriptor SF_CB_STRING
                (Sim.dm_callbacks Sim.GetSerialNumber) NULL Sim.booted Sim.with_serial
                sim_copy_bounded Hrun) as (h & rest & Hh & _ & Honce).
    assert (Hentry : SensorHandlerPool Sim.with_serial !! next_block Sim.booted
                     = Some (mk_handler
                               (mk_sensorInfo 0 "" "device/SN" true ""
                                              IO_DATA_TYPE_STRING NULL)
                               (mk_callbacks NULL NULL Sim.GetSerialNumber) NULL))
      by (vm_compute; reflexivity).
    rewrite Hentry in Hh. injection Hh as <-.
    destruct (Honce eq_refl) as (_ & _ & _ & Hresample).
    destruct (Hresample Sim.with_serial LE_OK (V_string "SN-0042") Hentry eq_refl)
      as (e & He & _ & _ & Hpush).
    injection He as <-. exact Hpush.
  - split; [exact Hrun2 |].
    destruct (registration_creates_resource Sim.P0 Sim.accel_descriptor SF_CB_NUMERIC
                (Sim.iio_callbacks Sim.GetTemperature) 77%nat Sim.booted Sim.with_accel
                sim_copy_bounded Hrun2) as (h & rest & Hh & Hperiodic & _).
    assert (Hentry : SensorHandlerPool Sim.with_accel !! next_block Sim.booted
                     = Some (mk_handler
                               (mk_sensorInfo 0 "acc" "acc/x" false "m/s2"
                                              IO_DATA_TYPE_NUMERIC 1%nat)
                               (mk_callbacks NULL Sim.ConfigIioSensor
                                             Sim.GetTemperature)
                               77%nat)) by (vm_compute; reflexivity).
    rewrite Hentry in Hh. injection Hh as <-.
    destruct (Hperiodic eq_refl) as (Htrace & _ & _ & Htarget & Htick).
    split; [exists rest; exact Htrace |]. split; [exact Htarget |].
    exact (Htick Sim.with_accel Hentry).
Defined.

Lemma sim_with_accel_subscribers :
  forall contextPtr,
    In contextPtr (json_push_handlers (trace Sim.with_accel) "acc/x/config") ->
    is_NULL contextPtr = true \/ is_Some (SensorHandlerPool Sim.with_accel !! contextPtr).
Proof.
  assert (Hsub : json_push_handlers (trace Sim.with_accel) "acc/x/config" = [1%nat])
    by (vm_compute; reflexivity).
  intros contextPtr Hin. rewrite Hsub in Hin. destruct Hin as [<- | []].
  right. vm_compute. eauto.
Defined.

Lemma sim_with_accel_twice_subscribers :
  forall c,
    In c (json_push_handlers (trace Bench.with_accel_twice) "acc/x/config") ->
    is_NULL c = true \/ is_Some (SensorHandlerPool Bench.with_accel_twice !! c).
Proof.
  assert (Hsub : json_push_handlers (trace Bench.with_accel_twice) "acc/x/config"
                 = [1%nat; 2%nat]) by (vm_compute; reflexivity).
  intros c Hin. rewrite Hsub in Hin.
  destruct Hin as [<- | [<- | []]]; right; vm_compute; eauto.
Defined.

(** C3 on the device: the accelerometer channel is registered twice, with
    contexts 77 and 78.  Both registrations return [LE_OK], both entries
    are subscribed at ["acc/x/config"], and one document pushed there makes
    two calls of the config callback, not one. *)
Lemma second_registration_doubles_config_calls :
  Sim.result_of
    (sensorFw_RegisterCallback Sim.accel_descriptor SF_CB_NUMERIC
       (Sim.iio_callbacks Sim.GetTemperature) 77%nat Sim.booted) = Some LE_OK
  /\ Sim.result_of
       (sensorFw_RegisterCallback Sim.accel_descriptor SF_CB_NUMERIC
          (Sim.iio_callbacks Sim.GetTemperature) 78%nat Sim.with_accel) = Some LE_OK
  /\ json_push_handlers (trace Bench.with_accel_twice) "acc/x/config" = [1%nat; 2%nat]
  /\ hub_external_json_push (P:=Sim.P0) "acc/x/config" 0 "{x: 5}" Bench.with_accel_twice
     = Returns tt
         (with_trace
            (trace Bench.with_accel_twice
             ++ [E_pfString Sim.ConfigIioSensor (Some "{x: 5}") 6 77%nat;
                 E_pfString Sim.ConfigIioSensor (Some "{x: 5}") 6 78%nat])
            Bench.with_accel_twice).
Proof. vm_compute. auto. Qed.

Lemma config_push_reaches_plugin_witness :
  copy_bounded Sim.P0
  /\ sensorFw_RegisterCallback Sim.accel_descriptor SF_CB_NUMERIC
       (Sim.iio_callbacks Sim.GetTemperature) 77%nat Sim.booted
     = Returns LE_OK Sim.with_accel
  /\ json_push_handlers (trace Sim.with_accel) "acc/x/config" = [1%nat]
  /\ hub_external_json_push (P:=Sim.P0) "acc/x/config" 0 "{x: 5}" Sim.with_accel
     = Returns tt
         (with_trace
            (trace Sim.with_accel
             ++ [E_pfString Sim.ConfigIioSensor (Some "{x: 5}") 6 77%nat])
            Sim.with_accel)
  /\ In 1%nat (json_push_handlers (trace Bench.with_accel_twice) "acc/x/config")
  /\ exists calls,
      hub_external_json_push (P:=Sim.P0) "acc/x/config" 0 "{x: 5}"
        Bench.with_accel_twice
      = Returns tt (with_trace (trace Bench.with_accel_twice ++ calls)
                               Bench.with_accel_twice)
      /\ length calls = 2%nat
      /\ In (E_pfString Sim.ConfigIioSensor (Some "{x: 5}") 6 77%nat) calls.
Proof.
  assert (Hrun : sensorFw_RegisterCallback Sim.accel_descriptor SF_CB_NUMERIC
                   (Sim.iio_callbacks Sim.GetTemperature) 77%nat Sim.booted
                 = Returns LE_OK Sim.with_accel) by (vm_compute; reflexivity).
  assert (Hsub : json_push_handlers (trace Sim.with_accel) "acc/x/config" = [1%nat])
    by (vm_compute; reflexivity).
  assert (Hin : In 1%nat (json_push_handlers (trace Bench.with_accel_twice)
                            "acc/x/config")) by (vm_compute; auto).
  split; [exact sim_copy_bounded |]. split; [exact Hrun |]. split; [exact Hsub |].
  destruct (config_push_reaches_plugin Sim.P0 Sim.accel_descriptor SF_CB_NUMERIC
              (Sim.iio_callbacks Sim.GetTemperature) 77%nat Sim.booted Sim.with_accel
              sim_copy_bounded Hrun) as (h & Hh & Hrest).
  assert (Hentry : SensorHandlerPool Sim.with_accel !! next_block Sim.booted
                   = Some (mk_handler
                             (mk_sensorInfo 0 "acc" "acc/x" false "m/s2"
                                            IO_DATA_TYPE_NUMERIC 1%nat)
                             (mk_callbacks NULL Sim.ConfigIioSensor Sim.GetTemperature)
                             77%nat)) by (vm_compute; reflexivity).
  assert (Hentry2 : SensorHandlerPool Bench.with_accel_twice !! next_block Sim.booted
                    = Some (mk_handler
                              (mk_sensorInfo 0 "acc" "acc/x" false "m/s2"
                                             IO_DATA_TYPE_NUMERIC 1%nat)
                              (mk_callbacks NULL Sim.ConfigIioSensor Sim.GetTemperature)
                              77%nat)) by (vm_compute; reflexivity).
  rewrite Hentry in Hh. injection Hh as <-.
  destruct (Hrest eq_refl eq_refl) as (_ & _ & Hpush).
  split.
  - destruct (Hpush Sim.with_accel Hentry sim_with_accel_subscribers 0 "{x: 5}")
      as (Hone & _ & _ & Hsole & _).
    cbv zeta in Hone, Hsole. rewrite (Hsole Hsub) in Hone. exact Hone.
  - split; [exact Hin |].
    destruct (Hpush Bench.with_accel_twice Hentry2 sim_with_accel_twice_subscribers 0
                    "{x: 5}") as (Htwo & Hlen & Hmine & _).
    cbv zeta in Htwo, Hlen, Hmine.
    eexists. split; [exact Htwo |]. split; [| exact (Hmine Hin)].
    rewrite Hlen. vm_compute. reflexivity.
Defined.

(** * The further properties on the simulated device *)

Lemma sim_copy_exact : copy_exact Sim.P0.
Proof.
  intros src destSize d. cbn. unfold Sim.sim_le_utf8_Copy.
  destruct (Nat.ltb (String.length src) destSize); intros [= <-]; reflexivity.
Defined.


Lemma register_frame_witness :
  sensorFw_RegisterCallback Sim.temperature_descriptor SF_CB_NUMERIC
    (Sim.dm_callbacks Sim.GetTemperature) NULL Sim.with_serial
  = Returns LE_OK Bench.with_two
  /\ SensorHandlerPool Bench.with_two !! 1%nat = SensorHandlerPool Sim.with_serial !! 1%nat
  /\ exists new, trace Bench.with_two = (trace Sim.with_serial ++ new)%list.
Proof.
  assert (Hrun : sensorFw_RegisterCallback Sim.temperature_descriptor SF_CB_NUMERIC
                   (Sim.dm_callbacks Sim.GetTemperature) NULL Sim.with_serial
                 = Returns LE_OK Bench.with_two) by (vm_compute; reflexivity).
  split; [exact Hrun |].
  destruct (register_frame Sim.P0 _ _ _ _ _ _ _ Hrun) as (Hother & _ & Htrace).
  split; [| exact Htrace].
  apply Hother. vm_compute. discriminate.
Defined.

Lemma register_all_accounts_witness :
  register_all Bench.mixed Sim.booted = Returns [LE_OK; LE_FAULT; LE_FAULT] Bench.after_mixed
  /\ 0 <= RegisteredSensorCount Sim.booted
  /\ RegisteredSensorCount Sim.booted + Z.of_nat (length Bench.mixed) <= INT_MAX
  /\ RegisteredSensorCount Bench.after_mixed
     = RegisteredSensorCount Sim.booted + Z.of_nat (ok_count [LE_OK; LE_FAULT; LE_FAULT])
  /\ size (SensorHandlerPool Bench.after_mixed)
     = (size (SensorHandlerPool Sim.booted) + length (parsing Sim.P0 Bench.mixed))%nat.
Proof.
  assert (Hrun : register_all Bench.mixed Sim.booted
                 = Returns [LE_OK; LE_FAULT; LE_FAULT] Bench.after_mixed)
    by (vm_compute; reflexivity).
  assert (H0 : 0 <= RegisteredSensorCount Sim.booted) by (vm_compute; discriminate).
  assert (Hmax : RegisteredSensorCount Sim.booted + Z.of_nat (length Bench.mixed)
                 <= INT_MAX) by (vm_compute; discriminate).
  split; [exact Hrun |]. split; [exact H0 |]. split; [exact Hmax |].
  destruct (register_all_accounts Sim.P0 _ _ _ _ Hrun H0 Hmax) as (_ & Hcount & Hsize).
  split; [exact Hcount | exact Hsize].
Defined.

Lemma sim_with_serial_pool :
  SensorHandlerPool Sim.with_serial
  = {[1%nat := mk_handler
                 (mk_sensorInfo 0 "" "device/SN" true "" IO_DATA_TYPE_STRING NULL)
                 (mk_callbacks NULL NULL Sim.GetSerialNumber) NULL]}.
Proof. vm_compute. reflexivity. Defined.

Lemma register_keeps_ids_witness :
  sensorFw_RegisterCallback Sim.temperature_descriptor SF_CB_NUMERIC
    (Sim.dm_callbacks Sim.GetTemperature) NULL Sim.with_serial
  = Returns LE_OK Bench.with_two
  /\ 0 <= RegisteredSensorCount Sim.with_serial < INT_MAX
  /\ ids_issued Sim.with_serial /\ ids_distinct Sim.with_serial
  /\ ids_issued Bench.with_two /\ ids_distinct Bench.with_two
  /\ (exists h,
         SensorHandlerPool Bench.with_two !! 2%nat = Some h /\ sensorId (info h) = 1)
  /\ RegisteredSensorCount Bench.with_two = 2.
Proof.
  assert (Hrun : sensorFw_RegisterCallback Sim.temperature_descriptor SF_CB_NUMERIC
                   (Sim.dm_callbacks Sim.GetTemperature) NULL Sim.with_serial
                 = Returns LE_OK Bench.with_two) by (vm_compute; reflexivity).
  assert (Hc : 0 <= RegisteredSensorCount Sim.with_serial < INT_MAX)
    by (split; [vm_compute; discriminate | reflexivity]).
  assert (Hissued : ids_issued Sim.with_serial).
  { intros p h Hp. rewrite sim_with_serial_pool in Hp.
    apply lookup_singleton_Some in Hp. destruct Hp as [_ <-].
    split; [vm_compute; discriminate | reflexivity]. }
  assert (Hdistinct : ids_distinct Sim.with_serial).
  { intros p q h h' Hp Hq _. rewrite sim_with_serial_pool in Hp, Hq.
    apply lookup_singleton_Some in Hp, Hq. destruct Hp as [<- _], Hq as [<- _].
    reflexivity. }
  split; [exact Hrun |]. split; [exact Hc |].
  split; [exact Hissued |]. split; [exact Hdistinct |].
  destruct (register_keeps_ids Sim.P0 _ _ _ _ _ _ _ Hrun (or_introl eq_refl) Hc
              Hissued Hdistinct) as (Hi & Hd & Hnew).
  split; [exact Hi |]. split; [exact Hd |].
  destruct (Hnew eq_refl) as (h & Hh & Hid & Hcount).
  split; [exists h; split; [exact Hh | exact Hid] | exact Hcount].
Defined.

Lemma dispatch_only_calls_witness :
  SensorHandlerPool Sim.with_accel !! 1%nat
  = Some (mk_handler
            (mk_sensorInfo 0 "acc" "acc/x" false "m/s2" IO_DATA_TYPE_NUMERIC 1%nat)
            (mk_callbacks NULL Sim.ConfigIioSensor Sim.GetTemperature) 77%nat)
  /\ is_NULL Sim.GetTemperature = false
  /\ is_NULL Sim.ConfigIioSensor = false
  /\ (exists r new,
         PushData 1%nat Sim.with_accel
         = Returns r (with_trace (trace Sim.with_accel ++ new) Sim.with_accel)
         /\ (r = LE_OK \/ r = LE_FAULT)
         /\ forallb is_dispatch new = true)
  /\ (exists r new,
         PushConfig 1%nat Sim.with_accel
         = Returns r (with_trace (trace Sim.with_accel ++ new) Sim.with_accel)
         /\ (r = LE_OK \/ r = LE_FAULT)
         /\ forallb is_dispatch new = true)
  /\ exists new,
      ConfigUpdateHandler (P:=Sim.P0) 0 "{x: 5}" 1%nat Sim.with_accel
      = Returns tt (with_trace (trace Sim.with_accel ++ new) Sim.with_accel)
      /\ forallb is_callback new = true.
Proof.
  assert (Hentry : SensorHandlerPool Sim.with_accel !! 1%nat
                   = Some (mk_handler
                             (mk_sensorInfo 0 "acc" "acc/x" false "m/s2"
                                            IO_DATA_TYPE_NUMERIC 1%nat)
                             (mk_callbacks NULL Sim.ConfigIioSensor Sim.GetTemperature)
                             77%nat)) by (vm_compute; reflexivity).
  split; [exact Hentry |]. split; [reflexivity |]. split; [reflexivity |].
  destruct (dispatch_only_calls Sim.P0 Sim.with_accel 1%nat _ Hentry)
    as (Hdata & Hconfig & Hupdate).
  split; [exact (Hdata eq_refl) |]. split; [exact (Hconfig eq_refl) |].
  exact (Hupdate eq_refl 0 "{x: 5}" eq_refl).
Defined.

Lemma external_push_reaches_every_subscriber_witness :
  json_push_handlers (trace Bench.with_accel_twice) "acc/x/config" = [1%nat; 2%nat]
  /\ (forall contextPtr,
         In contextPtr (json_push_handlers (trace Bench.with_accel_twice)
                          "acc/x/config") ->
         is_NULL contextPtr = true
         \/ is_Some (SensorHandlerPool Bench.with_accel_twice !! contextPtr))
  /\ exists s',
      hub_external_json_push (P:=Sim.P0) "acc/x/config" 0 "{x: 5}"
        Bench.with_accel_twice = Returns tt s'
      /\ trace s'
         = (trace Bench.with_accel_twice
            ++ [E_pfString Sim.ConfigIioSensor (Some "{x: 5}") 6 77%nat;
                E_pfString Sim.ConfigIioSensor (Some "{x: 5}") 6 78%nat])%list
      /\ pushes (trace s') = pushes (trace Bench.with_accel_twice)
      /\ SensorHandlerPool s' = SensorHandlerPool Bench.with_accel_twice
      /\ RegisteredSensorCount s' = RegisteredSensorCount Bench.with_accel_twice.
Proof.
  split; [vm_compute; reflexivity |].
  split; [exact sim_with_accel_twice_subscribers |].
  destruct (external_push_reaches_every_subscriber Sim.P0 "acc/x/config" 0 "{x: 5}"
              Bench.with_accel_twice sim_with_accel_twice_subscribers)
    as (s' & Hrun & Htrace & Hrest).
  exists s'. split; [exact Hrun |]. split; [| exact Hrest].
  rewrite Htrace. f_equal.
Defined.

Lemma register_keeps_linked_witness :
  linked Sim.booted
  /\ sensorFw_RegisterCallback Sim.accel_descriptor SF_CB_NUMERIC
       (Sim.iio_callbacks Sim.GetTemperature) 77%nat Sim.booted
     = Returns LE_OK Sim.with_accel
  /\ linked Sim.with_accel.
Proof.
  assert (Hrun : sensorFw_RegisterCallback Sim.accel_descriptor SF_CB_NUMERIC
                   (Sim.iio_callbacks Sim.GetTemperature) 77%nat Sim.booted
                 = Returns LE_OK Sim.with_accel) by (vm_compute; reflexivity).
  destruct (register_keeps_linked Sim.P0) as [Hinit Hstep].
  split; [exact Hinit |]. split; [exact Hrun |].
  exact (Hstep _ _ _ _ _ _ _ Hinit Hrun).
Defined.

Lemma sim_with_accel_linked : linked Sim.with_accel.
Proof.
  assert (Hsub : subscribed (trace Sim.with_accel) = [1%nat]) by (vm_compute; reflexivity).
  assert (Hper : periodic_targets (trace Sim.with_accel) = [1%nat])
    by (vm_compute; reflexivity).
  split; intros contextPtr Hin; [rewrite Hsub in Hin | rewrite Hper in Hin];
    destruct Hin as [<- | []]; (split; [reflexivity | vm_compute; eauto]).
Defined.

Lemma linked_stimuli_return_witness :
  linked Sim.with_accel
  /\ (exists s',
         hub_external_json_push (P:=Sim.P0) "acc/x/config" 0 "{x: 5}" Sim.with_accel
         = Returns tt s' /\ linked s')
  /\ In 1%nat (periodic_targets (trace Sim.with_accel))
  /\ exists s', SampleSensor 1%nat 1%nat Sim.with_accel = Returns tt s' /\ linked s'.
Proof.
  assert (Hin : In 1%nat (periodic_targets (trace Sim.with_accel)))
    by (vm_compute; auto).
  destruct (linked_stimuli_return Sim.P0 Sim.with_accel sim_with_accel_linked)
    as [Hpush Htick].
  split; [exact sim_with_accel_linked |].
  split; [exact (Hpush "acc/x/config" 0 "{x: 5}") |].
  split; [exact Hin |].
  exact (Htick 1%nat 1%nat Hin).
Defined.

Lemma registered_entry_is_initialised_witness :
  sensorFw_RegisterCallback Sim.accel_descriptor SF_CB_NUMERIC
    (Sim.iio_callbacks Sim.GetTemperature) 77%nat Sim.booted
  = Returns LE_OK Sim.with_accel
  /\ exists h,
      SensorHandlerPool Sim.with_accel !! next_block Sim.booted = Some h
      /\ sensorId (info h) = 0
      /\ name (info h) = "acc" /\ path (info h) = "acc/x" /\ unit (info h) = "m/s2"
      /\ isReadOnce (info h) = false
      /\ is_NULL (sensorRef (info h)) = false
      /\ configCb (callbacks h) = Sim.ConfigIioSensor
      /\ pluginContextPtr h = 77%nat.
Proof.
  assert (Hrun : sensorFw_RegisterCallback Sim.accel_descriptor SF_CB_NUMERIC
                   (Sim.iio_callbacks Sim.GetTemperature) 77%nat Sim.booted
                 = Returns LE_OK Sim.with_accel) by (vm_compute; reflexivity).
  split; [exact Hrun |].
  destruct (registered_entry_is_initialised Sim.P0 _ _ _ _ _ _ Hrun)
    as (h & Hh & Hid & _ & Hn & Hp & Hu & Hro & Href & Hcfg & _ & Hctx & _).
  exists h. split; [exact Hh |]. split; [exact Hid |].
  split; [exact Hn |]. split; [exact Hp |]. split; [exact Hu |].
  split; [exact Hro |]. split; [rewrite Href; exact Hro |].
  split; [exact Hcfg | exact Hctx].
Defined.

Lemma no_config_setup_witness :
  descriptor_read_once Sim.P0 Bench.once_descriptor = true
  /\ exists s',
      sensorFw_RegisterCallback Bench.once_descriptor SF_CB_NUMERIC
        (Sim.iio_callbacks Sim.GetTemperature) 77%nat Sim.booted = Returns LE_OK s'
      /\ exists new,
          trace s' = (trace Sim.booted ++ new)%list
          /\ forallb (fun e => negb (is_config_setup e)) new = true
          /\ (length (plugin_calls new) <= 1)%nat
          /\ forall p : string,
              json_push_handlers (trace s') p = json_push_handlers (trace Sim.booted) p.
Proof.
  assert (Hro : descriptor_read_once Sim.P0 Bench.once_descriptor = true)
    by (vm_compute; reflexivity).
  split; [exact Hro |].
  exists (Sim.state_of
            (sensorFw_RegisterCallback Bench.once_descriptor SF_CB_NUMERIC
               (Sim.iio_callbacks Sim.GetTemperature) 77%nat Sim.booted)).
  assert (Hrun : sensorFw_RegisterCallback Bench.once_descriptor SF_CB_NUMERIC
                   (Sim.iio_callbacks Sim.GetTemperature) 77%nat Sim.booted
                 = Returns LE_OK
                     (Sim.state_of
                        (sensorFw_RegisterCallback Bench.once_descriptor SF_CB_NUMERIC
                           (Sim.iio_callbacks Sim.GetTemperature) 77%nat Sim.booted)))
    by (vm_compute; reflexivity).
  split; [exact Hrun |].
  exact (no_config_setup Sim.P0 _ _ _ _ _ _ _ Hrun (or_intror Hro)).
Defined.

(** * The plugins on the bench *)

Lemma GetIiounit_first_match_witness :
  Iio.occurs "accel" "in_accel_x_raw"
  /\ Iio.GetIiounit "in_accel_x_raw" = "m/s^2"
  /\ Iio.GetIiounit "timestamp" = "".
Proof.
  assert (Hocc : Iio.occurs "accel" "in_accel_x_raw") by (exists "in_", "_x_raw"; reflexivity).
  split; [exact Hocc |].
  destruct (GetIiounit_first_match "in_accel_x_raw") as [_ Hfirst].
  split; [| reflexivity].
  apply (Hfirst (firstn 9 Iio.IioStandardUnit) (Iio.mk_iioUnits "accel" "m/s^2")
                (skipn 10 Iio.IioStandardUnit) eq_refl Hocc).
  intros r Hr Habs. apply strstr_None in Habs; [exact Habs |].
  cbn in Hr.
  repeat (destruct Hr as [<- | Hr]; [vm_compute; reflexivity |]).
  destruct Hr.
Defined.

Lemma CreateJsonDocument_fits_witness :
  Z.of_nat (String.length (Iio.descriptor_text "bmi160/accel_x" "bmi160/accel_x"
                                               "false" "m/s^2")) <= INT_MAX
  /\ Iio.CreateJsonDocument "" 1024 "bmi160/accel_x" "bmi160/accel_x" false "m/s^2"
     = (LE_OK,
        Iio.descriptor_text "bmi160/accel_x" "bmi160/accel_x" "false" "m/s^2")
  /\ fst (Iio.CreateJsonDocument "old" 64 "bmi160/accel_x" "bmi160/accel_x" false
                                 "m/s^2") = LE_OVERFLOW
  /\ String.length
       (snd (Iio.CreateJsonDocument "old" 64 "bmi160/accel_x" "bmi160/accel_x" false
                                    "m/s^2")) = 63%nat.
Proof.
  assert (Hmax : Z.of_nat (String.length
                             (Iio.descriptor_text "bmi160/accel_x" "bmi160/accel_x"
                                                  "false" "m/s^2")) <= INT_MAX)
    by (vm_compute; discriminate).
  split; [exact Hmax |].
  destruct (CreateJsonDocument_fits "" 1024 "bmi160/accel_x" "bmi160/accel_x" false
              "m/s^2" Hmax) as ([_ Hok] & Hwhole & _).
  destruct (CreateJsonDocument_fits "old" 64 "bmi160/accel_x" "bmi160/accel_x" false
              "m/s^2" Hmax) as (_ & _ & Hcut).
  split.
  - assert (Hfst : fst (Iio.CreateJsonDocument "" 1024 "bmi160/accel_x"
                          "bmi160/accel_x" false "m/s^2") = LE_OK)
      by (apply Hok; vm_compute; lia).
    specialize (Hwhole Hfst).
    destruct (Iio.CreateJsonDocument "" 1024 "bmi160/accel_x" "bmi160/accel_x" false
                "m/s^2") as [r d].
    cbn [fst snd] in Hfst, Hwhole. rewrite Hfst, Hwhole. reflexivity.
  - destruct Hcut as (Hover & _ & Hlen); [vm_compute; discriminate |].
    split; [exact Hover |]. apply Hlen. lia.
Defined.

Lemma GetAttribute_fault_only_for_zero_witness :
  0 < Bench.size_t_bits
  /\ - 2 ^ (Bench.size_t_bits - 1) <= fst (Iio.iio_channel_attr_read Bench.temp "input")
     < 2 ^ (Bench.size_t_bits - 1)
  /\ Iio.iio_channel_find_attr Bench.temp "input" = true
  /\ fst (Iio.iio_channel_attr_read Bench.temp "input") = -5
  /\ Iio.GetAttribute Sim.P0 Bench.atof Bench.size_t_bits Bench.temp "input" 0
     = (Iio.ATTRIBUTE_FOUND, 77).
Proof.
  assert (Hbits : 0 < Bench.size_t_bits) by reflexivity.
  assert (Hrange : - 2 ^ (Bench.size_t_bits - 1)
                   <= fst (Iio.iio_channel_attr_read Bench.temp "input")
                   < 2 ^ (Bench.size_t_bits - 1))
    by (split; [vm_compute; discriminate | reflexivity]).
  split; [exact Hbits |]. split; [exact Hrange |].
  split; [reflexivity |]. split; [reflexivity |].
  destruct (GetAttribute_fault_only_for_zero Sim.P0 Bench.atof Bench.size_t_bits
              Bench.temp "input" 0 Hbits Hrange eq_refl) as (_ & Hfound & _).
  apply Hfound. discriminate.
Defined.

Lemma SampleIioSensor_reports_no_failure_witness :
  Iio.SampleIioSensor Sim.P0 Bench.atof Z.mul Z.add Bench.size_t_bits 0
    (Some Bench.timestamp_context) 1 2 3 4
  = (LE_OK, 2 * 4 + 3 * 4)
  /\ Iio.SampleIioSensor Sim.P0 Bench.atof Z.mul Z.add Bench.size_t_bits 0
       (Some Bench.accel_context) 1 2 3 4
     = (LE_OK, 512 * 3 + 3 * 3).
Proof.
  split.
  - destruct (SampleIioSensor_reports_no_failure Sim.P0 Bench.atof Z.mul Z.add
                Bench.size_t_bits 0 (Some Bench.timestamp_context) 1 2 3 4)
      as [Husable _].
    destruct (Husable Bench.timestamp_context "bmi160" Bench.timestamp eq_refl eq_refl
                eq_refl) as (Hok & _ & Hvalue & _).
    specialize (Hvalue ltac:(discriminate) ltac:(discriminate) ltac:(discriminate)
                       ltac:(discriminate)).
    destruct (Iio.SampleIioSensor Sim.P0 Bench.atof Z.mul Z.add Bench.size_t_bits 0
                (Some Bench.timestamp_context) 1 2 3 4) as [r v].
    cbn [fst snd] in Hok, Hvalue. rewrite Hok, Hvalue. reflexivity.
  - destruct (SampleIioSensor_reports_no_failure Sim.P0 Bench.atof Z.mul Z.add
                Bench.size_t_bits 0 (Some Bench.accel_context) 1 2 3 4)
      as [Husable _].
    destruct (Husable Bench.accel_context "bmi160" Bench.accel_x eq_refl eq_refl
                eq_refl) as (Hok & _ & _ & Hvalue).
    specialize (Hvalue ltac:(discriminate)).
    destruct (Iio.SampleIioSensor Sim.P0 Bench.atof Z.mul Z.add Bench.size_t_bits 0
                (Some Bench.accel_context) 1 2 3 4) as [r v].
    cbn [fst snd] in Hok, Hvalue. rewrite Hok, Hvalue. reflexivity.
Defined.

Lemma bench_board_usable : Iio.context_usable Bench.board.
Proof.
  repeat constructor; cbn; eauto.
Defined.

Lemma IioPluginInit_registers_witness :
  Iio.context_usable Bench.board
  /\ Iio.iio_context_set_timeout Bench.board 5000 = 0
  /\ map req_context (Iio.requests_of Bench.size_t_bits 0%nat Bench.board)
     = [71%nat; 72%nat; 74%nat]
  /\ Iio.IioPluginInit Sim.P0 Bench.atof Bench.size_t_bits (Some Bench.board) 0%nat 0
       Bench.start Sim.booted
     = bind (register_all (Iio.requests_of Bench.size_t_bits 0%nat Bench.board))
            (fun _ => ret tt) Sim.booted.
Proof.
  split; [exact bench_board_usable |]. split; [reflexivity |].
  split; [vm_compute; reflexivity |].
  exact (IioPluginInit_registers Sim.P0 Bench.atof Bench.size_t_bits Bench.board 0%nat 0
           Bench.start Sim.booted bench_board_usable eq_refl).
Defined.

Lemma iio_long_name_is_rejected_witness :
  copy_exact Sim.P0 /\ copy_bounded Sim.P0
  /\ field_value Sim.P0
       (req_json (Iio.request_of 0%nat "lsm6ds3_accel_gyro" Bench.anglvel_x)) "name"
     = "lsm6ds3_accel_gyro/anglvel_x"
  /\ (MAX_RESOURCE_NAME_LEN <= String.length "lsm6ds3_accel_gyro/anglvel_x")%nat
  /\ exists s',
      sensorFw_RegisterCallback
        (req_json (Iio.request_of 0%nat "lsm6ds3_accel_gyro" Bench.anglvel_x))
        SF_CB_NUMERIC
        (req_callbacks (Iio.request_of 0%nat "lsm6ds3_accel_gyro" Bench.anglvel_x))
        74%nat Sim.booted = Returns LE_FAULT s'
      /\ SensorHandlerPool s' = SensorHandlerPool Sim.booted
      /\ RegisteredSensorCount s' = RegisteredSensorCount Sim.booted
      /\ trace s' = trace Sim.booted.
Proof.
  assert (Hname : field_value Sim.P0
                    (req_json (Iio.request_of 0%nat "lsm6ds3_accel_gyro" Bench.anglvel_x))
                    "name" = "lsm6ds3_accel_gyro/anglvel_x") by (vm_compute; reflexivity).
  assert (Hlong : (MAX_RESOURCE_NAME_LEN
                   <= String.length "lsm6ds3_accel_gyro/anglvel_x")%nat)
    by (vm_compute; lia).
  split; [exact sim_copy_exact |]. split; [exact sim_copy_bounded |].
  split; [exact Hname |]. split; [exact Hlong |].
  exact (iio_long_name_is_rejected Sim.P0 0%nat "lsm6ds3_accel_gyro" Bench.anglvel_x
           Sim.booted sim_copy_exact sim_copy_bounded (fun _ => Hname) Hlong).
Defined.

Lemma dm_init_registers_without_config_witness :
  Dm.COMPONENT_INIT Sim.P0 Sim.booted = Returns tt Bench.after_dm
  /\ 0 <= RegisteredSensorCount Sim.booted
  /\ RegisteredSensorCount Sim.booted + 23 <= INT_MAX
  /\ RegisteredSensorCount Bench.after_dm = 23
  /\ exists (rs : list le_result_t) (new : list (event (double Sim.P0))),
      register_all (map Dm.request_of Dm.DmHandlers) Sim.booted = Returns rs Bench.after_dm
      /\ length rs = 23%nat
      /\ trace Bench.after_dm = (trace Sim.booted ++ new)%list
      /\ forallb (fun e => negb (is_config_setup e)) new = true
      /\ (length (plugin_calls new) <= 23)%nat
      /\ (forall p : string,
             json_push_handlers (trace Bench.after_dm) p
             = json_push_handlers (trace Sim.booted) p)
      /\ RegisteredSensorCount Bench.after_dm
         = RegisteredSensorCount Sim.booted + Z.of_nat (ok_count rs)
      /\ size (SensorHandlerPool Bench.after_dm)
         = (size (SensorHandlerPool Sim.booted) + ok_count rs)%nat
      /\ exists by_row : list (list (event (double Sim.P0))),
          new = concat by_row
          /\ length by_row = 23%nat
          /\ Forall (fun calls => (length (plugin_calls calls) <= 1)%nat) by_row.
Proof.
  assert (Hrun : Dm.COMPONENT_INIT Sim.P0 Sim.booted = Returns tt Bench.after_dm)
    by (vm_compute; reflexivity).
  assert (H0 : 0 <= RegisteredSensorCount Sim.booted) by (vm_compute; discriminate).
  assert (Hmax : RegisteredSensorCount Sim.booted + 23 <= INT_MAX)
    by (vm_compute; discriminate).
  split; [exact Hrun |]. split; [exact H0 |]. split; [exact Hmax |].
  split; [vm_compute; reflexivity |].
  exact (dm_init_registers_without_config Sim.P0 Sim.booted Bench.after_dm Hrun H0 Hmax).
Defined.
